(** * Vehicle Diagnostic Assistant: gateway, schemas and request handlers

    A shallow embedding of [llm_client.py], [schemas.py] and [main.py].

    - Python [str] values are sequences of Unicode code points; a code point
      is a number ([N]), so that the characters produced by JSON [\uXXXX]
      escapes and the non-ASCII white space removed by [str.strip] are
      covered.
    - The value returned by [json.loads] is a [pyval]; a [dict] is a finite
      map ([gmap]) from keys to values, which has Python's [==] on dicts as
      its equality.
    - The handlers run in a small monad [M] that reads the external
      collaborators (the LLM service, the image decoder), records what is
      printed, and may raise an exception.
    - Two limits of the interpreter reach the decoder of [json.loads]: the
      number of digits that [int] converts, and the depth of recursion. They
      are part of the environment of a run.
    - [print] is taken to succeed: the standard output accepts every line.
      The response that a handler returns is taken to be encodable as
      JSON. *)

From Stdlib Require Import ZArith NArith Ascii String DecimalString.
From Equations Require Import Equations.
From stdpp Require Import gmap list strings.

#[local] Set Warnings "-register-all".
#[local] Open Scope N_scope.

(* ===================================================================== *)
(** ** Python strings *)
(* ===================================================================== *)

Abbreviation char := N.
Abbreviation str := (list N).

(** A string literal: one code point per character of the Rocq string. *)
Definition py (s : string) : str := N_of_ascii <$> list_ascii_of_string s.

(** The same with every apostrophe read as a double quote, to write JSON
    text. *)
Definition json_text (s : string) : str :=
  (λ c, if N.eqb c 39 then 34 else c) <$> py s.

Definition eqc (c : char) (a : ascii) : bool := N.eqb c (N_of_ascii a).

Definition dquote : char := 34.
Definition backslash : char := 92.
Definition newline : str := [10].

(** [str.isspace] on one code point (the table of CPython's
    [_PyUnicode_IsWhitespace]). *)
Definition whitespace : list char :=
  [9; 10; 11; 12; 13; 28; 29; 30; 31; 32; 133; 160; 5760;
   8192; 8193; 8194; 8195; 8196; 8197; 8198; 8199; 8200; 8201; 8202;
   8232; 8233; 8239; 8287; 12288].

Definition isspace (c : char) : bool := bool_decide (c ∈ whitespace).

Fixpoint lstrip (s : str) : str :=
  match s with
  | c :: s' => if isspace c then lstrip s' else s
  | [] => []
  end.

Definition rstrip (s : str) : str := reverse (lstrip (reverse s)).

(** [s.strip()] *)
Definition strip (s : str) : str := rstrip (lstrip s).

(** [s.startswith(p)] *)
Fixpoint startswith (p s : str) : bool :=
  match p, s with
  | [], _ => true
  | a :: p', b :: s' => N.eqb a b && startswith p' s'
  | _ :: _, [] => false
  end.

(** [p in s] for two strings *)
Fixpoint contains (p s : str) : bool :=
  match s with
  | [] => startswith p []
  | _ :: s' => startswith p s || contains p s'
  end.

(** [s.replace(old, new)] for a non-empty [old]: occurrences are found from
    the left and do not overlap. *)
Equations? replace_from (old new s : str) : str by wf (length s) lt :=
  replace_from old new [] := [];
  replace_from old new (c :: s) with startswith old (c :: s) => {
    | true := new ++ replace_from old new (drop (length old - 1) s);
    | false := c :: replace_from old new s }.
Proof. all: simpl; rewrite ?length_drop; lia. Qed.

(** [s.replace(old, new)]; with an empty [old], [new] goes before every
    character and at the end. *)
Definition replace (old new s : str) : str :=
  match old with
  | [] => new ++ (s ≫= λ c, c :: new)
  | _ :: _ => replace_from old new s
  end.

(** [sep.join(parts)] *)
Fixpoint join (sep : str) (parts : list str) : str :=
  match parts with
  | [] => []
  | [p] => p
  | p :: rest => p ++ sep ++ join sep rest
  end.

(** [str(n)] for an [int] *)
Definition str_of_int (n : Z) : str := py (NilZero.string_of_int (Z.to_int n)).

(* ===================================================================== *)
(** ** Values produced by [json.loads] *)
(* ===================================================================== *)

(** A [float] is kept as the literal it was read from. *)
Inductive pyval :=
| PyNone
| PyBool (b : bool)
| PyInt (n : Z)
| PyFloat (literal : str)
| PyStr (s : str)
| PyList (items : list pyval)
| PyDict (d : gmap str pyval).

(* ===================================================================== *)
(** ** [json.loads]

    The decoder reads the text from left to right, one code point at a time;
    [frame]s are the arrays and objects that are still open. It accepts
    what Python's decoder accepts: JSON, and the extra constants [NaN],
    [Infinity] and [-Infinity]; control characters inside strings are
    refused. It stops at the first thing that goes wrong. *)
(* ===================================================================== *)

(** Why the decoder stops: the text is not JSON ([json.JSONDecodeError]);
    an integer literal has more digits than [int] converts ([ValueError],
    which is no [JSONDecodeError]); arrays and objects are nested deeper
    than the interpreter follows, or so deep that it has no room left to
    build the error for a text that is not JSON ([RecursionError]). *)
Inductive json_error := NotJSON | IntTooLong | TooDeep.

(** The limits of the interpreter that the decoder meets.
    [int_max_str_digits] is [sys.get_int_max_str_digits()]: 4300 unless it
    was set, and 0 where there is no limit. [recursion_room] is the number
    of arrays and objects that can be open at once: what the recursion
    limit leaves to the decoder where it is called. [error_frames] is the
    number of levels of recursion that the decoder takes to build a
    [JSONDecodeError] where it stands, inside the arrays and objects that
    are open: 3 in CPython 3.11. (The errors that say [Expecting value] or
    [Extra data] are built outside, and take none.) *)
Record Limits := {
  int_max_str_digits : N;
  recursion_room : nat;
  error_frames : nat }.

(** An interpreter with its default settings: 4300 digits, and a recursion
    limit of 1000 of which the calls around the decoder use a hundred. *)
Definition cpython_defaults : Limits :=
  {| int_max_str_digits := 4300; recursion_room := 900; error_frames := 3 |}.

(** The same without a limit on digits, as in the releases of Python that
    do not have it. *)
Definition no_digit_limit : Limits :=
  {| int_max_str_digits := 0; recursion_room := 900; error_frames := 3 |}.

Inductive frame :=
| InList (items : list pyval)                    (* the items read, last first *)
| InDictKey (pairs : gmap str pyval)             (* before a key or its [:] *)
| InDictValue (pairs : gmap str pyval) (key : str).

Inductive constant := CNull | CTrue | CFalse | CNaN | CInfinity | CNegInfinity.

Definition constant_text (k : constant) : str :=
  match k with
  | CNull => py "null" | CTrue => py "true" | CFalse => py "false"
  | CNaN => py "NaN" | CInfinity => py "Infinity"
  | CNegInfinity => py "-Infinity"
  end.

Definition constant_value (k : constant) : pyval :=
  match k with
  | CNull => PyNone | CTrue => PyBool true | CFalse => PyBool false
  | k => PyFloat (constant_text k)
  end.

(** Where the decoder is inside a number: an optional minus sign, then a
    zero or a run of digits that does not start with a zero, then an optional
    point with digits, then an optional exponent. *)
Inductive number_part :=
| NMinus | NZero | NDigits | NPoint | NFraction | NExp | NExpSign | NExpDigits.

(** Where the decoder is inside a string; [paired] tells that the
    character just read came from a [\u] escape and is a high surrogate. *)
Inductive string_part :=
| SChars (paired : bool)
| SEscape (paired : bool)
| SHex (paired : bool) (digits : list N).

Inductive mode :=
| BeforeValue (first : bool)     (* [first]: just after [[], so []] may follow *)
| BeforeKey (first : bool)       (* [first]: just after [{], so [}] may follow *)
| BeforeColon (key : str)
| AfterValue (v : pyval)
| InString (read : str) (part : string_part)      (* [read]: last first *)
| InNumber (read : str) (part : number_part)      (* [read]: last first *)
| InConstant (k : constant) (pos : nat).

Record decoder := Decoder { stack : list frame; current : mode }.

Definition json_space (c : char) : bool :=
  eqc c " " || N.eqb c 9 || N.eqb c 10 || N.eqb c 13.

Definition isdigit (c : char) : bool := N.leb 48 c && N.leb c 57.

Definition hex_value (c : char) : option N :=
  if N.leb 48 c && N.leb c 57 then Some (c - 48)
  else if N.leb 65 c && N.leb c 70 then Some (c - 55)
  else if N.leb 97 c && N.leb c 102 then Some (c - 87)
  else None.

Definition int_of_digits (ds : str) : N :=
  foldl (λ acc d, 10 * acc + (d - 48)) 0 ds.

(** A text that is refused where the decoder stands, inside the open arrays
    and objects [st]: the [JSONDecodeError] is built there, if the
    interpreter has room for it. *)
Definition refused (L : Limits) (st : list frame) : json_error :=
  if Nat.leb (length st + error_frames L) (recursion_room L) then NotJSON else TooDeep.

(** A text that is refused after a value: inside an array or an object, a
    delimiter is missing; after the last value, there is more text, which is
    found outside the decoder. *)
Definition refused_after (L : Limits) (st : list frame) : json_error :=
  match st with [] => NotJSON | _ :: _ => refused L st end.

Definition inside {A} (L : Limits) (st : list frame) (r : option A) : json_error + A :=
  match r with Some a => inr a | None => inl (refused L st) end.

Definition after {A} (L : Limits) (st : list frame) (r : option A) : json_error + A :=
  match r with Some a => inr a | None => inl (refused_after L st) end.

(** [int] refuses a literal of more than [int_max_str_digits] digits; the
    limit cannot be set below 640, and shorter literals are never
    checked. *)
Definition too_long (L : Limits) (digits : str) : bool :=
  let n := N.of_nat (length digits) in
  N.ltb 0 (int_max_str_digits L) && N.ltb (int_max_str_digits L) n && N.ltb 640 n.

Definition unsigned (text : str) : str :=
  match text with 45 :: ds => ds | ds => ds end.

Fixpoint leading_digits (text : str) : str :=
  match text with
  | c :: text' => if isdigit c then c :: leading_digits text' else []
  | [] => []
  end.

(** [int(text)] for the text of an integer literal. *)
Definition int_value (L : Limits) (text : str) : json_error + pyval :=
  if too_long L (unsigned text) then inl IntTooLong
  else inr (PyInt (match text with
                   | 45 :: ds => - Z.of_N (int_of_digits ds)
                   | ds => Z.of_N (int_of_digits ds)
                   end)).

(** The value of the number whose text [text] was read, when nothing more
    of it follows. A number is converted as soon as it is read, before what
    follows it is looked at. After a point or an exponent that has no
    digits, the number is what comes before: an integer, which is converted
    and may be too long, or a float; the point or the exponent is then text
    that follows a value and cannot ([None]). A minus sign alone is no
    value. *)
Definition number_value (L : Limits) (text : str) (part : number_part)
  : json_error + option pyval :=
  match part with
  | NZero | NDigits =>
      match int_value L text with inr v => inr (Some v) | inl e => inl e end
  | NFraction | NExpDigits => inr (Some (PyFloat text))
  | NMinus => inl NotJSON
  | NPoint | NExp | NExpSign =>
      let ds := leading_digits (unsigned text) in
      match drop (length ds) (unsigned text) with
      | 46 :: _ :: _ => inr None
      | _ => if too_long L ds then inl IntTooLong else inr None
      end
  end.

(** The next part of a number after [c], when [c] continues it. *)
Definition number_next (part : number_part) (c : char) : option number_part :=
  match part with
  | NMinus => if eqc c "0" then Some NZero
              else if isdigit c then Some NDigits else None
  | NZero => if eqc c "." then Some NPoint
             else if eqc c "e" || eqc c "E" then Some NExp else None
  | NDigits => if isdigit c then Some NDigits
               else if eqc c "." then Some NPoint
               else if eqc c "e" || eqc c "E" then Some NExp else None
  | NPoint => if isdigit c then Some NFraction else None
  | NFraction => if isdigit c then Some NFraction
                 else if eqc c "e" || eqc c "E" then Some NExp else None
  | NExp => if isdigit c then Some NExpDigits
            else if eqc c "+" || eqc c "-" then Some NExpSign else None
  | NExpSign => if isdigit c then Some NExpDigits else None
  | NExpDigits => if isdigit c then Some NExpDigits else None
  end.

(** A character read after a complete value [v]. *)
Definition after_value (st : list frame) (v : pyval) (c : char) : option decoder :=
  if json_space c then Some (Decoder st (AfterValue v))
  else if eqc c "," then
    match st with
    | InList items :: st' => Some (Decoder (InList (v :: items) :: st') (BeforeValue false))
    | InDictValue pairs key :: st' =>
        Some (Decoder (InDictKey (<[key:=v]> pairs) :: st') (BeforeKey false))
    | _ => None
    end
  else if eqc c "]" then
    match st with
    | InList items :: st' => Some (Decoder st' (AfterValue (PyList (reverse (v :: items)))))
    | _ => None
    end
  else if eqc c "}" then
    match st with
    | InDictValue pairs key :: st' => Some (Decoder st' (AfterValue (PyDict (<[key:=v]> pairs))))
    | _ => None
    end
  else None.

(** The closing quote of a string: a key inside an object that waits for
    one, a value otherwise. *)
Definition end_string (st : list frame) (s : str) : decoder :=
  match st with
  | InDictKey _ :: _ => Decoder st (BeforeColon s)
  | _ => Decoder st (AfterValue (PyStr s))
  end.

Definition simple_escape (c : char) : option char :=
  if N.eqb c dquote then Some dquote
  else if N.eqb c backslash then Some backslash
  else if eqc c "/" then Some 47
  else if eqc c "b" then Some 8
  else if eqc c "f" then Some 12
  else if eqc c "n" then Some 10
  else if eqc c "r" then Some 13
  else if eqc c "t" then Some 9
  else None.

Definition is_high_surrogate (u : N) : bool := N.leb 55296 u && N.leb u 56319.
Definition is_low_surrogate (u : N) : bool := N.leb 56320 u && N.leb u 57343.

(** A character inside a string. *)
Definition string_step (st : list frame) (read : str) (part : string_part)
    (c : char) : option decoder :=
  match part with
  | SChars paired =>
      if N.eqb c dquote then Some (end_string st (reverse read))
      else if N.eqb c backslash then Some (Decoder st (InString read (SEscape paired)))
      else if N.ltb c 32 then None
      else Some (Decoder st (InString (c :: read) (SChars false)))
  | SEscape paired =>
      if eqc c "u" then Some (Decoder st (InString read (SHex paired [])))
      else e ← simple_escape c;
           Some (Decoder st (InString (e :: read) (SChars false)))
  | SHex paired digits =>
      h ← hex_value c;
      match digits with
      | [a; b; d] =>
          let u := ((a * 16 + b) * 16 + d) * 16 + h in
          match read with
          | hi :: read' =>
              if paired && is_low_surrogate u
              then Some (Decoder st (InString
                     (65536 + (N.shiftl (hi - 55296) 10 + (u - 56320)) :: read')
                     (SChars false)))
              else Some (Decoder st (InString (u :: read) (SChars (is_high_surrogate u))))
          | [] => Some (Decoder st (InString [u] (SChars (is_high_surrogate u))))
          end
      | _ => Some (Decoder st (InString read (SHex paired (digits ++ [h]))))
      end
  end.

(** An array or an object is entered only while the interpreter has room
    for one more. *)
Definition enter (L : Limits) (st : list frame) (s : decoder) : json_error + decoder :=
  if Nat.ltb (length st) (recursion_room L) then inr s else inl TooDeep.

(** A character where a value must start. *)
Definition value_start (L : Limits) (st : list frame) (first : bool) (c : char)
  : json_error + decoder :=
  if json_space c then inr (Decoder st (BeforeValue first))
  else if N.eqb c dquote then inr (Decoder st (InString [] (SChars false)))
  else if eqc c "{" then enter L st (Decoder (InDictKey ∅ :: st) (BeforeKey true))
  else if eqc c "[" then enter L st (Decoder (InList [] :: st) (BeforeValue true))
  else if eqc c "]" then
    match first, st with
    | true, InList _ :: st' => inr (Decoder st' (AfterValue (PyList [])))
    | _, _ => inl NotJSON
    end
  else if eqc c "n" then inr (Decoder st (InConstant CNull 1))
  else if eqc c "t" then inr (Decoder st (InConstant CTrue 1))
  else if eqc c "f" then inr (Decoder st (InConstant CFalse 1))
  else if eqc c "N" then inr (Decoder st (InConstant CNaN 1))
  else if eqc c "I" then inr (Decoder st (InConstant CInfinity 1))
  else if eqc c "-" then inr (Decoder st (InNumber [c] NMinus))
  else if eqc c "0" then inr (Decoder st (InNumber [c] NZero))
  else if isdigit c then inr (Decoder st (InNumber [c] NDigits))
  else inl NotJSON.

(** One character of input. *)
Definition step (L : Limits) (s : decoder) (c : char) : json_error + decoder :=
  let st := stack s in
  match current s with
  | BeforeValue first => value_start L st first c
  | BeforeKey first =>
      if json_space c then inr s
      else if N.eqb c dquote then inr (Decoder st (InString [] (SChars false)))
      else if eqc c "}" then
        match first, st with
        | true, InDictKey pairs :: st' => inr (Decoder st' (AfterValue (PyDict pairs)))
        | _, _ => inl (refused L st)
        end
      else inl (refused L st)
  | BeforeColon key =>
      if json_space c then inr s
      else if eqc c ":" then
        match st with
        | InDictKey pairs :: st' =>
            inr (Decoder (InDictValue pairs key :: st') (BeforeValue false))
        | _ => inl (refused L st)
        end
      else inl (refused L st)
  | AfterValue v => after L st (after_value st v c)
  | InString read part => inside L st (string_step st read part c)
  | InNumber read part =>
      match number_next part c with
      | Some part' => inr (Decoder st (InNumber (c :: read) part'))
      | None =>
          match part, eqc c "I" with
          | NMinus, true => inr (Decoder st (InConstant CNegInfinity 2))
          | _, _ =>
              match number_value L (reverse read) part with
              | inr (Some v) => after L st (after_value st v c)
              | inr None => inl (refused_after L st)
              | inl e => inl e
              end
          end
      end
  | InConstant k pos =>
      match constant_text k !! pos with
      | Some expected =>
          if N.eqb c expected then
            if Nat.eqb (S pos) (length (constant_text k))
            then inr (Decoder st (AfterValue (constant_value k)))
            else inr (Decoder st (InConstant k (S pos)))
          else inl NotJSON
      | None => inl NotJSON
      end
  end.

Fixpoint run (L : Limits) (s : decoder) (text : str) : json_error + decoder :=
  match text with
  | [] => inr s
  | c :: text' =>
      match step L s c with
      | inr s' => run L s' text'
      | inl e => inl e
      end
  end.

(** The value at the end of the text. A number that the text ends with is
    converted before an array or an object is found to be left open. Where
    a value is missing at the end, or a constant is cut short, the error is
    built outside the decoder. *)
Definition finish (L : Limits) (s : decoder) : json_error + pyval :=
  let st := stack s in
  match current s with
  | AfterValue v => match st with [] => inr v | _ :: _ => inl (refused L st) end
  | InNumber read part =>
      match number_value L (reverse read) part, st with
      | inr (Some v), [] => inr v
      | inr _, _ => inl (refused_after L st)
      | inl e, _ => inl e
      end
  | BeforeValue _ | InConstant _ _ => inl NotJSON
  | BeforeKey _ | BeforeColon _ | InString _ _ => inl (refused L st)
  end.

Definition start : decoder := Decoder [] (BeforeValue false).

(** [json.loads(text)] *)
Definition json_loads (L : Limits) (text : str) : json_error + pyval :=
  match run L start text with
  | inr s => finish L s
  | inl e => inl e
  end.

(* ===================================================================== *)
(** ** schemas.py

    The classes derive from pydantic's [BaseModel] and are records here. A
    class called on the keyword arguments [data] validates them field by
    field, in the order of the class, ignores the keys that are no field,
    and raises one [ValidationError] that lists the errors of all fields. *)
(* ===================================================================== *)

Record Vehicle := { make : str; model : str; year : Z }.
Record Problem := { name : str; description : str }.
Record Severity := { level : str; message : str }.
Record EstimatedCost := { range : str; disclaimer : str }.
Record HistoryTurn := { role : str; content : str }.
Record ConversationTurnRequest := { vehicle : Vehicle; history : list HistoryTurn }.
Record VehicleTextRequest := { query : str }.
Record DiagnosticReportResponse := {
  potential_problems : list Problem;
  severity : Severity;
  next_steps : list str;
  estimated_cost : EstimatedCost;
  disclaimers : list str }.
Record ErrorResponse := { error : str }.

(** [Literal["CRITICAL", "CAUTION", "INFORMATION"]] *)
Definition Severity_levels : list str :=
  [py "CRITICAL"; py "CAUTION"; py "INFORMATION"].

(** One entry of a [ValidationError]: what is wrong, where, and the value
    that was refused. *)
Inductive loc_item := Key (k : str) | Index (i : nat).

Inductive error_type :=
| missing
| string_type
| int_type
| int_parsing
| int_from_float
| list_type
| model_type (cls : str)
| literal_error (expected : list str).

Record ErrorDetails := { type_ : error_type; loc : list loc_item; input : pyval }.

(** The values of a [Literal], as an error shows them: ['a'], ['a' or 'b'],
    ['a', 'b' or 'c']. *)
Fixpoint one_of (expected : list str) : str :=
  match expected with
  | [] => []
  | [a] => py "'" ++ a ++ py "'"
  | [a; b] => py "'" ++ a ++ py "' or '" ++ b ++ py "'"
  | a :: rest => py "'" ++ a ++ py "', " ++ one_of rest
  end.

(** The text shown for an error. *)
Definition error_msg (t : error_type) : str :=
  match t with
  | missing => py "Field required"
  | string_type => py "Input should be a valid string"
  | int_type => py "Input should be a valid integer"
  | int_parsing =>
      py "Input should be a valid integer, unable to parse string as an integer"
  | int_from_float =>
      py "Input should be a valid integer, got a number with a fractional part"
  | list_type => py "Input should be a valid list"
  | model_type cls => py "Input should be a valid dictionary or instance of " ++ cls
  | literal_error expected => py "Input should be " ++ one_of expected
  end.

Definition validated (A : Type) : Type := list ErrorDetails + A.
Definition validator (A : Type) : Type := pyval → validated A.

Definition invalid {A} (t : error_type) (v : pyval) : validated A :=
  inl [ {| type_ := t; loc := []; input := v |} ].

(** The errors of a part, reported from the whole. *)
Definition within {A} (l : loc_item) (r : validated A) : validated A :=
  match r with
  | inl es => inl ((λ e, {| type_ := type_ e; loc := l :: loc e; input := input e |}) <$> es)
  | inr a => inr a
  end.

(** Two parts validated one after the other; the errors of both are kept. *)
Definition ap {A B} (f : validated (A → B)) (x : validated A) : validated B :=
  match f, x with
  | inr f, inr x => inr (f x)
  | inl es, inr _ => inl es
  | inr _, inl es => inl es
  | inl es, inl es' => inl (es ++ es')
  end.

Infix "<*>" := ap (at level 61, left associativity).

(** The errors of a validation; none where it succeeds. *)
Definition errors_of {A} (r : validated A) : list ErrorDetails :=
  match r with inl es => es | inr _ => [] end.

(** The conversions that the validation library applies, in its default
    (lax) mode, to an input that is not already of the type of the field: for
    instance a numeric string, or a float without fraction, given for an
    [int]. A conversion gives the converted value or the error to report.
    Which conversions exist depends on the version of the library; the
    development holds for all of them. *)
Record LaxMode := {
  lax_str : pyval → error_type + str;
  lax_int : pyval → error_type + Z }.

(** A library that converts nothing. *)
Definition strict_mode : LaxMode :=
  {| lax_str := λ _, inl string_type; lax_int := λ _, inl int_type |}.

(** A library that reads a string of digits and a boolean as an [int]. *)
Definition digits_mode : LaxMode :=
  {| lax_str := λ _, inl string_type;
     lax_int := λ v,
       match v with
       | PyStr (d :: ds) =>
           if forallb isdigit (d :: ds) then inr (Z.of_N (int_of_digits (d :: ds)))
           else inl int_parsing
       | PyBool b => inr (if b then 1 else 0)%Z
       | _ => inl int_type
       end |}.

Section Validation.

Variable lax : LaxMode.

(** A field of type [str]. *)
Definition str_validator : validator str := λ v,
  match v with
  | PyStr s => inr s
  | _ => match lax_str lax v with inr s => inr s | inl t => invalid t v end
  end.

(** A field of type [int]. *)
Definition int_validator : validator Z := λ v,
  match v with
  | PyInt n => inr n
  | _ => match lax_int lax v with inr n => inr n | inl t => invalid t v end
  end.

(** A field of type [Literal[...]]: one of the strings, as it is. *)
Definition literal_validator (expected : list str) : validator str := λ v,
  match v with
  | PyStr s => if bool_decide (s ∈ expected) then inr s
               else invalid (literal_error expected) v
  | _ => invalid (literal_error expected) v
  end.

(** A field of type [List[...]]: every item is validated, from index [i]
    on. *)
Fixpoint items_from {A} (item : validator A) (i : nat) (l : list pyval) : validated (list A) :=
  match l with
  | [] => inr []
  | v :: l' => inr cons <*> within (Index i) (item v) <*> items_from item (S i) l'
  end.

Definition list_validator {A} (item : validator A) : validator (list A) := λ v,
  match v with
  | PyList l => items_from item 0 l
  | _ => invalid list_type v
  end.

(** A field of a model: required, and validated where it is present. *)
Definition field {A} (key : str) (val : validator A) (data : gmap str pyval) : validated A :=
  match data !! key with
  | Some v => within (Key key) (val v)
  | None => inl [ {| type_ := missing; loc := [Key key]; input := PyDict data |} ]
  end.

(** A model used as the type of a field. *)
Definition model_validator {A} (cls : str) (fields : gmap str pyval → validated A) : validator A := λ v,
  match v with
  | PyDict data => fields data
  | _ => invalid (model_type cls) v
  end.

(** The classes of [schemas.py] that validate a result of the service. *)
Definition Vehicle_fields (data : gmap str pyval) : validated Vehicle :=
  inr Build_Vehicle
    <*> field (py "make") str_validator data
    <*> field (py "model") str_validator data
    <*> field (py "year") int_validator data.

Definition Problem_fields (data : gmap str pyval) : validated Problem :=
  inr Build_Problem
    <*> field (py "name") str_validator data
    <*> field (py "description") str_validator data.

Definition Severity_fields (data : gmap str pyval) : validated Severity :=
  inr Build_Severity
    <*> field (py "level") (literal_validator Severity_levels) data
    <*> field (py "message") str_validator data.

Definition EstimatedCost_fields (data : gmap str pyval) : validated EstimatedCost :=
  inr Build_EstimatedCost
    <*> field (py "range") str_validator data
    <*> field (py "disclaimer") str_validator data.

Definition DiagnosticReportResponse_fields (data : gmap str pyval)
  : validated DiagnosticReportResponse :=
  inr Build_DiagnosticReportResponse
    <*> field (py "potential_problems")
          (list_validator (model_validator (py "Problem") Problem_fields)) data
    <*> field (py "severity") (model_validator (py "Severity") Severity_fields) data
    <*> field (py "next_steps") (list_validator str_validator) data
    <*> field (py "estimated_cost")
          (model_validator (py "EstimatedCost") EstimatedCost_fields) data
    <*> field (py "disclaimers") (list_validator str_validator) data.

End Validation.

(** What a validated model is sent back as ([model_dump]). *)
Definition dict (items : list (str * pyval)) : pyval := PyDict (list_to_map items).

Definition Vehicle_dump (v : Vehicle) : pyval :=
  dict [(py "make", PyStr (make v)); (py "model", PyStr (model v));
        (py "year", PyInt (year v))].

Definition Problem_dump (p : Problem) : pyval :=
  dict [(py "name", PyStr (name p)); (py "description", PyStr (description p))].

Definition Severity_dump (s : Severity) : pyval :=
  dict [(py "level", PyStr (level s)); (py "message", PyStr (message s))].

Definition EstimatedCost_dump (c : EstimatedCost) : pyval :=
  dict [(py "range", PyStr (range c)); (py "disclaimer", PyStr (disclaimer c))].

Definition DiagnosticReportResponse_dump (r : DiagnosticReportResponse) : pyval :=
  dict [(py "potential_problems", PyList (Problem_dump <$> potential_problems r));
        (py "severity", Severity_dump (severity r));
        (py "next_steps", PyList (PyStr <$> next_steps r));
        (py "estimated_cost", EstimatedCost_dump (estimated_cost r));
        (py "disclaimers", PyList (PyStr <$> disclaimers r))].

(* ===================================================================== *)
(** ** The shapes of the data model

    What it means for a JSON value to have the shape of a [Vehicle] or of a
    [DiagnosticReport]: an object with exactly the fields of the shape, each
    of its type. *)
(* ===================================================================== *)

Definition is_string (v : pyval) : bool :=
  match v with PyStr _ => true | _ => false end.

Definition is_integer (v : pyval) : bool :=
  match v with PyInt _ => true | _ => false end.

Definition is_one_of (allowed : list str) (v : pyval) : bool :=
  match v with PyStr s => bool_decide (s ∈ allowed) | _ => false end.

Definition is_sequence_of (p : pyval → bool) (v : pyval) : bool :=
  match v with PyList l => forallb p l | _ => false end.

Definition is_object (fields : list (str * (pyval → bool))) (v : pyval) : bool :=
  match v with
  | PyDict d =>
      bool_decide (dom d = list_to_set fields.*1)
      && forallb (λ f, match d !! f.1 with Some x => f.2 x | None => false end) fields
  | _ => false
  end.

Definition Vehicle_shape : pyval → bool :=
  is_object [(py "make", is_string); (py "model", is_string); (py "year", is_integer)].

Definition Problem_shape : pyval → bool :=
  is_object [(py "name", is_string); (py "description", is_string)].

Definition Severity_shape : pyval → bool :=
  is_object [(py "level", is_one_of [py "CRITICAL"; py "CAUTION"; py "INFORMATION"]);
             (py "message", is_string)].

Definition EstimatedCost_shape : pyval → bool :=
  is_object [(py "range", is_string); (py "disclaimer", is_string)].

Definition DiagnosticReport_shape : pyval → bool :=
  is_object [(py "potential_problems", is_sequence_of Problem_shape);
             (py "severity", Severity_shape);
             (py "next_steps", is_sequence_of is_string);
             (py "estimated_cost", EstimatedCost_shape);
             (py "disclaimers", is_sequence_of is_string)].

(* ===================================================================== *)
(** ** Exceptions, collaborators and the monad of the handlers *)
(* ===================================================================== *)

Inductive exn :=
| AttributeError
| JSONDecodeError
| TypeError
| KeyError
| ValueError
| RecursionError
| ValidationError (title : str) (errors : list ErrorDetails)
| HTTPException (status_code : Z) (detail : pyval)
| Failure (what : str).          (* raised by a collaborator *)

(** The three instruction texts of [llm_client.py]; the service is told
    which one applies. *)
Inductive instruction := SYSTEM_PROMPT | vin_system_prompt | text_system_prompt.

Definition MODEL_NAME : str := py "gemini-2.5-flash".

Inductive image := Image (data : list Byte.byte).

Inductive part := Text (s : str) | Picture (i : image).

(** The reply of the service. [text] is what reading [response.text] gives:
    the text, or the exception that reading it raises. That is
    [AttributeError] for an object that has no such attribute or whose
    [text] is [None] (then [.strip] is missing); the accessor of the library
    raises [ValueError] for a reply that has no part with text. *)
Record GenerateContentResponse := { text : exn + str }.

(** The environment of a run: the LLM service, the image decoder, and the
    limits of the interpreter. *)
Record World := {
  generate_content : str → instruction → list part → exn + GenerateContentResponse;
  Image_open : list Byte.byte → exn + image;
  limits : Limits }.

(** What a run leaves behind. [Construct] marks that a schema class was
    called on [data]. *)
Inductive event :=
| Printed (line : str)
| PrintedExn (line : str) (e : exn)             (* [line] followed by [str(e)] *)
| Request (system : instruction) (contents : list part)
| Construct (cls : str) (data : pyval).

Definition M (A : Type) : Type := World → list event * (exn + A).

#[global] Instance M_ret : MRet M := λ A a _, ([], inr a).

#[global] Instance M_bind : MBind M := λ A B f m w,
  match m w with
  | (evs, inr a) => let '(evs', r) := f a w in (evs ++ evs', r)
  | (evs, inl e) => (evs, inl e)
  end.

#[global] Instance M_fmap : FMap M := λ A B f m, a ← m; mret (f a).

Definition raise {A} (e : exn) : M A := λ _, ([], inl e).

Definition emit (ev : event) : M unit := λ _, ([ev], inr tt).

Definition lift {A} (r : exn + A) : M A := λ _, ([], r).

(** A call to a collaborator. *)
Definition call {A} (f : World → exn + A) : M A := λ w, ([], f w).

(** [try: body except <classes> as e: handler e] *)
Definition try_except {A} (body : M A) (classes : exn → bool) (handler : exn → M A) : M A :=
  λ w, match body w with
       | (evs, inl e) =>
           if classes e then let '(evs', r) := handler e w in (evs ++ evs', r)
           else (evs, inl e)
       | (evs, inr a) => (evs, inr a)
       end.

(** [http.HTTPStatus(status_code).phrase], for the status that the handlers
    use and its neighbours. *)
Definition phrase (status_code : Z) : str :=
  if (status_code =? 500)%Z then py "Internal Server Error"
  else if (status_code =? 400)%Z then py "Bad Request"
  else if (status_code =? 404)%Z then py "Not Found"
  else if (status_code =? 503)%Z then py "Service Unavailable"
  else [].

(** [HTTPException(status_code=..., detail=...)]: the constructor puts the
    phrase of the status in the place of a detail that is [None]. *)
Definition HTTPException_new (status_code : Z) (detail : pyval) : exn :=
  HTTPException status_code
    (match detail with PyNone => PyStr (phrase status_code) | _ => detail end).

(** [print(line)]; the standard output is taken to accept every line. *)
Definition print (line : str) : M unit := emit (Printed line).
Definition print_exn (line : str) (e : exn) : M unit := emit (PrintedExn line e).

(** [genai.GenerativeModel(MODEL_NAME, system_instruction=system).generate_content(contents)] *)
Definition model_generate_content (system : instruction) (contents : list part)
  : M GenerateContentResponse :=
  emit (Request system contents);;
  call (λ w, generate_content w MODEL_NAME system contents).

(** [Image.open(io.BytesIO(image_bytes))] *)
Definition open_image (image_bytes : list Byte.byte) : M image :=
  call (λ w, Image_open w image_bytes).

(** [key in container] *)
Definition py_in (key : str) (container : pyval) : exn + bool :=
  match container with
  | PyDict d => inr (bool_decide (is_Some (d !! key)))
  | PyList l => inr (existsb (λ x, match x with
                                   | PyStr s => bool_decide (s = key)
                                   | _ => false
                                   end) l)
  | PyStr s => inr (contains key s)
  | _ => inl TypeError
  end.

(** [container[key]] *)
Definition py_getitem (container : pyval) (key : str) : exn + pyval :=
  match container with
  | PyDict d => match d !! key with Some v => inr v | None => inl KeyError end
  | _ => inl TypeError
  end.

(** A schema class called on [data] with two stars: the keyword arguments
    must come from a mapping. *)
Definition construct {A} (cls : str) (fields : gmap str pyval → validated A)
    (data : pyval) : M A :=
  emit (Construct cls data);;
  match data with
  | PyDict d =>
      match fields d with
      | inr a => mret a
      | inl errors => raise (ValidationError cls errors)
      end
  | _ => raise TypeError
  end.

(* ===================================================================== *)
(** ** llm_client.py *)
(* ===================================================================== *)

(** [except (json.JSONDecodeError, AttributeError)] *)
Definition decode_errors (e : exn) : bool :=
  match e with JSONDecodeError | AttributeError => true | _ => false end.

(** [response.text.strip().replace("```json", "").replace("```", "").strip()] *)
Definition clean (text : str) : str :=
  strip (replace (py "```") [] (replace (py "```json") [] (strip text))).

(** The exception that [json.loads] raises. *)
Definition raised (e : json_error) : exn :=
  match e with
  | NotJSON => JSONDecodeError
  | IntTooLong => ValueError
  | TooDeep => RecursionError
  end.

(** The body of the [try] of the four functions. *)
Definition read_json (response : GenerateContentResponse) : M pyval :=
  response_text ← lift (text response);
  let raw_json := clean response_text in
  call (λ w, match json_loads (limits w) raw_json with
             | inr v => inr v
             | inl e => inl (raised e)
             end).

(** The dict that a gateway function returns from its [except]. *)
Definition error_dict (msg : str) : pyval := PyDict {[ py "error" := PyStr msg ]}.

Definition get_diagnostic_from_llm (vehicle : Vehicle) (history : list HistoryTurn) : M pyval :=
  let chat_history_str :=
    join newline ((λ turn, role turn ++ py ": " ++ content turn) <$> history) in
  let user_prompt :=
    newline ++ py "    Vehicle: " ++ str_of_int (year vehicle) ++ py " "
      ++ make vehicle ++ py " " ++ model vehicle ++ newline
      ++ py "    Conversation History:" ++ newline
      ++ py "    " ++ chat_history_str ++ newline ++ py "    " in
  print (py "--- Sending prompt to LLM ---");;
  response ← model_generate_content SYSTEM_PROMPT [Text user_prompt];
  print (py "--- Received response from LLM ---");;
  try_except (read_json response) decode_errors (λ e,
    print_exn (py "Error parsing LLM response: ") e;;
    mret (error_dict
      (py "The diagnostic assistant failed to generate a valid response. Please try again."))).

Definition get_image_diagnostic_from_llm (vehicle : Vehicle) (user_prompt : str)
    (image_bytes : list Byte.byte) : M pyval :=
  image ← open_image image_bytes;
  let full_prompt :=
    [ Text (py "Vehicle: " ++ str_of_int (year vehicle) ++ py " " ++ make vehicle
            ++ py " " ++ model vehicle ++ newline);
      Text (py "User's question: " ++ user_prompt ++ newline ++ newline);
      Text (py "Analyze the attached image and the user's question, then provide a full diagnostic report in the required JSON format.");
      Picture image ] in
  print (py "--- Sending image and prompt to LLM ---");;
  response ← model_generate_content SYSTEM_PROMPT full_prompt;
  print (py "--- Received response from LLM ---");;
  try_except (read_json response) decode_errors (λ e,
    print_exn (py "Error parsing LLM response: ") e;;
    mret (error_dict
      (py "The diagnostic assistant failed to generate a valid response from the image."))).

Definition get_vehicle_info_from_image (image_bytes : list Byte.byte) : M pyval :=
  image ← open_image image_bytes;
  print (py "--- Sending VIN image to LLM ---");;
  response ← model_generate_content vin_system_prompt [Picture image];
  print (py "--- Received VIN response from LLM ---");;
  try_except (read_json response) decode_errors (λ e,
    print_exn (py "Error parsing LLM response for VIN: ") e;;
    mret (error_dict
      (py "Could not identify the vehicle from the provided image. Please try again or enter manually."))).

Definition get_vehicle_info_from_text (user_text : str) : M pyval :=
  print (py "--- Sending vehicle text to LLM: '" ++ user_text ++ py "' ---");;
  response ← model_generate_content text_system_prompt [Text user_text];
  print (py "--- Received vehicle text response from LLM ---");;
  try_except (read_json response) decode_errors (λ e,
    print_exn (py "Error parsing LLM response for text: ") e;;
    mret (error_dict
      (py "Could not identify the vehicle from the provided text. Please try again."))).

(* ===================================================================== *)
(** ** main.py *)
(* ===================================================================== *)

(** [except Exception] *)
Definition any_exception (e : exn) : bool := true.

Section Handlers.

Variable lax : LaxMode.

Definition diagnose_from_conversation (request : ConversationTurnRequest)
  : M DiagnosticReportResponse :=
  llm_result ← get_diagnostic_from_llm (vehicle request) (history request);
  failed ← lift (py_in (py "error") llm_result);
  if (failed : bool) then
    detail ← lift (py_getitem llm_result (py "error"));
    raise (HTTPException_new 500 detail)
  else
    try_except
      (validated_report ← construct (py "DiagnosticReportResponse")
                             (DiagnosticReportResponse_fields lax) llm_result;
       mret validated_report)
      any_exception
      (λ e, print_exn (py "Failed to validate LLM response: ") e;;
            raise (HTTPException_new 500
              (PyStr (py "Diagnostic assistant returned a malformed report. Please try again.")))).

Definition diagnose_from_image (make model : str) (year : Z) (prompt : str)
    (file : list Byte.byte) : M DiagnosticReportResponse :=
  let image_bytes := file in
  let vehicle := {| make := make; model := model; year := year |} in
  llm_result ← get_image_diagnostic_from_llm vehicle prompt image_bytes;
  failed ← lift (py_in (py "error") llm_result);
  if (failed : bool) then
    detail ← lift (py_getitem llm_result (py "error"));
    raise (HTTPException_new 500 detail)
  else
    try_except
      (validated_report ← construct (py "DiagnosticReportResponse")
                             (DiagnosticReportResponse_fields lax) llm_result;
       mret validated_report)
      any_exception
      (λ e, print_exn (py "Failed to validate LLM response: ") e;;
            raise (HTTPException_new 500
              (PyStr (py "Diagnostic assistant returned a malformed report. Please try again.")))).

Definition identify_vehicle_from_image (file : list Byte.byte) : M Vehicle :=
  let image_bytes := file in
  llm_result ← get_vehicle_info_from_image image_bytes;
  failed ← lift (py_in (py "error") llm_result);
  if (failed : bool) then
    detail ← lift (py_getitem llm_result (py "error"));
    raise (HTTPException_new 500 detail)
  else
    try_except
      (validated_vehicle ← construct (py "Vehicle") (Vehicle_fields lax) llm_result;
       mret validated_vehicle)
      any_exception
      (λ e, print_exn (py "Failed to validate vehicle response: ") e;;
            raise (HTTPException_new 500
              (PyStr (py "The assistant returned malformed vehicle data.")))).

Definition identify_vehicle_from_text (request : VehicleTextRequest) : M Vehicle :=
  llm_result ← get_vehicle_info_from_text (query request);
  failed ← lift (py_in (py "error") llm_result);
  if (failed : bool) then
    detail ← lift (py_getitem llm_result (py "error"));
    raise (HTTPException_new 500 detail)
  else
    try_except
      (validated_vehicle ← construct (py "Vehicle") (Vehicle_fields lax) llm_result;
       mret validated_vehicle)
      any_exception
      (λ e, print_exn (py "Failed to validate vehicle response: ") e;;
            raise (HTTPException_new 500
              (PyStr (py "The assistant returned malformed vehicle data.")))).

End Handlers.

(* ===================================================================== *)
(** ** The four operations of the application *)
(* ===================================================================== *)

Inductive request :=
| PostDiagnoseConversation (body : ConversationTurnRequest)
| PostDiagnoseImage (make model : str) (year : Z) (prompt : str) (file : list Byte.byte)
| PostVehicleIdentifyFromImage (file : list Byte.byte)
| PostVehicleIdentifyFromText (body : VehicleTextRequest).

(** The gateway function that the handler of a request calls. *)
Definition gateway (req : request) : M pyval :=
  match req with
  | PostDiagnoseConversation body =>
      get_diagnostic_from_llm (vehicle body) (history body)
  | PostDiagnoseImage make model year prompt file =>
      get_image_diagnostic_from_llm {| make := make; model := model; year := year |}
        prompt file
  | PostVehicleIdentifyFromImage file => get_vehicle_info_from_image file
  | PostVehicleIdentifyFromText body => get_vehicle_info_from_text (query body)
  end.

(** The handler of a request; what it returns is sent back as JSON. *)
Definition handle (lax : LaxMode) (req : request) : M pyval :=
  match req with
  | PostDiagnoseConversation body =>
      DiagnosticReportResponse_dump <$> diagnose_from_conversation lax body
  | PostDiagnoseImage make model year prompt file =>
      DiagnosticReportResponse_dump <$> diagnose_from_image lax make model year prompt file
  | PostVehicleIdentifyFromImage file =>
      Vehicle_dump <$> identify_vehicle_from_image lax file
  | PostVehicleIdentifyFromText body =>
      Vehicle_dump <$> identify_vehicle_from_text lax body
  end.

(** The schema class that the handler of a request calls on the result of
    the gateway. *)
Definition validate (lax : LaxMode) (req : request) (data : pyval) : M pyval :=
  match req with
  | PostDiagnoseConversation _ | PostDiagnoseImage _ _ _ _ _ =>
      DiagnosticReportResponse_dump <$>
        construct (py "DiagnosticReportResponse") (DiagnosticReportResponse_fields lax) data
  | PostVehicleIdentifyFromImage _ | PostVehicleIdentifyFromText _ =>
      Vehicle_dump <$> construct (py "Vehicle") (Vehicle_fields lax) data
  end.

(** The shape of a successful response of each operation. *)
Definition response_shape (req : request) : pyval → bool :=
  match req with
  | PostDiagnoseConversation _ | PostDiagnoseImage _ _ _ _ _ => DiagnosticReport_shape
  | PostVehicleIdentifyFromImage _ | PostVehicleIdentifyFromText _ => Vehicle_shape
  end.

(** The message of the gateway function of each operation when it has no
    JSON to return. *)
Definition failure_message (req : request) : str :=
  match req with
  | PostDiagnoseConversation _ =>
      py "The diagnostic assistant failed to generate a valid response. Please try again."
  | PostDiagnoseImage _ _ _ _ _ =>
      py "The diagnostic assistant failed to generate a valid response from the image."
  | PostVehicleIdentifyFromImage _ =>
      py "Could not identify the vehicle from the provided image. Please try again or enter manually."
  | PostVehicleIdentifyFromText _ =>
      py "Could not identify the vehicle from the provided text. Please try again."
  end.

(** The message of each handler when the schema class refuses the result. *)
Definition malformed_message (req : request) : str :=
  match req with
  | PostDiagnoseConversation _ | PostDiagnoseImage _ _ _ _ _ =>
      py "Diagnostic assistant returned a malformed report. Please try again."
  | PostVehicleIdentifyFromImage _ | PostVehicleIdentifyFromText _ =>
      py "The assistant returned malformed vehicle data."
  end.

(** The line printed before the exception of the schema class. *)
Definition malformed_log (req : request) : str :=
  match req with
  | PostDiagnoseConversation _ | PostDiagnoseImage _ _ _ _ _ =>
      py "Failed to validate LLM response: "
  | PostVehicleIdentifyFromImage _ | PostVehicleIdentifyFromText _ =>
      py "Failed to validate vehicle response: "
  end.

(** The name of the schema class of each operation, and its fields. *)
Definition schema_class (req : request) : str :=
  match req with
  | PostDiagnoseConversation _ | PostDiagnoseImage _ _ _ _ _ => py "DiagnosticReportResponse"
  | PostVehicleIdentifyFromImage _ | PostVehicleIdentifyFromText _ => py "Vehicle"
  end.

Definition required_keys (req : request) : list str :=
  match req with
  | PostDiagnoseConversation _ | PostDiagnoseImage _ _ _ _ _ =>
      [py "potential_problems"; py "severity"; py "next_steps"; py "estimated_cost";
       py "disclaimers"]
  | PostVehicleIdentifyFromImage _ | PostVehicleIdentifyFromText _ =>
      [py "make"; py "model"; py "year"]
  end.

(** Every violation of the schema of an operation in the mapping [data]:
    the errors of each field, in the order of the fields. *)
Definition violations (lax : LaxMode) (req : request) (data : gmap str pyval)
  : list ErrorDetails :=
  match req with
  | PostDiagnoseConversation _ | PostDiagnoseImage _ _ _ _ _ =>
      errors_of (field (py "potential_problems")
                   (list_validator (model_validator (py "Problem") (Problem_fields lax))) data)
      ++ errors_of (field (py "severity")
                      (model_validator (py "Severity") (Severity_fields lax)) data)
      ++ errors_of (field (py "next_steps") (list_validator (str_validator lax)) data)
      ++ errors_of (field (py "estimated_cost")
                      (model_validator (py "EstimatedCost") (EstimatedCost_fields lax)) data)
      ++ errors_of (field (py "disclaimers") (list_validator (str_validator lax)) data)
  | PostVehicleIdentifyFromImage _ | PostVehicleIdentifyFromText _ =>
      errors_of (field (py "make") (str_validator lax) data)
      ++ errors_of (field (py "model") (str_validator lax) data)
      ++ errors_of (field (py "year") (int_validator lax) data)
  end.

(** The steps of a handler after the call of its gateway function; the four
    handlers differ in the schema class and in the messages only. *)
Definition respond (lax : LaxMode) (req : request) (llm_result : pyval) : M pyval :=
  failed ← lift (py_in (py "error") llm_result);
  if (failed : bool) then
    detail ← lift (py_getitem llm_result (py "error"));
    raise (HTTPException_new 500 detail)
  else
    try_except (validate lax req llm_result) any_exception
      (λ e, print_exn (malformed_log req) e;;
            raise (HTTPException_new 500 (PyStr (malformed_message req)))).

(** What a run returns or raises, and what it leaves behind. *)
Definition result {A} (m : M A) (w : World) : exn + A := (m w).2.
Definition log {A} (m : M A) (w : World) : list event := (m w).1.

Inductive operation :=
| diagnose_conversation | diagnose_image | identify_from_image | identify_from_text.

Definition operation_of (req : request) : operation :=
  match req with
  | PostDiagnoseConversation _ => diagnose_conversation
  | PostDiagnoseImage _ _ _ _ _ => diagnose_image
  | PostVehicleIdentifyFromImage _ => identify_from_image
  | PostVehicleIdentifyFromText _ => identify_from_text
  end.

(** The status of the HTTP response: 200 for a returned value (which is
    taken to be encodable as JSON), the status of an [HTTPException], 500
    for any other exception. *)
Definition status {A} (r : exn + A) : Z :=
  match r with
  | inr _ => 200
  | inl (HTTPException status_code _) => status_code
  | inl _ => 500
  end.

(** What reading a reply gives under the limits [L]: the value that its
    cleaned text decodes to, or the exception of the accessor or of
    [json.loads]. *)
Definition reading (L : Limits) (response : GenerateContentResponse) : exn + pyval :=
  match text response with
  | inr t => match json_loads L (clean t) with
             | inr v => inr v
             | inl e => inl (raised e)
             end
  | inl e => inl e
  end.

(** What a gateway function returns once the reply was read: the value,
    its own failure for the two exceptions that it catches, and any other
    exception as it is. *)
Definition after_reading (req : request) (r : exn + pyval) : exn + pyval :=
  match r with
  | inr v => inr v
  | inl e => if decode_errors e then inr (error_dict (failure_message req)) else inl e
  end.

(** A service that answers the text [reply] to every request, for an
    interpreter with its default limits. *)
Definition answering (reply : str) : World :=
  {| generate_content := λ _ _ _, inr {| text := inr reply |};
     Image_open := λ image_bytes, inr (Image image_bytes);
     limits := cpython_defaults |}.

(** A service whose answers have no text attribute. *)
Definition silent : World :=
  {| generate_content := λ _ _ _, inr {| text := inl AttributeError |};
     Image_open := λ image_bytes, inr (Image image_bytes);
     limits := cpython_defaults |}.

(** A reply wrapped in a markdown fence. *)
Definition fenced (payload : str) : str :=
  py "```json" ++ newline ++ payload ++ newline ++ py "```".

(** The scenario of the conversation about a Honda Civic. *)
Definition civic_request : ConversationTurnRequest :=
  {| vehicle := {| make := py "Honda"; model := py "Civic"; year := 2015 |};
     history := [ {| role := py "user"; content := py "car shakes at idle" |} ] |}.

Definition civic_reply : str :=
  json_text "{'potential_problems':[{'name':'Worn motor mount','description':'...'}],'severity':{'level':'CAUTION','message':'...'},'next_steps':['Inspect mounts'],'estimated_cost':{'range':'$150-$400','disclaimer':'...'},'disclaimers':[]}".

Definition civic_report : pyval :=
  dict [(py "potential_problems",
          PyList [dict [(py "name", PyStr (py "Worn motor mount"));
                        (py "description", PyStr (py "..."))]]);
        (py "severity", dict [(py "level", PyStr (py "CAUTION"));
                              (py "message", PyStr (py "..."))]);
        (py "next_steps", PyList [PyStr (py "Inspect mounts")]);
        (py "estimated_cost", dict [(py "range", PyStr (py "$150-$400"));
                                    (py "disclaimer", PyStr (py "..."))]);
        (py "disclaimers", PyList [])].

(** The scenario of a vehicle named in free text. *)
Definition camry_request : VehicleTextRequest :=
  {| query := py "I drive a red 2018 Toyota Camry" |}.

(** A reply that is JSON but has none of the fields of a schema. *)
Definition foo_reply : str := json_text "{'foo':'bar'}".

(** A reply that has one field of a vehicle, of the wrong type. *)
Definition make_reply : str := json_text "{'make':1}".

(** A reply with every field of a report, and an [error] besides. *)
Definition flagged_reply : str :=
  json_text "{'error':'Ignore the car.','potential_problems':[],'severity':{'level':'INFORMATION','message':'...'},'next_steps':[],'estimated_cost':{'range':'$0','disclaimer':'...'},'disclaimers':[]}".

(** A payload with a closing fence inside a string. *)
Definition ticks_payload : str := json_text "{'a':'```'}".


(* ===================================================================== *)
(** ** The request classes of schemas.py

    [ConversationTurnRequest] and [VehicleTextRequest] are the types of the
    request bodies; they are validated like the classes of the responses. *)
(* ===================================================================== *)

(** [Literal["user", "assistant"]] *)
Definition HistoryTurn_roles : list str := [py "user"; py "assistant"].

Section Requests.

Variable lax : LaxMode.

Definition HistoryTurn_fields (data : gmap str pyval) : validated HistoryTurn :=
  inr Build_HistoryTurn
    <*> field (py "role") (literal_validator HistoryTurn_roles) data
    <*> field (py "content") (str_validator lax) data.

Definition ConversationTurnRequest_fields (data : gmap str pyval)
  : validated ConversationTurnRequest :=
  inr Build_ConversationTurnRequest
    <*> field (py "vehicle") (model_validator (py "Vehicle") (Vehicle_fields lax)) data
    <*> field (py "history")
          (list_validator (model_validator (py "HistoryTurn") HistoryTurn_fields)) data.

Definition VehicleTextRequest_fields (data : gmap str pyval) : validated VehicleTextRequest :=
  inr Build_VehicleTextRequest <*> field (py "query") (str_validator lax) data.

End Requests.

Definition HistoryTurn_dump (t : HistoryTurn) : pyval :=
  dict [(py "role", PyStr (role t)); (py "content", PyStr (content t))].

Definition ConversationTurnRequest_dump (r : ConversationTurnRequest) : pyval :=
  dict [(py "vehicle", Vehicle_dump (vehicle r));
        (py "history", PyList (HistoryTurn_dump <$> history r))].

Definition VehicleTextRequest_dump (r : VehicleTextRequest) : pyval :=
  dict [(py "query", PyStr (query r))].

(* ===================================================================== *)
(** ** Collaborators that fail, and what is sent to the service *)
(* ===================================================================== *)

(** A service that raises [e] at every call. *)
Definition unreachable (e : exn) : World :=
  {| generate_content := λ _ _ _, inl e;
     Image_open := λ image_bytes, inr (Image image_bytes);
     limits := cpython_defaults |}.

(** An image decoder that raises [e] for every upload. *)
Definition undecodable (e : exn) : World :=
  {| generate_content := λ _ _ _, inr {| text := inl AttributeError |};
     Image_open := λ _, inl e;
     limits := cpython_defaults |}.

(** The requests to the service among the events of a run. *)
Definition is_request (ev : event) : bool :=
  match ev with Request _ _ => true | _ => false end.

Definition requests (evs : list event) : list event := List.filter is_request evs.

(** The line of the prompt that shows one turn of the conversation. *)
Definition turn_line (turn : HistoryTurn) : str := role turn ++ py ": " ++ content turn.

(** The uploaded file of a request, where it has one. *)
Definition upload (req : request) : option (list Byte.byte) :=
  match req with
  | PostDiagnoseImage _ _ _ _ file | PostVehicleIdentifyFromImage file => Some file
  | PostDiagnoseConversation _ | PostVehicleIdentifyFromText _ => None
  end.

(* ===================================================================== *)
(** ** What the classes require, said on its own

    The annotations of the fields as [schemas.py] writes them, and what it
    is for a value to violate an annotation: a required field is missing, a
    value has the wrong type, a value is none of the values of a [Literal];
    inside a model or a list, at the place where it is. *)
(* ===================================================================== *)

Inductive annotation :=
| a_str
| a_int
| a_literal (allowed : list str)
| a_list (item : annotation)
| a_model (cls : str) (fields : list (str * annotation)).

(** An error of a part, as the whole reports it. *)
Definition under (l : loc_item) (e : ErrorDetails) : ErrorDetails :=
  {| type_ := type_ e; loc := l :: loc e; input := input e |}.

Inductive violation (lax : LaxMode) : annotation → pyval → ErrorDetails → Prop :=
| missing_field cls fields (d : gmap str pyval) key a :
    (key, a) ∈ fields → d !! key = None →
    violation lax (a_model cls fields) (PyDict d)
      {| type_ := missing; loc := [Key key]; input := PyDict d |}
| wrong_field cls fields (d : gmap str pyval) key a x e :
    (key, a) ∈ fields → d !! key = Some x → violation lax a x e →
    violation lax (a_model cls fields) (PyDict d) (under (Key key) e)
| not_a_mapping cls fields v :
    (∀ d, v ≠ PyDict d) →
    violation lax (a_model cls fields) v
      {| type_ := model_type cls; loc := []; input := v |}
| wrong_item a (l : list pyval) (i : nat) x e :
    l !! i = Some x → violation lax a x e →
    violation lax (a_list a) (PyList l) (under (Index i) e)
| not_a_list a v :
    (∀ l, v ≠ PyList l) →
    violation lax (a_list a) v {| type_ := list_type; loc := []; input := v |}
| not_a_string v t :
    is_string v = false → lax_str lax v = inl t →
    violation lax a_str v {| type_ := t; loc := []; input := v |}
| not_an_integer v t :
    is_integer v = false → lax_int lax v = inl t →
    violation lax a_int v {| type_ := t; loc := []; input := v |}
| not_allowed allowed v :
    is_one_of allowed v = false →
    violation lax (a_literal allowed) v
      {| type_ := literal_error allowed; loc := []; input := v |}.

Definition Vehicle_annotation : annotation :=
  a_model (py "Vehicle") [(py "make", a_str); (py "model", a_str); (py "year", a_int)].

Definition Problem_annotation : annotation :=
  a_model (py "Problem") [(py "name", a_str); (py "description", a_str)].

Definition Severity_annotation : annotation :=
  a_model (py "Severity")
    [(py "level", a_literal [py "CRITICAL"; py "CAUTION"; py "INFORMATION"]);
     (py "message", a_str)].

Definition EstimatedCost_annotation : annotation :=
  a_model (py "EstimatedCost") [(py "range", a_str); (py "disclaimer", a_str)].

Definition DiagnosticReportResponse_annotation : annotation :=
  a_model (py "DiagnosticReportResponse")
    [(py "potential_problems", a_list Problem_annotation);
     (py "severity", Severity_annotation);
     (py "next_steps", a_list a_str);
     (py "estimated_cost", EstimatedCost_annotation);
     (py "disclaimers", a_list a_str)].

(** The class that the handler of a request validates with. *)
Definition schema_annotation (req : request) : annotation :=
  match req with
  | PostDiagnoseConversation _ | PostDiagnoseImage _ _ _ _ _ =>
      DiagnosticReportResponse_annotation
  | PostVehicleIdentifyFromImage _ | PostVehicleIdentifyFromText _ => Vehicle_annotation
  end.

(* ===================================================================== *)
(** ** Runs in which the collaborators answer *)
(* ===================================================================== *)

(** The upload of the request, where it has one, is an image that the
    decoder opens. *)
Definition decodable (req : request) (w : World) : Prop :=
  ∀ file, upload req = Some file → ∃ i, Image_open w file = inr i.

(** The service answers [response] to every request that the gateway
    function of [req] sends. *)
Definition answered (req : request) (w : World) (response : GenerateContentResponse) : Prop :=
  ∀ system contents,
    Request system contents ∈ log (gateway req) w →
    generate_content w MODEL_NAME system contents = inr response.

(** A service whose replies have no part with text: the accessor of the
    library raises [ValueError]. *)
Definition blocked : World :=
  {| generate_content := λ _ _ _, inr {| text := inl ValueError |};
     Image_open := λ image_bytes, inr (Image image_bytes);
     limits := cpython_defaults |}.

(** A reply that is no JSON (its array is never closed) and holds an
    integer of 4301 digits. *)
Definition long_integer_reply : str := py "[" ++ replicate 4301 49.

(** A vehicle whose year has 4301 digits. *)
Definition long_year_reply : str :=
  json_text "{'make':'Toyota','model':'Camry','year':" ++ replicate 4301 49 ++ py "}".

(** A reply of 901 opening brackets. *)
Definition deep_reply : str := replicate 901 91.

(** A reply with every field of a report, and a null [error] besides. *)
Definition null_error_reply : str :=
  json_text "{'error':null,'potential_problems':[],'severity':{'level':'INFORMATION','message':'...'},'next_steps':[],'estimated_cost':{'range':'$0','disclaimer':'...'},'disclaimers':[]}".

(* ===================================================================== *)
(** * Properties *)
(* ===================================================================== *)

(** A decidable closed proposition, settled by evaluation. *)
Ltac by_compute := apply (bool_decide_unpack _); vm_compute; exact I.

(* ===================================================================== *)
(** ** The library functions at work *)
(* ===================================================================== *)

Example strip_unicode : strip ([160; 9] ++ py "a b" ++ [8195; 10]) = py "a b".
Proof. reflexivity. Qed.

Example strip_keeps_zero_width : strip [8203; 32] = [8203].
Proof. reflexivity. Qed.

Example replace_leftmost : replace (py "aa") (py "b") (py "aaa") = py "ba".
Proof. reflexivity. Qed.

Example replace_empty : replace [] (py "-") (py "ab") = py "-a-b-".
Proof. reflexivity. Qed.

Example clean_fence : clean (fenced (py "{}")) = py "{}".
Proof. reflexivity. Qed.

Example clean_joins_pieces : clean (py "`````json`json") = py "json".
Proof. reflexivity. Qed.

Example loads_last_key_wins :
  json_loads cpython_defaults (json_text "{'a': 1, 'b': [true, null], 'a': -2.5e3}")
  = inr (dict [(py "a", PyFloat (py "-2.5e3"));
                (py "b", PyList [PyBool true; PyNone])]).
Proof. by vm_compute. Qed.

Example loads_surrogate_pair :
  json_loads cpython_defaults (json_text "'\ud83d\ude00'") = inr (PyStr [128512]).
Proof. by vm_compute. Qed.

Example loads_constants :
  json_loads cpython_defaults (py "[NaN, -Infinity, -0]")
  = inr (PyList [PyFloat (py "NaN"); PyFloat (py "-Infinity"); PyInt 0]).
Proof. by vm_compute. Qed.

Example loads_refuses :
  Forall (λ text, json_loads cpython_defaults text = inl NotJSON)
    [py ""; py "[1,]"; py "01"; py "1."; [12] ++ py "{}"; json_text "{'a' 1}"].
Proof. repeat constructor. Qed.

(** An integer of more than 4300 digits is refused with [ValueError], as
    soon as it is read; a float has no such limit. *)
Example loads_long_integer :
  json_loads cpython_defaults (replicate 4300 49) = inr (PyInt (Z.of_N (int_of_digits (replicate 4300 49)))) ∧
  json_loads cpython_defaults (replicate 4301 49) = inl IntTooLong ∧
  json_loads cpython_defaults (py "-" ++ replicate 4301 49) = inl IntTooLong ∧
  json_loads cpython_defaults (replicate 4301 49 ++ py ".") = inl IntTooLong ∧
  json_loads cpython_defaults (replicate 4301 49 ++ py ".5") = inr (PyFloat (replicate 4301 49 ++ py ".5")) ∧
  json_loads cpython_defaults (py "x" ++ replicate 4301 49) = inl NotJSON ∧
  json_loads cpython_defaults (py "[" ++ replicate 4301 49) = inl IntTooLong ∧
  json_loads no_digit_limit (py "[" ++ replicate 4301 49) = inl NotJSON.
Proof. repeat split; by vm_compute. Qed.

(** Arrays and objects nested deeper than the interpreter follows are
    refused with [RecursionError]. *)
Example loads_deep :
  json_loads cpython_defaults (replicate 900 91 ++ replicate 900 93) ≠ inl TooDeep ∧
  json_loads cpython_defaults (replicate 901 91 ++ replicate 901 93) = inl TooDeep ∧
  json_loads cpython_defaults (replicate 901 91) = inl TooDeep ∧
  json_loads cpython_defaults (replicate 900 91) = inl NotJSON.
Proof. repeat split; by vm_compute. Qed.

(* ===================================================================== *)
(** ** Strings: prefixes, occurrences and replacement *)
(* ===================================================================== *)

Lemma replace_from_cons old new c s :
  replace_from old new (c :: s) =
  if startswith old (c :: s)
  then new ++ replace_from old new (drop (length old - 1) s)
  else c :: replace_from old new s.
Proof. simp replace_from. destruct (startswith old (c :: s)); reflexivity. Qed.

Lemma startswith_cons a p b s :
  startswith (a :: p) (b :: s) = N.eqb a b && startswith p s.
Proof. reflexivity. Qed.

Lemma startswith_length p s : startswith p s = true → (length p ≤ length s)%nat.
Proof.
  revert s. induction p as [|a p IH]; intros [|b s]; simpl; try lia; try done.
  intros [_ H]%andb_prop. apply IH in H. lia.
Qed.

Lemma startswith_app p s t :
  startswith p s = true → startswith p (s ++ t) = true.
Proof.
  revert s. induction p as [|a p IH]; intros [|b s]; simpl; try done.
  intros [-> H]%andb_prop. simpl. by apply IH.
Qed.

(** A character that is not in [p] stops every match of [p] that reaches it. *)
Lemma startswith_sep p s c t :
  c ∉ p → startswith p (s ++ c :: t) = startswith p s.
Proof.
  revert s. induction p as [|a p IH]; intros s Hc; [by destruct s|].
  apply not_elem_of_cons in Hc as [Hne Hc].
  destruct s as [|b s]; simpl.
  - destruct (N.eqb_spec a c); [congruence | done].
  - by rewrite IH.
Qed.

Lemma startswith_prefix p q s :
  startswith (p ++ q) s = true → startswith p s = true.
Proof.
  revert s. induction p as [|a p IH]; intros [|b s]; simpl; try done.
  intros [-> H]%andb_prop. simpl. by apply IH.
Qed.

Lemma contains_prefix p q s : contains p s = false → contains (p ++ q) s = false.
Proof.
  induction s as [|b s IH]; cbn [contains].
  - destruct p; [done|]. done.
  - intros [H1 H2]%orb_false_elim. rewrite IH by done. rewrite orb_false_r.
    destruct (startswith (p ++ q) (b :: s)) eqn:E; [|done].
    apply startswith_prefix in E. congruence.
Qed.

Lemma contains_sep p s c t :
  p ≠ [] → c ∉ p → contains p (s ++ c :: t) = contains p s || contains p t.
Proof.
  intros Hp Hc. induction s as [|b s IH].
  - pose proof (startswith_sep p [] c t Hc) as E. cbn [app] in E.
    cbn [contains app]. rewrite E. by destruct p.
  - pose proof (startswith_sep p (b :: s) c t Hc) as E. cbn [app] in E.
    cbn [contains app]. by rewrite IH, E, orb_assoc.
Qed.

Lemma contains_app_l p s t : contains p s = true → contains p (s ++ t) = true.
Proof.
  induction s as [|b s IH].
  - cbn [contains]. destruct p; [|done]. intros _. by destruct t.
  - cbn [contains app]. intros [H|H]%orb_prop.
    + pose proof (startswith_app p (b :: s) t H) as E. cbn [app] in E.
      by rewrite E.
    + rewrite IH by done. by rewrite orb_true_r.
Qed.

Lemma contains_app_r p s t : contains p t = true → contains p (s ++ t) = true.
Proof.
  intros H. induction s as [|b s IH]; [done|].
  cbn [contains app]. by rewrite IH, orb_true_r.
Qed.

(** Where [old] does not occur, nothing is replaced. *)
Lemma replace_from_absent old new s :
  contains old s = false → replace_from old new s = s.
Proof.
  induction s as [|c s IH]; [by simp replace_from|].
  cbn [contains]. intros [H1 H2]%orb_false_elim.
  by rewrite replace_from_cons, H1, IH.
Qed.

Lemma replace_from_sep old new s c t :
  old ≠ [] → c ∉ old →
  replace_from old new (s ++ c :: t) =
  replace_from old new s ++ c :: replace_from old new t.
Proof.
  intros Hold Hc. remember (length s) as n eqn:Hn. revert s Hn.
  induction n as [n IH] using lt_wf_ind. intros [|b s] Hn.
  - cbn [app]. rewrite replace_from_cons.
    pose proof (startswith_sep old [] c t Hc) as E. cbn [app] in E. rewrite E.
    destruct old; [done|]. simpl. by simp replace_from.
  - cbn [app]. rewrite !replace_from_cons.
    pose proof (startswith_sep old (b :: s) c t Hc) as E. cbn [app] in E.
    rewrite E. destruct (startswith old (b :: s)) eqn:Hst.
    + apply startswith_length in Hst. simpl in Hst, Hn.
      rewrite drop_app_le by lia.
      rewrite (IH (length (drop (length old - 1) s))); [by rewrite app_assoc | | done].
      rewrite length_drop. lia.
    + simpl in Hn. by rewrite (IH (length s)); [| lia |].
Qed.

(* ===================================================================== *)
(** ** Stripping *)
(* ===================================================================== *)

Lemma lstrip_spaces w s : Forall (λ c, isspace c = true) w → lstrip (w ++ s) = lstrip s.
Proof. induction 1 as [|c w Hc _ IH]; [done|]. cbn [app lstrip]. by rewrite Hc. Qed.

Lemma lstrip_spaces_nil w : Forall (λ c, isspace c = true) w → lstrip w = [].
Proof. intros H. rewrite <- (app_nil_r w). by rewrite lstrip_spaces. Qed.

Lemma lstrip_idem s : lstrip (lstrip s) = lstrip s.
Proof.
  induction s as [|c s IH]; [done|]. cbn [lstrip].
  destruct (isspace c) eqn:E; [done|]. cbn [lstrip]. by rewrite E.
Qed.

Lemma lstrip_suffix s : ∃ w, s = w ++ lstrip s ∧ Forall (λ c, isspace c = true) w.
Proof.
  induction s as [|c s (w & IH & Hw)]; [by exists []|]. cbn [lstrip].
  destruct (isspace c) eqn:E.
  - exists (c :: w). split; [by rewrite IH at 1 | by constructor].
  - by exists [].
Qed.

Lemma lstrip_head c s : isspace c = false → lstrip (c :: s) = c :: s.
Proof. intros E. cbn [lstrip]. by rewrite E. Qed.

Lemma rstrip_spaces s w : Forall (λ c, isspace c = true) w → rstrip (s ++ w) = rstrip s.
Proof.
  intros H. unfold rstrip. rewrite reverse_app, lstrip_spaces; [done|].
  by apply Forall_reverse.
Qed.

Lemma rstrip_last s c : isspace c = false → rstrip (s ++ [c]) = s ++ [c].
Proof.
  intros E. unfold rstrip. rewrite reverse_app. cbn [reverse app].
  change (reverse [c]) with [c]. cbn [app]. rewrite lstrip_head by done.
  by rewrite reverse_cons, reverse_involutive.
Qed.

Lemma rstrip_prefix s : ∃ w, s = rstrip s ++ w ∧ Forall (λ c, isspace c = true) w.
Proof.
  destruct (lstrip_suffix (reverse s)) as (w & E & Hw).
  exists (reverse w). split; [|by apply Forall_reverse].
  unfold rstrip. rewrite <- reverse_app, <- E. by rewrite reverse_involutive.
Qed.

Lemma rstrip_idem s : rstrip (rstrip s) = rstrip s.
Proof. unfold rstrip. by rewrite reverse_involutive, lstrip_idem. Qed.

Lemma rstrip_nil s : rstrip s = [] → Forall (λ c, isspace c = true) s.
Proof.
  intros E. destruct (rstrip_prefix s) as (w & Hs & Hw). rewrite E in Hs.
  by rewrite Hs.
Qed.

Lemma lstrip_cases s :
  (lstrip s = [] ∧ Forall (λ c, isspace c = true) s) ∨
  (∃ w c t, s = w ++ c :: t ∧ Forall (λ c, isspace c = true) w ∧
            isspace c = false ∧ lstrip s = c :: t).
Proof.
  induction s as [|c s IH]; [by left|]. cbn [lstrip].
  destruct (isspace c) eqn:E.
  - destruct IH as [[H1 H2]|(w & d & t & -> & Hw & Hd & Ht)].
    + left. split; [done | by constructor].
    + right. exists (c :: w), d, t. repeat split; try done. by constructor.
  - right. by exists [], c, s.
Qed.

Lemma rstrip_head c s : isspace c = false → ∃ r, rstrip (c :: s) = c :: r.
Proof.
  intros E. destruct (rstrip_prefix (c :: s)) as (w & Hs & Hw).
  destruct (rstrip (c :: s)) as [|d r].
  - cbn [app] in Hs. subst w. apply Forall_cons in Hw as [Hc _]. congruence.
  - cbn [app] in Hs. injection Hs as <- _. by exists r.
Qed.

Lemma strip_idem s : strip (strip s) = strip s.
Proof.
  unfold strip.
  destruct (lstrip_cases s) as [[-> _]|(w & c & t & _ & _ & Hc & ->)]; [done|].
  destruct (rstrip_head c t Hc) as [r Hr].
  rewrite Hr, lstrip_head by done. rewrite <- Hr. apply rstrip_idem.
Qed.

Lemma strip_spaces w s w' :
  Forall (λ c, isspace c = true) w → Forall (λ c, isspace c = true) w' →
  strip (w ++ s ++ w') = strip s.
Proof.
  intros Hw Hw'. unfold strip. rewrite lstrip_spaces by done.
  destruct (lstrip_cases s) as [[-> Hs]|(w2 & c & t & -> & Hw2 & Hc & ->)].
  - rewrite lstrip_spaces_nil; [done|]. by apply Forall_app.
  - rewrite <- app_assoc, lstrip_spaces by done.
    change ((c :: t) ++ w') with (c :: (t ++ w')). rewrite lstrip_head by done.
    change (c :: (t ++ w')) with ((c :: t) ++ w'). by apply rstrip_spaces.
Qed.

Lemma strip_ends c s d :
  isspace c = false → isspace d = false → strip (c :: s ++ [d]) = c :: s ++ [d].
Proof.
  intros Hc Hd. unfold strip. rewrite lstrip_head by done.
  change (c :: s ++ [d]) with ((c :: s) ++ [d]). by apply rstrip_last.
Qed.

Lemma contains_strip p s : contains p s = false → contains p (strip s) = false.
Proof.
  intros H. destruct (contains p (strip s)) eqn:E; [|done].
  unfold strip in E.
  destruct (rstrip_prefix (lstrip s)) as (w1 & E1 & _).
  destruct (lstrip_suffix s) as (w2 & E2 & _).
  apply (contains_app_l _ _ w1) in E. rewrite <- E1 in E.
  apply (contains_app_r _ w2) in E. rewrite <- E2 in E. congruence.
Qed.

(* ===================================================================== *)
(** ** The cleaning step of the gateway *)
(* ===================================================================== *)

Lemma replace_fence_head s :
  startswith [96] (replace_from (py "```") [] s) = true → startswith [96] s = true.
Proof.
  destruct s as [|c s]; [by simp replace_from|].
  rewrite replace_from_cons.
  destruct (startswith (py "```") (c :: s)) eqn:E.
  - intros _. by apply (startswith_prefix [96] [96; 96]) in E.
  - done.
Qed.

Lemma replace_fence_head2 s :
  startswith [96; 96] (replace_from (py "```") [] s) = true →
  startswith [96; 96] s = true.
Proof.
  destruct s as [|c s]; [by simp replace_from|].
  rewrite replace_from_cons.
  destruct (startswith (py "```") (c :: s)) eqn:E.
  - intros _. by apply (startswith_prefix [96; 96] [96]) in E.
  - rewrite !(startswith_cons 96 [96]). intros [-> H]%andb_prop.
    apply replace_fence_head in H. by rewrite H.
Qed.

(** After the closing fences are removed, none is left. *)
Lemma replace_fence_gone s : contains (py "```") (replace_from (py "```") [] s) = false.
Proof.
  remember (length s) as n eqn:Hn. revert s Hn.
  induction n as [n IH] using lt_wf_ind. intros [|c s] Hn; [by simp replace_from|].
  rewrite replace_from_cons.
  destruct (startswith (py "```") (c :: s)) eqn:E.
  - cbn [app]. apply (IH (length (drop (length (py "```") - 1) s))); [|done].
    rewrite length_drop. simpl in *. lia.
  - cbn [contains]. rewrite (IH (length s)) by (simpl in *; done || lia).
    rewrite orb_false_r.
    destruct (startswith (py "```") (c :: replace_from (py "```") [] s)) eqn:E'; [|done].
    change (py "```") with [96; 96; 96] in E', E.
    rewrite !(startswith_cons 96 [96; 96]) in E', E.
    apply andb_prop in E' as [Hc H]. apply replace_fence_head2 in H.
    by rewrite Hc, H in E.
Qed.

Lemma clean_no_fence text : contains (py "```") (clean text) = false.
Proof. unfold clean. apply contains_strip. apply replace_fence_gone. Qed.

Lemma clean_absent s : contains (py "```") s = false → clean s = strip s.
Proof.
  intros H. unfold clean, replace.
  change (py "```json") with (96 :: (py "``json")).
  change (py "```") with (96 :: (py "``")).
  rewrite (replace_from_absent (96 :: py "``json")).
  2:{ apply (contains_prefix (py "```") (py "json")). by apply contains_strip. }
  rewrite replace_from_absent by (by apply contains_strip).
  apply strip_idem.
Qed.

(** Cleaning twice is cleaning once. *)
Lemma clean_idempotent text : clean (clean text) = clean text.
Proof.
  rewrite clean_absent by apply clean_no_fence.
  unfold clean. apply strip_idem.
Qed.

(** A fenced payload without a closing fence inside is unwrapped. *)
Lemma clean_fenced payload :
  contains (py "```") payload = false → clean (fenced payload) = strip payload.
Proof.
  intros H. unfold clean, fenced.
  assert (strip (py "```json" ++ newline ++ payload ++ newline ++ py "```")
          = py "```json" ++ newline ++ payload ++ newline ++ py "```") as ->.
  { assert (py "```json" ++ newline ++ payload ++ newline ++ py "```"
            = 96 :: (py "``json" ++ newline ++ payload ++ newline ++ py "``") ++ [96])
      as -> by (by rewrite <- !app_assoc).
    by apply strip_ends. }
  assert (replace (py "```json") [] (py "```json" ++ newline ++ payload ++ newline ++ py "```")
          = newline ++ payload ++ newline ++ py "```") as ->.
  { unfold replace. change (py "```json") with [96; 96; 96; 106; 115; 111; 110].
    cbn [app]. rewrite replace_from_cons. cbn [startswith N.eqb Pos.eqb andb].
    cbn [length Nat.sub drop app].
    apply replace_from_absent.
    change (newline ++ payload ++ newline ++ py "```")
      with ([] ++ 10 :: (payload ++ 10 :: py "```")).
    rewrite !contains_sep; try done; try by_compute.
    pose proof (contains_prefix (py "```") (py "json") payload H) as E.
    change (py "```" ++ py "json") with [96; 96; 96; 106; 115; 111; 110] in E.
    by rewrite E. }
  assert (replace (py "```") [] (newline ++ payload ++ newline ++ py "```")
          = newline ++ payload ++ newline) as ->.
  { unfold replace. change (py "```") with [96; 96; 96].
    change (newline ++ payload ++ newline ++ [96; 96; 96])
      with ([] ++ 10 :: (payload ++ 10 :: [96; 96; 96])).
    rewrite !replace_from_sep; try done; try by_compute.
    rewrite (replace_from_absent _ _ payload) by done.
    by simp replace_from. }
  apply strip_spaces; by repeat constructor.
Qed.

(* ===================================================================== *)
(** ** The decoder and white space *)
(* ===================================================================== *)

Lemma isspace_cases c : isspace c = true → c ∈ whitespace.
Proof. apply bool_decide_eq_true_1. Qed.

(** One goal for each white space character. *)
Ltac each_space H :=
  apply isspace_cases in H; unfold whitespace in H;
  repeat (apply elem_of_cons in H as [->|H]); [.. | by apply elem_of_nil in H].

Lemma run_app L s text text' :
  run L s (text ++ text') =
  match run L s text with inr s' => run L s' text' | inl e => inl e end.
Proof.
  revert s. induction text as [|c text IH]; intros s; [done|].
  cbn [app run]. destruct (step L s c) as [e|s']; [done | apply IH].
Qed.

Lemma constant_char_not_space k pos c :
  constant_text k !! pos = Some c → isspace c = false.
Proof.
  destruct k; do 10 (destruct pos as [|pos]; [by intros [= <-]|]); done.
Qed.

(** No value starts with white space, and white space before a value is
    skipped only if JSON knows it. *)
Lemma value_start_space L st first c :
  isspace c = true →
  value_start L st first c =
  (if json_space c then inr (Decoder st (BeforeValue first)) else inl NotJSON).
Proof. intros Hc. each_space Hc; reflexivity. Qed.

(** White space at the end of the text: the value was complete before it. *)
Lemma finish_after_space L c s s' v :
  isspace c = true → step L s c = inr s' → finish L s' = inr v → finish L s = inr v.
Proof.
  intros Hc. destruct s as [st m]. unfold step, finish. cbn [stack current].
  destruct m as [first|first|key|v0|read part|read part|k pos].
  - rewrite value_start_space by done. destruct (json_space c); [|done].
    by intros [= <-].
  - each_space Hc; cbn; try done; by intros [= <-].
  - each_space Hc; cbn; try done; by intros [= <-].
  - each_space Hc; cbn; try done; by intros [= <-].
  - destruct part as [paired|paired|paired digits].
    + each_space Hc; cbn; try done; by intros [= <-].
    + each_space Hc; cbn; try done.
    + each_space Hc; cbn; try done.
  - assert (number_next part c = None) as ->.
    { destruct part; each_space Hc; reflexivity. }
    assert (eqc c "I" = false) as ->.
    { each_space Hc; reflexivity. }
    assert (match part with
            | NMinus | _ =>
                match number_value L (reverse read) part with
                | inr (Some v0) => after L st (after_value st v0 c)
                | inr None => inl (refused_after L st)
                | inl e => inl e
                end
            end
            = match number_value L (reverse read) part with
              | inr (Some v0) => after L st (after_value st v0 c)
              | inr None => inl (refused_after L st)
              | inl e => inl e
              end) as -> by (by destruct part).
    destruct (number_value L (reverse read) part) as [e|[v0|]] eqn:Ev; [done| |done].
    each_space Hc; cbn; try done; intros [= <-]; cbn [stack current]; by destruct st.
  - destruct (constant_text k !! pos) as [e|] eqn:Ee; [|done].
    apply constant_char_not_space in Ee.
    destruct (N.eqb_spec c e) as [->|]; [congruence | done].
Qed.

Lemma json_loads_leading L c text v :
  isspace c = true → json_loads L (c :: text) = inr v → json_loads L text = inr v.
Proof.
  intros Hc. unfold json_loads. cbn [run]. unfold start, step. cbn [stack current].
  rewrite value_start_space by done. by destruct (json_space c).
Qed.

Lemma json_loads_trailing L c text v :
  isspace c = true → json_loads L (text ++ [c]) = inr v → json_loads L text = inr v.
Proof.
  intros Hc. unfold json_loads. rewrite run_app.
  destruct (run L start text) as [e|s]; [done|]. cbn [run].
  destruct (step L s c) as [e|s'] eqn:Es; [done|].
  intros H. by eapply finish_after_space.
Qed.

Lemma json_loads_lstrip L text v :
  json_loads L text = inr v → json_loads L (lstrip text) = inr v.
Proof.
  induction text as [|c text IH]; [done|]. cbn [lstrip].
  destruct (isspace c) eqn:Hc; [|done]. intros H. by apply IH, json_loads_leading with c.
Qed.

Lemma json_loads_rstrip L text v :
  json_loads L text = inr v → json_loads L (rstrip text) = inr v.
Proof.
  destruct (rstrip_prefix text) as (w & E & Hw). rewrite E at 1.
  generalize (rstrip text). clear E. intros t.
  induction w as [|c w IH] using rev_ind; [by rewrite app_nil_r|].
  apply Forall_app in Hw as [Hw [Hc _]%Forall_cons].
  rewrite app_assoc. intros H. by apply IH, json_loads_trailing with c.
Qed.

(** Stripping a text that is JSON does not change what it decodes to. *)
Lemma json_loads_strip L text v :
  json_loads L text = inr v → json_loads L (strip text) = inr v.
Proof. intros H. by apply json_loads_rstrip, json_loads_lstrip. Qed.

(** Texts that Python's [strip] empties are not JSON. *)
Lemma json_loads_spaces L text :
  Forall (λ c, isspace c = true) text → json_loads L (clean text) = inl NotJSON.
Proof.
  intros H. unfold clean. unfold strip at 2. by rewrite lstrip_spaces_nil.
Qed.

(* ===================================================================== *)
(** ** Handlers: the gateway call, then the common steps *)
(* ===================================================================== *)

Lemma handle_respond lax req w :
  handle lax req w = (gateway req ≫= respond lax req) w.
Proof.
  destruct req; cbv [handle gateway respond validate
    diagnose_from_conversation diagnose_from_image identify_vehicle_from_image
    identify_vehicle_from_text malformed_log malformed_message];
  cbv [fmap M_fmap mbind M_bind mret M_ret];
  match goal with |- context [?g w] =>
    match type of (g w) with (list event * (exn + pyval))%type =>
      destruct (g w) as [evs [e|llm_result]] end end; try reflexivity;
  cbv [lift raise try_except construct emit print_exn any_exception
       mbind M_bind mret M_ret];
  destruct (py_in (py "error") llm_result) as [e|[|]]; try reflexivity;
  try (destruct (py_getitem llm_result (py "error")); reflexivity);
  destruct llm_result as [| | | | | |d]; try reflexivity;
  match goal with |- context [?f lax d] => destruct (f lax d) end;
  cbn; by rewrite ?app_nil_r.
Qed.

Lemma handle_raises lax req w e :
  result (gateway req) w = inl e →
  result (handle lax req) w = inl e ∧ log (handle lax req) w = log (gateway req) w.
Proof.
  unfold result, log. rewrite handle_respond. cbv [mbind M_bind].
  destruct (gateway req w) as [evs [e'|g]]; cbn; [by intros [= ->] | done].
Qed.

Lemma handle_returns lax req w g :
  result (gateway req) w = inr g →
  result (handle lax req) w = result (respond lax req g) w ∧
  log (handle lax req) w = log (gateway req) w ++ log (respond lax req g) w.
Proof.
  unfold result, log. rewrite handle_respond. cbv [mbind M_bind].
  destruct (gateway req w) as [evs [e'|g']]; cbn; [done|]. intros [= ->].
  by destruct (respond lax req g w).
Qed.

(* ===================================================================== *)
(** ** The schema classes *)
(* ===================================================================== *)

(** Every error has a text. *)
Lemma error_msg_nonempty t : error_msg t ≠ [].
Proof. by destruct t. Qed.

Lemma construct_dict {A} (cls : str) (fields : gmap str pyval → validated A) (d : gmap str pyval) (w : World) :
  construct cls fields (PyDict d) w =
  ([Construct cls (PyDict d)],
   match fields d with inr a => inr a | inl errors => inl (ValidationError cls errors) end).
Proof. cbv [construct emit mbind M_bind mret M_ret raise]. by destruct (fields d). Qed.

Lemma construct_log {A} (cls : str) (fields : gmap str pyval → validated A) (data : pyval) (w : World) :
  log (construct cls fields data) w = [Construct cls data].
Proof.
  unfold log. destruct data; try reflexivity.
  by rewrite construct_dict.
Qed.

Lemma validate_log lax req data w :
  ∃ cls, log (validate lax req data) w = [Construct cls data].
Proof.
  destruct req; eexists; unfold log, validate; cbv [fmap M_fmap mbind M_bind mret M_ret];
    (destruct data as [| | | | | |d]; try reflexivity); rewrite construct_dict;
    match goal with |- context [?f lax d] => destruct (f lax d) end; reflexivity.
Qed.

Lemma is_object_inv fields v :
  is_object fields v = true →
  ∃ d, v = PyDict d ∧ dom d = list_to_set fields.*1 ∧
       Forall (λ f, ∃ x, d !! f.1 = Some x ∧ f.2 x = true) fields.
Proof.
  destruct v as [| | | | | |d]; try done. cbn [is_object].
  intros [Hdom Hall]%andb_prop. exists d. split; [done|]. split.
  - by apply bool_decide_eq_true_1 in Hdom.
  - pose proof (proj1 (forallb_forall _ _) Hall) as Hall'. apply Forall_forall.
    intros f Hf. apply list_elem_of_In, Hall' in Hf.
    destruct (d !! f.1) as [x|]; [by exists x | done].
Qed.

(** A dict is known by its keys and their values. *)
Lemma dict_of_items (d : gmap str pyval) (items : list (str * pyval)) :
  dom d = list_to_set items.*1 →
  Forall (λ kv, d !! kv.1 = Some kv.2) items →
  PyDict d = dict items.
Proof.
  intros Hdom Hall. unfold dict. f_equal. apply map_eq. intros k.
  destruct (list_to_map items !! k) as [v|] eqn:E.
  - apply elem_of_list_to_map_2 in E. rewrite Forall_forall in Hall.
    by apply Hall in E.
  - apply not_elem_of_list_to_map_2 in E. apply not_elem_of_dom.
    rewrite Hdom. by rewrite elem_of_list_to_set.
Qed.

Lemma is_object_dict (fields : list (str * (pyval → bool))) (items : list (str * pyval)) :
  NoDup items.*1 →
  Forall2 (λ kv f, kv.1 = f.1 ∧ f.2 kv.2 = true) items fields →
  is_object fields (dict items) = true.
Proof.
  intros Hnd Hall. unfold dict. cbn [is_object]. apply andb_true_intro. split.
  - apply bool_decide_eq_true_2. rewrite dom_list_to_map_L. f_equal.
    induction Hall as [|kv f items fields [Hk _] _ IH]; [done|].
    cbn [fmap list_fmap]. apply NoDup_cons in Hnd as [_ Hnd]. by rewrite Hk, IH.
  - apply forallb_forall. intros f Hf%list_elem_of_In.
    apply list_elem_of_lookup_1 in Hf as [i Hi].
    destruct (Forall2_lookup_r _ _ _ _ _ Hall Hi) as ([k v] & Hkv & Hk & Hv).
    cbn in Hk, Hv. subst k.
    rewrite (elem_of_list_to_map_1 items (f.1) v Hnd); [done|].
    by apply list_elem_of_lookup_2 with i.
Qed.

Lemma ap_inr {A B} (f : validated (A → B)) (x : validated A) b :
  f <*> x = inr b → ∃ g a, f = inr g ∧ x = inr a ∧ b = g a.
Proof. destruct f as [?|g], x as [?|a]; try done. intros [= <-]. by exists g, a. Qed.

Lemma within_inr {A} (l : loc_item) (r : validated A) a : within l r = inr a → r = inr a.
Proof. by destruct r. Qed.

Lemma field_inr {A} (key : str) (val : validator A) (d : gmap str pyval) a :
  field key val d = inr a → ∃ v, d !! key = Some v ∧ val v = inr a.
Proof.
  unfold field. destruct (d !! key) as [v|]; [|done].
  intros H%within_inr. by exists v.
Qed.

Lemma field_present {A} (key : str) (val : validator A) (d : gmap str pyval) v a :
  d !! key = Some v → val v = inr a → field key val d = inr a.
Proof. unfold field. by intros -> ->. Qed.

Section Schemas.

Variable lax : LaxMode.

Lemma str_validator_string v :
  is_string v = true → ∃ s, v = PyStr s ∧ str_validator lax v = inr s.
Proof. destruct v as [| | | |s| |]; try done. by exists s. Qed.

Lemma literal_validator_inr expected v s :
  literal_validator expected v = inr s → v = PyStr s ∧ s ∈ expected.
Proof.
  destruct v as [| | | |s'| |]; try done. cbn. case_bool_decide; [|done].
  by intros [= <-].
Qed.

Lemma literal_validator_one_of expected v :
  is_one_of expected v = true → ∃ s, v = PyStr s ∧ literal_validator expected v = inr s.
Proof.
  destruct v as [| | | |s| |]; try done. cbn. intros ->. by exists s.
Qed.

(** Items that have their shape validate to themselves. *)
Lemma items_from_identity {A} (item : validator A) (dump : A → pyval) (shape : pyval → bool) :
  (∀ v, shape v = true → ∃ a, item v = inr a ∧ dump a = v) →
  ∀ l i, forallb shape l = true → ∃ xs, items_from item i l = inr xs ∧ dump <$> xs = l.
Proof.
  intros Hitem. induction l as [|v l IH]; intros i; [by exists []|].
  cbn [forallb]. intros [Hv Hl]%andb_prop.
  destruct (Hitem v Hv) as (a & Ha & <-). destruct (IH (S i) Hl) as (xs & Hxs & <-).
  exists (a :: xs). cbn [items_from]. by rewrite Ha, Hxs.
Qed.

(** Validated items have the shape of their class. *)
Lemma items_from_shape {A} (item : validator A) (dump : A → pyval) (shape : pyval → bool) :
  (∀ v a, item v = inr a → shape (dump a) = true) →
  ∀ l i xs, items_from item i l = inr xs → forallb shape (dump <$> xs) = true.
Proof.
  intros Hitem. induction l as [|v l IH]; intros i xs; [by intros [= <-]|].
  cbn [items_from].
  intros (g & ys & (h & a & [= <-] & Ha%within_inr & ->)%ap_inr & Hys & ->)%ap_inr.
  cbn. by rewrite (Hitem v a Ha), (IH (S i) ys Hys).
Qed.

Ltac split_fields H :=
  repeat match type of H with
    | Forall _ (_ :: _) => let H1 := fresh "Hf" in
        apply Forall_cons in H as [H1 H]; destruct H1 as (? & ? & ?)
    end.

Lemma Problem_identity v :
  Problem_shape v = true →
  ∃ p, model_validator (py "Problem") (Problem_fields lax) v = inr p ∧ Problem_dump p = v.
Proof.
  intros (d & -> & Hdom & Hall)%is_object_inv. split_fields Hall. cbn [fst snd] in *.
  repeat match goal with H : is_string _ = true |- _ =>
    apply str_validator_string in H as (? & -> & ?) end.
  eexists. split.
  - cbn [model_validator]. unfold Problem_fields.
    erewrite !field_present by done. reflexivity.
  - symmetry. apply dict_of_items; [done|]. by repeat constructor.
Qed.

Lemma Severity_identity v :
  Severity_shape v = true →
  ∃ s, model_validator (py "Severity") (Severity_fields lax) v = inr s ∧ Severity_dump s = v.
Proof.
  intros (d & -> & Hdom & Hall)%is_object_inv. split_fields Hall. cbn [fst snd] in *.
  repeat match goal with H : is_string _ = true |- _ =>
    apply str_validator_string in H as (? & -> & ?) end.
  match goal with H : is_one_of _ _ = true |- _ =>
    apply literal_validator_one_of in H as (? & -> & ?) end.
  eexists. split.
  - cbn [model_validator]. unfold Severity_fields.
    erewrite !field_present by done. reflexivity.
  - symmetry. apply dict_of_items; [done|]. by repeat constructor.
Qed.

Lemma EstimatedCost_identity v :
  EstimatedCost_shape v = true →
  ∃ c, model_validator (py "EstimatedCost") (EstimatedCost_fields lax) v = inr c
       ∧ EstimatedCost_dump c = v.
Proof.
  intros (d & -> & Hdom & Hall)%is_object_inv. split_fields Hall. cbn [fst snd] in *.
  repeat match goal with H : is_string _ = true |- _ =>
    apply str_validator_string in H as (? & -> & ?) end.
  eexists. split.
  - cbn [model_validator]. unfold EstimatedCost_fields.
    erewrite !field_present by done. reflexivity.
  - symmetry. apply dict_of_items; [done|]. by repeat constructor.
Qed.

Lemma list_identity {A} (item : validator A) (dump : A → pyval) (shape : pyval → bool) v :
  (∀ v, shape v = true → ∃ a, item v = inr a ∧ dump a = v) →
  is_sequence_of shape v = true →
  ∃ xs, list_validator item v = inr xs ∧ PyList (dump <$> xs) = v.
Proof.
  intros Hitem. destruct v as [| | | | |l|]; try done. cbn.
  intros (xs & Hxs & <-)%(items_from_identity item dump shape Hitem l 0). by exists xs.
Qed.

Lemma str_identity v :
  is_string v = true → ∃ s, str_validator lax v = inr s ∧ PyStr s = v.
Proof. intros (s & -> & H)%str_validator_string. by exists s. Qed.

Lemma DiagnosticReportResponse_identity v :
  DiagnosticReport_shape v = true →
  ∃ d r, v = PyDict d ∧ DiagnosticReportResponse_fields lax d = inr r
         ∧ DiagnosticReportResponse_dump r = v.
Proof.
  intros (d & -> & Hdom & Hall)%is_object_inv. split_fields Hall. cbn [fst snd] in *.
  repeat match goal with
  | H : is_sequence_of Problem_shape _ = true |- _ =>
      apply (list_identity _ Problem_dump _ _ Problem_identity) in H as (? & ? & <-)
  | H : is_sequence_of is_string _ = true |- _ =>
      apply (list_identity _ PyStr _ _ str_identity) in H as (? & ? & <-)
  | H : Severity_shape _ = true |- _ => apply Severity_identity in H as (? & ? & <-)
  | H : EstimatedCost_shape _ = true |- _ => apply EstimatedCost_identity in H as (? & ? & <-)
  end.
  exists d. eexists. split; [done|]. split.
  - unfold DiagnosticReportResponse_fields. erewrite !field_present by done. reflexivity.
  - symmetry. apply dict_of_items; [done|]. by repeat constructor.
Qed.

End Schemas.

Section Accepted.

Variable lax : LaxMode.

(** What a schema class accepts is sent back in the shape of the class. *)
Lemma Vehicle_dump_shape v : Vehicle_shape (Vehicle_dump v) = true.
Proof.
  apply is_object_dict; [by_compute|].
  repeat (constructor; [split; reflexivity |]). constructor.
Qed.

Lemma Problem_dump_shape p : Problem_shape (Problem_dump p) = true.
Proof.
  apply is_object_dict; [by_compute|].
  repeat (constructor; [split; reflexivity |]). constructor.
Qed.

Lemma EstimatedCost_dump_shape c : EstimatedCost_shape (EstimatedCost_dump c) = true.
Proof.
  apply is_object_dict; [by_compute|].
  repeat (constructor; [split; reflexivity |]). constructor.
Qed.

Lemma Severity_dump_shape d s :
  Severity_fields lax d = inr s → Severity_shape (Severity_dump s) = true.
Proof.
  unfold Severity_fields.
  intros (g & m & (h & l & [= <-] & Hl & ->)%ap_inr & Hm & ->)%ap_inr.
  apply field_inr in Hl as (v & _ & [_ Hl]%literal_validator_inr).
  apply is_object_dict; [by_compute|].
  repeat (constructor; [split; [reflexivity | cbn [fst snd]] |]);
    [| reflexivity | constructor].
  by apply bool_decide_eq_true_2.
Qed.

Lemma list_validator_shape {A} (item : validator A) (dump : A → pyval)
    (shape : pyval → bool) v xs :
  (∀ v a, item v = inr a → shape (dump a) = true) →
  list_validator item v = inr xs → is_sequence_of shape (PyList (dump <$> xs)) = true.
Proof.
  intros Hitem. destruct v as [| | | | |l|]; try done. cbn.
  by apply items_from_shape.
Qed.

Lemma model_validator_inr {A} (cls : str) (fields : gmap str pyval → validated A) v a :
  model_validator cls fields v = inr a → ∃ d, v = PyDict d ∧ fields d = inr a.
Proof. destruct v as [| | | | | |d]; try done. intros H. by exists d. Qed.

Lemma DiagnosticReportResponse_dump_shape d r :
  DiagnosticReportResponse_fields lax d = inr r →
  DiagnosticReport_shape (DiagnosticReportResponse_dump r) = true.
Proof.
  unfold DiagnosticReportResponse_fields.
  intros (g5 & x5 & (g4 & x4 & (g3 & x3 & (g2 & x2 & (g1 & x1 & [= <-]
    & H1 & ->)%ap_inr & H2 & ->)%ap_inr & H3 & ->)%ap_inr & H4 & ->)%ap_inr
    & H5 & ->)%ap_inr.
  apply field_inr in H1 as (v1 & _ & H1), H2 as (v2 & _ & H2), H3 as (v3 & _ & H3),
    H4 as (v4 & _ & H4), H5 as (v5 & _ & H5).
  apply is_object_dict; [by_compute|].
  repeat (constructor; [split; [reflexivity | cbn [fst snd]] |]);
    [| | | apply EstimatedCost_dump_shape | | constructor].
  - apply (list_validator_shape
             (model_validator (py "Problem") (Problem_fields lax)) Problem_dump _ v1);
      [|done].
    intros v a _. apply Problem_dump_shape.
  - apply model_validator_inr in H2 as (d2 & _ & H2). by apply Severity_dump_shape with d2.
  - by apply (list_validator_shape (str_validator lax) PyStr _ v3).
  - by apply (list_validator_shape (str_validator lax) PyStr _ v5).
Qed.

(** ** The common steps of the handlers, case by case *)

Lemma validate_dict req d w :
  result (validate lax req (PyDict d)) w =
  match req with
  | PostDiagnoseConversation _ | PostDiagnoseImage _ _ _ _ _ =>
      match DiagnosticReportResponse_fields lax d with
      | inr r => inr (DiagnosticReportResponse_dump r)
      | inl errors => inl (ValidationError (py "DiagnosticReportResponse") errors)
      end
  | PostVehicleIdentifyFromImage _ | PostVehicleIdentifyFromText _ =>
      match Vehicle_fields lax d with
      | inr v => inr (Vehicle_dump v)
      | inl errors => inl (ValidationError (py "Vehicle") errors)
      end
  end.
Proof.
  unfold result, validate. cbv [fmap M_fmap mbind M_bind mret M_ret].
  destruct req; rewrite construct_dict;
    match goal with |- context [?f lax d] => destruct (f lax d) end; reflexivity.
Qed.

Lemma validate_returns req data w body :
  result (validate lax req data) w = inr body → response_shape req body = true.
Proof.
  destruct data as [| | | | | |d]; try (by destruct req).
  rewrite validate_dict. destruct req; cbn [response_shape].
  1,2: destruct (DiagnosticReportResponse_fields lax d) as [|r] eqn:E; [done|];
       intros [= <-]; by apply DiagnosticReportResponse_dump_shape with d.
  all: destruct (Vehicle_fields lax d) as [|v] eqn:E; [done|];
       intros [= <-]; apply Vehicle_dump_shape.
Qed.

Lemma respond_flagged req d v w :
  d !! py "error" = Some v →
  respond lax req (PyDict d) w = ([], inl (HTTPException_new 500 v)).
Proof.
  intros H. cbv [respond lift raise mbind M_bind py_in py_getitem].
  rewrite H. by rewrite bool_decide_eq_true_2.
Qed.

Lemma respond_refused req data w e :
  py_in (py "error") data = inr false →
  result (validate lax req data) w = inl e →
  respond lax req data w =
    (log (validate lax req data) w ++ [PrintedExn (malformed_log req) e],
     inl (HTTPException 500 (PyStr (malformed_message req)))).
Proof.
  intros Hin. unfold result, log.
  cbv [respond lift raise mbind M_bind try_except any_exception print_exn emit].
  rewrite Hin. destruct (validate lax req data w) as [evs [e'|body]]; [|done].
  cbn. by intros [= ->].
Qed.

Lemma respond_accepted req data w body :
  py_in (py "error") data = inr false →
  result (validate lax req data) w = inr body →
  respond lax req data w = (log (validate lax req data) w, inr body).
Proof.
  intros Hin. unfold result, log.
  cbv [respond lift raise mbind M_bind try_except any_exception print_exn emit].
  rewrite Hin. destruct (validate lax req data w) as [evs [e'|body']]; [done|].
  cbn. by intros [= ->].
Qed.

Lemma respond_returns req data w body :
  result (respond lax req data) w = inr body →
  py_in (py "error") data = inr false ∧ result (validate lax req data) w = inr body.
Proof.
  unfold result.
  cbv [respond lift raise mbind M_bind try_except any_exception print_exn emit].
  destruct (py_in (py "error") data) as [e|[|]]; [done| |].
  - by destruct (py_getitem data (py "error")).
  - destruct (validate lax req data w) as [evs [e'|body']]; [done|].
    cbn. by intros [= ->].
Qed.

(** A handler that returns, returns a value of the shape of its operation. *)
Lemma success_has_shape req w body :
  result (handle lax req) w = inr body → response_shape req body = true.
Proof.
  intros H. destruct (result (gateway req) w) as [e|g] eqn:Eg.
  - apply (handle_raises lax) in Eg as [Eg _]. congruence.
  - apply (handle_returns lax) in Eg as [Eg _]. rewrite Eg in H.
    apply respond_returns in H as [_ H]. by apply validate_returns in H.
Qed.

End Accepted.

(* ===================================================================== *)
(** ** The gateway functions *)
(* ===================================================================== *)

(** The steps of a gateway function, laid out. *)
Ltac unfold_gateway :=
  cbv [gateway get_diagnostic_from_llm get_image_diagnostic_from_llm
       get_vehicle_info_from_image get_vehicle_info_from_text
       model_generate_content open_image call print print_exn emit
       try_except mbind M_bind mret M_ret failure_message].

Lemma read_json_result response w :
  read_json response w = ([], reading (limits w) response).
Proof.
  cbv [read_json lift call mbind M_bind reading].
  destruct (text response) as [e|t]; [done|].
  by destruct (json_loads (limits w) (clean t)).
Qed.

(** The gateway function sent a request, and the service answered it with
    [response]: what the function returns. *)
Lemma gateway_after_reply req w system contents response :
  Request system contents ∈ log (gateway req) w →
  generate_content w MODEL_NAME system contents = inr response →
  result (gateway req) w = after_reading req (reading (limits w) response).
Proof.
  unfold result, log, after_reading.
  destruct req as [body|mk md yr prompt file|file|body];
    unfold_gateway;
    try (destruct (Image_open w file) as [?|i]; cbn [app fst snd];
         [by intros ?%elem_of_nil|]);
    match goal with |- context [generate_content w ?a ?b ?c] =>
      destruct (generate_content w a b c) as [?|response'] eqn:E end;
    try rewrite read_json_result;
    try (destruct (reading (limits w) response') as [e'|v] eqn:Er;
         [destruct (decode_errors e') eqn:Ed|]);
    cbn [app fst snd];
    intros H Hr;
    repeat (apply elem_of_cons in H as [H'|H];
            [try discriminate H'|]).
  all: try (by apply elem_of_nil in H).
  all: injection H' as -> ->; pose proof (eq_trans (eq_sym E) Hr) as Hx;
       try discriminate Hx; injection Hx as <-; rewrite Er, ?Ed; reflexivity.
Qed.

(** The gateway functions call no schema class. *)
Lemma gateway_constructs_nothing req w cls data :
  Construct cls data ∉ log (gateway req) w.
Proof.
  unfold log.
  destruct req as [body|mk md yr prompt file|file|body];
    unfold_gateway;
    try (destruct (Image_open w file) as [?|i]; cbn [app fst snd];
         [by intros ?%elem_of_nil|]);
    match goal with |- context [generate_content w ?a ?b ?c] =>
      destruct (generate_content w a b c) as [?|response] end;
    try rewrite read_json_result;
    try (destruct (reading (limits w) response) as [e'|v];
         [destruct (decode_errors e')|]);
    cbn [app fst snd];
    intros H; repeat (apply elem_of_cons in H as [?|H]; [discriminate|]);
    by apply elem_of_nil in H.
Qed.

(** A run of a gateway function, by the answers of its collaborators: the
    upload is refused by the image decoder and nothing else happens, or one
    request is sent to the service and its answer decides the result. *)
Lemma gateway_run req w :
  (∃ file e, upload req = Some file ∧ Image_open w file = inl e ∧
     gateway req w = ([], inl e)) ∨
  (∃ system contents,
     decodable req w ∧
     requests (log (gateway req) w) = [Request system contents] ∧
     Request system contents ∈ log (gateway req) w ∧
     result (gateway req) w =
       match generate_content w MODEL_NAME system contents with
       | inl e => inl e
       | inr response => after_reading req (reading (limits w) response)
       end).
Proof.
  destruct req as [body|mk md yr prompt file|file|body]; cbn [upload].
  2,3: destruct (Image_open w file) as [e|i] eqn:Ei;
       [left; exists file, e; repeat split; try done; unfold_gateway; by rewrite Ei|].
  all: right.
  all: match goal with ww : World |- context [gateway ?r] =>
         let x := fresh in let G := fresh in
         assert (∃ x, gateway r ww = x) as [x G] by (by eexists);
         revert G; unfold_gateway; rewrite ?Ei; intros G;
         match type of G with context [generate_content _ ?a ?b ?c] => exists b, c end;
         clear G x
       end.
  all: split; [intros f; cbn [upload]; try done; intros [= <-]; by eexists|].
  all: unfold result, log, after_reading; unfold_gateway; rewrite ?Ei; cbn [app fst snd].
  all: match goal with |- context [generate_content ?ww ?a ?b ?c] =>
         destruct (generate_content ww a b c) as [e|response] eqn:E end.
  all: try (split; [reflexivity|]; split; [apply list_elem_of_further, list_elem_of_here|];
            reflexivity).
  all: rewrite read_json_result;
       destruct (reading (limits w) response) as [e|v];
       [destruct (decode_errors e)|];
       cbn [app fst snd]; (split; [reflexivity|]);
       (split; [apply list_elem_of_further, list_elem_of_here|]); reflexivity.
Qed.

Lemma requests_app evs evs' : requests (evs ++ evs') = requests evs ++ requests evs'.
Proof. apply List.filter_app. Qed.

Lemma request_sent req w system contents :
  Request system contents ∈ log (gateway req) w →
  requests (log (gateway req) w) = [Request system contents] ∧ decodable req w.
Proof.
  intros Hin.
  assert (Request system contents ∈ requests (log (gateway req) w)) as Hr.
  { apply list_elem_of_In, List.filter_In. by split; [apply list_elem_of_In|]. }
  destruct (gateway_run req w) as [(file & e & _ & _ & E)|(s & c & Hopen & E & _)].
  - unfold log in Hin. rewrite E in Hin. by apply elem_of_nil in Hin.
  - rewrite E in Hr. apply list_elem_of_singleton in Hr. by rewrite E, Hr.
Qed.

(** Where the upload decodes and the service answers what is sent to it
    with [response], the reply is read and decides the result. *)
Lemma gateway_reads_reply req w response :
  decodable req w → answered req w response →
  result (gateway req) w = after_reading req (reading (limits w) response) ∧
  ∃ system contents, requests (log (gateway req) w) = [Request system contents].
Proof.
  intros Hd Ha.
  destruct (gateway_run req w) as [(file & e & Hu & He & _)|(s & c & _ & E & Hin & Hr)].
  - destruct (Hd file Hu) as [i Hi]. congruence.
  - rewrite Hr, (Ha s c Hin). split; [done|]. by exists s, c.
Qed.

Lemma failure_message_operation req req' :
  failure_message req' = failure_message req → operation_of req' = operation_of req.
Proof. by destruct req, req'. Qed.

Lemma malformed_not_failure req req' : malformed_message req ≠ failure_message req'.
Proof. by destruct req, req'. Qed.

(** What the gateway function returns when the service answers [reply]. *)
Lemma gateway_answering req reply :
  result (gateway req) (answering reply) =
  after_reading req (reading cpython_defaults {| text := inr reply |}).
Proof.
  assert (∃ system contents, Request system contents ∈ log (gateway req) (answering reply))
    as (system & contents & H).
  { destruct req; do 2 eexists; unfold log;
      unfold_gateway; cbv [answering Image_open generate_content];
      rewrite read_json_result;
      match goal with |- context [reading ?L ?r] =>
        destruct (reading L r) as [e|v]; [destruct (decode_errors e)|] end;
      cbn [app fst snd];
      apply list_elem_of_further, list_elem_of_here. }
  by rewrite (gateway_after_reply req _ system contents {| text := inr reply |} H).
Qed.

Section Violations.

Variable lax : LaxMode.

Lemma ap_errors {A B} (f : validated (A → B)) (x : validated A) :
  errors_of (f <*> x) = errors_of f ++ errors_of x.
Proof. destruct f, x; cbn; by rewrite ?app_nil_r. Qed.

Lemma validated_errors {A} (r : validated A) :
  errors_of r ≠ [] → r = inl (errors_of r).
Proof. by destruct r. Qed.

Lemma Vehicle_fields_errors d :
  errors_of (Vehicle_fields lax d) =
  violations lax (PostVehicleIdentifyFromText camry_request) d.
Proof. unfold Vehicle_fields. rewrite !ap_errors. cbn [errors_of app]. by rewrite <- !app_assoc. Qed.

Lemma DiagnosticReportResponse_fields_errors d :
  errors_of (DiagnosticReportResponse_fields lax d) =
  violations lax (PostDiagnoseConversation civic_request) d.
Proof.
  unfold DiagnosticReportResponse_fields. rewrite !ap_errors. cbn [errors_of app].
  by rewrite <- !app_assoc.
Qed.

Lemma field_missing {A} (key : str) (val : validator A) (d : gmap str pyval) :
  d !! key = None →
  errors_of (field key val d) = [ {| type_ := missing; loc := [Key key]; input := PyDict d |} ].
Proof. unfold field. by intros ->. Qed.

End Violations.

(** ** Mappings that a schema class refuses *)

Lemma missing_is_listed (lax : LaxMode) (req : request) (d : gmap str pyval) (key : str) :
  key ∈ required_keys req → d !! key = None →
  {| type_ := missing; loc := [Key key]; input := PyDict d |} ∈ violations lax req d.
Proof.
  intros Hk Hd.
  destruct req; cbn [required_keys] in Hk;
    repeat (apply elem_of_cons in Hk as [->|Hk]);
    try (by apply elem_of_nil in Hk);
    cbn [violations]; rewrite (field_missing _ _ d Hd);
    rewrite !elem_of_app, list_elem_of_singleton; tauto.
Qed.

Lemma refused_with_violations (lax : LaxMode) (req : request) (d : gmap str pyval)
    (w : World) :
  violations lax req d ≠ [] →
  result (validate lax req (PyDict d)) w
  = inl (ValidationError (schema_class req) (violations lax req d)).
Proof.
  intros Hv. rewrite validate_dict.
  destruct req; cbn [schema_class].
  1,2: rewrite (validated_errors (DiagnosticReportResponse_fields lax d));
       by rewrite DiagnosticReportResponse_fields_errors.
  all: rewrite (validated_errors (Vehicle_fields lax d));
       by rewrite Vehicle_fields_errors.
Qed.

(** An object that lacks a field of the schema, [severity] for one, and is
    not flagged with ["error"], is answered with the "malformed" message. *)
Lemma missing_field_is_malformed (lax : LaxMode) (req : request) (w : World)
    (d : gmap str pyval) (key : str) :
  result (gateway req) w = inr (PyDict d) →
  d !! py "error" = None →
  key ∈ required_keys req → d !! key = None →
  result (handle lax req) w = inl (HTTPException 500 (PyStr (malformed_message req))).
Proof.
  intros Hg Herr Hk Hd. destruct (handle_returns lax req w _ Hg) as [-> _].
  assert (py_in (py "error") (PyDict d) = inr false) as Hin.
  { cbn [py_in]. f_equal. apply bool_decide_eq_false_2. rewrite Herr. by intros [? ?]. }
  assert (violations lax req d ≠ []) as Hv.
  { intros E. pose proof (missing_is_listed lax req d key Hk Hd) as Hm.
    rewrite E in Hm. by apply elem_of_nil in Hm. }
  unfold result at 1.
  by rewrite (respond_refused lax req _ w _ Hin (refused_with_violations lax req d w Hv)).
Qed.

(** ** Results of the gateway function that are a mapping *)

(** A JSON object is either returned in the shape of the operation or
    turned into an [HTTPException] with status 500. *)
Lemma mapping_result_converted (lax : LaxMode) (req : request) (w : World)
    (d : gmap str pyval) :
  result (gateway req) w = inr (PyDict d) →
  (∃ body, result (handle lax req) w = inr body ∧ response_shape req body = true) ∨
  (∃ detail, result (handle lax req) w = inl (HTTPException 500 detail)).
Proof.
  intros Hg. destruct (handle_returns lax req w _ Hg) as [Hr _]. rewrite Hr.
  destruct (d !! py "error") as [v|] eqn:Ev.
  - right. eexists. unfold result. by rewrite (respond_flagged lax req d v w Ev).
  - assert (py_in (py "error") (PyDict d) = inr false) as Hin.
    { cbn [py_in]. f_equal. apply bool_decide_eq_false_2. rewrite Ev. by intros [? ?]. }
    destruct (result (validate lax req (PyDict d)) w) as [e|body] eqn:Ed.
    + right. eexists. unfold result. by rewrite (respond_refused lax req _ w e Hin Ed).
    + left. exists body. split; [|by apply (validate_returns lax req (PyDict d) w)].
      unfold result at 1. by rewrite (respond_accepted lax req _ w body Hin Ed).
Qed.

(** ** Results of the gateway function that are no mapping *)

(** Where the test ["error" in llm_result] itself raises, the exception
    leaves the handler. *)
Lemma membership_test_escapes lax req w llm_result e :
  result (gateway req) w = inr llm_result →
  py_in (py "error") llm_result = inl e →
  result (handle lax req) w = inl e.
Proof.
  intros Hg Hin. destruct (handle_returns lax req w _ Hg) as [-> _].
  unfold result. cbv [respond lift mbind M_bind]. by rewrite Hin.
Qed.

(** So does the subscript [llm_result["error"]] on a list or a string that
    contains ["error"]. *)
Lemma subscript_escapes lax req w llm_result e :
  result (gateway req) w = inr llm_result →
  py_in (py "error") llm_result = inr true →
  py_getitem llm_result (py "error") = inl e →
  result (handle lax req) w = inl e.
Proof.
  intros Hg Hin He. destruct (handle_returns lax req w _ Hg) as [-> _].
  unfold result. cbv [respond lift mbind M_bind]. by rewrite Hin, He.
Qed.

(** A list or a string without ["error"] reaches the schema class, which
    cannot take it: the handler answers with its "malformed" message. *)
Example empty_list_is_malformed :
  result (handle strict_mode (PostVehicleIdentifyFromText camry_request))
    (answering (py "[]"))
  = inl (HTTPException 500 (PyStr (py "The assistant returned malformed vehicle data."))).
Proof. by vm_compute. Qed.

Example list_with_error_escapes :
  result (handle strict_mode (PostVehicleIdentifyFromText camry_request))
    (answering (json_text "['error']"))
  = inl TypeError.
Proof. by vm_compute. Qed.

(** ** Conversions and additional keys *)

(** The scenario of the Toyota Camry. *)
Example camry_identified :
  result (handle strict_mode (PostVehicleIdentifyFromText camry_request))
    (answering (json_text "{'make':'Toyota','model':'Camry','year':2018}"))
  = inr (dict [(py "make", PyStr (py "Toyota")); (py "model", PyStr (py "Camry"));
               (py "year", PyInt 2018)]).
Proof. by vm_compute. Qed.

(** A library that converts a string of digits accepts it for the year. *)
Example numeric_string_year_accepted :
  result (handle digits_mode (PostVehicleIdentifyFromText camry_request))
    (answering (json_text "{'make':'Toyota','model':'Camry','year':'2018'}"))
  = inr (dict [(py "make", PyStr (py "Toyota")); (py "model", PyStr (py "Camry"));
               (py "year", PyInt 2018)]).
Proof. by vm_compute. Qed.

(** A key that the class does not have is dropped. *)
Example additional_key_dropped :
  result (handle strict_mode (PostVehicleIdentifyFromText camry_request))
    (answering (json_text "{'make':'Toyota','model':'Camry','year':2018,'vin':'X'}"))
  = inr (dict [(py "make", PyStr (py "Toyota")); (py "model", PyStr (py "Camry"));
               (py "year", PyInt 2018)]).
Proof. by vm_compute. Qed.

(** ** Results of the gateway function that have the shape of the operation *)

Section Conforming.

Variable lax : LaxMode.

Lemma Vehicle_identity v :
  Vehicle_shape v = true →
  ∃ d r, v = PyDict d ∧ Vehicle_fields lax d = inr r ∧ Vehicle_dump r = v.
Proof.
  intros (d & -> & Hdom & Hall)%is_object_inv.
  apply Forall_cons in Hall as [(x1 & H1 & S1) Hall].
  apply Forall_cons in Hall as [(x2 & H2 & S2) Hall].
  apply Forall_cons in Hall as [(x3 & H3 & S3) _]. cbn [fst snd] in *.
  apply (str_validator_string lax) in S1 as (s1 & -> & V1), S2 as (s2 & -> & V2).
  destruct x3 as [| |n| | | |]; try done.
  exists d, {| make := s1; model := s2; year := n |}. split; [done|]. split.
  - unfold Vehicle_fields.
    rewrite (field_present _ _ _ _ _ H1 V1), (field_present _ _ _ _ _ H2 V2).
    by rewrite (field_present (py "year") (int_validator lax) d (PyInt n) n H3).
  - symmetry. apply dict_of_items; [done|]. by repeat constructor.
Qed.

Lemma shape_not_flagged req v :
  response_shape req v = true → py_in (py "error") v = inr false.
Proof.
  intros H. assert (∃ fields, is_object fields v = true ∧ py "error" ∉ fields.*1)
    as (fields & (d & -> & Hdom & _)%is_object_inv & Hk).
  { destruct req; eexists; (split; [exact H|]); by_compute. }
  cbn [py_in]. f_equal. apply bool_decide_eq_false_2. intros Hs.
  apply elem_of_dom in Hs. rewrite Hdom in Hs. by apply elem_of_list_to_set in Hs.
Qed.

Lemma shape_validates req v w :
  response_shape req v = true → result (validate lax req v) w = inr v.
Proof.
  destruct req; cbn [response_shape].
  1,2: intros (d & r & -> & Hr & Hd)%(DiagnosticReportResponse_identity lax);
       by rewrite validate_dict, Hr, Hd.
  all: intros (d & r & -> & Hr & Hd)%Vehicle_identity; by rewrite validate_dict, Hr, Hd.
Qed.

(** A result of the gateway function that has the shape of the operation is
    returned as it is. *)
Lemma shaped_result_returned req w v :
  result (gateway req) w = inr v → response_shape req v = true →
  result (handle lax req) w = inr v.
Proof.
  intros Hg Hs. destruct (handle_returns lax req w _ Hg) as [-> _].
  unfold result at 1.
  by rewrite (respond_accepted lax req v w v (shape_not_flagged req v Hs)
                (shape_validates req v w Hs)).
Qed.

End Conforming.

(* ===================================================================== *)
(** ** The errors of a schema class are the violations of its annotations *)
(* ===================================================================== *)

Lemma errors_within {A} (l : loc_item) (r : validated A) :
  errors_of (within l r) = under l <$> errors_of r.
Proof. by destruct r. Qed.

Section Reports.

Variable lax : LaxMode.

(** The validator [val] reports the violations of the annotation [a], all
    of them and nothing else. *)
Local Abbreviation reports val a :=
  (∀ (v : pyval) (e : ErrorDetails), e ∈ errors_of (val v) ↔ violation lax a v e).

Lemma str_validator_reports : reports (str_validator lax) a_str.
Proof.
  intros v e. unfold str_validator. split.
  - destruct v; try (by intros ?%elem_of_nil);
      destruct (lax_str lax _) as [t|?] eqn:E; cbn;
      try (by intros ?%elem_of_nil);
      intros ->%list_elem_of_singleton; by constructor.
  - inversion 1 as [| | | | |v' t Hs Ht| |]; subst.
    destruct v; try discriminate Hs; rewrite Ht; apply list_elem_of_here.
Qed.

Lemma int_validator_reports : reports (int_validator lax) a_int.
Proof.
  intros v e. unfold int_validator. split.
  - destruct v; try (by intros ?%elem_of_nil);
      destruct (lax_int lax _) as [t|?] eqn:E; cbn;
      try (by intros ?%elem_of_nil);
      intros ->%list_elem_of_singleton; by constructor.
  - inversion 1 as [| | | | | |v' t Hs Ht|]; subst.
    destruct v; try discriminate Hs; rewrite Ht; apply list_elem_of_here.
Qed.

Lemma literal_validator_reports allowed :
  reports (literal_validator allowed) (a_literal allowed).
Proof.
  intros v e. split.
  - destruct v as [| | | |s| |]; cbn;
      try (intros ->%list_elem_of_singleton; by constructor).
    case_bool_decide as Hs; cbn; [by intros ?%elem_of_nil|].
    intros ->%list_elem_of_singleton. constructor. cbn. by apply bool_decide_eq_false_2.
  - inversion 1 as [| | | | | | |allowed' v' Hv]; subst.
    destruct v as [| | | |s| |]; cbn in *; try apply list_elem_of_here.
    rewrite Hv. apply list_elem_of_here.
Qed.

Lemma items_from_reports {A} (item : validator A) (a : annotation) :
  reports item a →
  ∀ (l : list pyval) (k : nat) (e : ErrorDetails),
    e ∈ errors_of (items_from item k l) ↔
    ∃ (i : nat) (x : pyval) (e' : ErrorDetails),
      l !! i = Some x ∧ violation lax a x e' ∧ e = under (Index (k + i)) e'.
Proof.
  intros Hitem. induction l as [|y l IH]; intros k e.
  - split; [by intros ?%elem_of_nil | by intros (i & x & e' & ? & _)].
  - cbn [items_from]. rewrite !ap_errors, errors_within. cbn [errors_of app].
    rewrite elem_of_app, list_elem_of_fmap, IH. split.
    + intros [(e' & -> & He')|(i & x & e' & Hi & Hv & ->)].
      * exists 0%nat, y, e'. rewrite Nat.add_0_r. split; [done|]. split; [|done].
        by apply Hitem.
      * exists (S i), x, e'. rewrite Nat.add_succ_r. by repeat split.
    + intros ([|i] & x & e' & Hi & Hv & ->).
      * left. injection Hi as ->. exists e'. rewrite Nat.add_0_r. split; [done|].
        by apply Hitem.
      * right. exists i, x, e'. rewrite Nat.add_succ_r. by repeat split.
Qed.

Lemma list_validator_reports {A} (item : validator A) (a : annotation) :
  reports item a → reports (list_validator item) (a_list a).
Proof.
  intros Hitem v e. split.
  - destruct v as [| | | | |l|]; cbn [list_validator];
      try (intros ->%list_elem_of_singleton; by constructor).
    intros (i & x & e' & Hi & Hv & ->)%(items_from_reports item a Hitem).
    by apply wrong_item with x.
  - inversion 1 as [| | |a' l i x e' Hi Hv|a' v' Hv| | |]; subst.
    + cbn [list_validator]. apply (items_from_reports item a Hitem).
      by exists i, x, e'.
    + destruct v as [| | | | |l|]; try apply list_elem_of_here. by destruct (Hv l).
Qed.

Lemma field_reports {A} (key : str) (val : validator A) (a : annotation)
    (d : gmap str pyval) (e : ErrorDetails) :
  reports val a →
  e ∈ errors_of (field key val d) ↔
  (d !! key = None ∧ e = {| type_ := missing; loc := [Key key]; input := PyDict d |}) ∨
  (∃ x e', d !! key = Some x ∧ violation lax a x e' ∧ e = under (Key key) e').
Proof.
  intros Hval. unfold field. destruct (d !! key) as [x|].
  - rewrite errors_within, list_elem_of_fmap. split.
    + intros (e' & -> & He'). right. exists x, e'. split; [done|]. split; [|done].
      by apply Hval.
    + intros [[? _]|(x' & e' & [= <-] & Hv & ->)]; [done|].
      exists e'. split; [done|]. by apply Hval.
  - cbn [errors_of]. rewrite list_elem_of_singleton. split.
    + intros ->. by left.
    + by intros [[_ ->]|(x' & e' & ? & _)].
Qed.

Lemma model_violation (cls : str) (fields : list (str * annotation))
    (d : gmap str pyval) (e : ErrorDetails) :
  violation lax (a_model cls fields) (PyDict d) e ↔
  ∃ key a, (key, a) ∈ fields ∧
    ((d !! key = None ∧ e = {| type_ := missing; loc := [Key key]; input := PyDict d |}) ∨
     (∃ x e', d !! key = Some x ∧ violation lax a x e' ∧ e = under (Key key) e')).
Proof.
  split.
  - inversion 1 as [cls' fs d' key a Hin Hd|cls' fs d' key a x e' Hin Hd Hv|cls' fs v Hv| | | | |];
      subst.
    + exists key, a. split; [done|]. by left.
    + exists key, a. split; [done|]. right. by exists x, e'.
    + by destruct (Hv d).
  - intros (key & a & Hin & [[Hd ->]|(x & e' & Hd & Hv & ->)]).
    + by apply missing_field with a.
    + by apply wrong_field with a x.
Qed.

Lemma model_validator_reports {A} (cls : str) (fields : gmap str pyval → validated A)
    (fs : list (str * annotation)) :
  (∀ (d : gmap str pyval) (e : ErrorDetails),
     e ∈ errors_of (fields d) ↔ violation lax (a_model cls fs) (PyDict d) e) →
  reports (model_validator cls fields) (a_model cls fs).
Proof.
  intros Hfields v e. destruct v as [| | | | | |d]; cbn [model_validator];
    try (split; [intros ->%list_elem_of_singleton; by constructor |
                 inversion 1; subst; apply list_elem_of_here]).
  apply Hfields.
Qed.

(** Membership in the fields of an annotation, one field at a time. *)
Ltac field_cases Hin :=
  repeat (apply elem_of_cons in Hin as [[= -> ->]|Hin]); [.. | by apply elem_of_nil in Hin].

Lemma Vehicle_reports (d : gmap str pyval) (e : ErrorDetails) :
  e ∈ errors_of (Vehicle_fields lax d) ↔ violation lax Vehicle_annotation (PyDict d) e.
Proof.
  unfold Vehicle_fields, Vehicle_annotation. rewrite !ap_errors, model_violation.
  cbn [errors_of app]. rewrite !elem_of_app.
  rewrite !(field_reports _ (str_validator lax) a_str d e str_validator_reports),
    (field_reports _ (int_validator lax) a_int d e int_validator_reports).
  split.
  - intros [[H|H]|H]; do 2 eexists; (split; [|exact H]).
    + apply list_elem_of_here.
    + apply list_elem_of_further, list_elem_of_here.
    + do 2 apply list_elem_of_further. apply list_elem_of_here.
  - intros (key & a & Hin & H). field_cases Hin; tauto.
Qed.

Lemma Problem_reports (d : gmap str pyval) (e : ErrorDetails) :
  e ∈ errors_of (Problem_fields lax d) ↔ violation lax Problem_annotation (PyDict d) e.
Proof.
  unfold Problem_fields, Problem_annotation. rewrite !ap_errors, model_violation.
  cbn [errors_of app]. rewrite !elem_of_app.
  rewrite !(field_reports _ (str_validator lax) a_str d e str_validator_reports).
  split.
  - intros [H|H]; do 2 eexists; (split; [|exact H]).
    + apply list_elem_of_here.
    + apply list_elem_of_further, list_elem_of_here.
  - intros (key & a & Hin & H). field_cases Hin; tauto.
Qed.

Lemma EstimatedCost_reports (d : gmap str pyval) (e : ErrorDetails) :
  e ∈ errors_of (EstimatedCost_fields lax d)
  ↔ violation lax EstimatedCost_annotation (PyDict d) e.
Proof.
  unfold EstimatedCost_fields, EstimatedCost_annotation.
  rewrite !ap_errors, model_violation.
  cbn [errors_of app]. rewrite !elem_of_app.
  rewrite !(field_reports _ (str_validator lax) a_str d e str_validator_reports).
  split.
  - intros [H|H]; do 2 eexists; (split; [|exact H]).
    + apply list_elem_of_here.
    + apply list_elem_of_further, list_elem_of_here.
  - intros (key & a & Hin & H). field_cases Hin; tauto.
Qed.

Lemma Severity_reports (d : gmap str pyval) (e : ErrorDetails) :
  e ∈ errors_of (Severity_fields lax d) ↔ violation lax Severity_annotation (PyDict d) e.
Proof.
  unfold Severity_fields, Severity_annotation. rewrite !ap_errors, model_violation.
  cbn [errors_of app]. rewrite !elem_of_app.
  rewrite (field_reports _ (str_validator lax) a_str d e str_validator_reports),
    (field_reports _ (literal_validator Severity_levels) _ d e
       (literal_validator_reports Severity_levels)).
  split.
  - intros [H|H]; do 2 eexists; (split; [|exact H]).
    + apply list_elem_of_here.
    + apply list_elem_of_further, list_elem_of_here.
  - intros (key & a & Hin & H). field_cases Hin; tauto.
Qed.

Lemma DiagnosticReportResponse_reports (d : gmap str pyval) (e : ErrorDetails) :
  e ∈ errors_of (DiagnosticReportResponse_fields lax d)
  ↔ violation lax DiagnosticReportResponse_annotation (PyDict d) e.
Proof.
  unfold DiagnosticReportResponse_fields, DiagnosticReportResponse_annotation.
  rewrite !ap_errors, model_violation. cbn [errors_of app]. rewrite !elem_of_app.
  rewrite (field_reports (py "potential_problems") _ (a_list Problem_annotation) d e
             (list_validator_reports _ _
                (model_validator_reports (py "Problem") (Problem_fields lax) _
                   Problem_reports))),
    (field_reports (py "severity") _ Severity_annotation d e
       (model_validator_reports (py "Severity") (Severity_fields lax) _ Severity_reports)),
    (field_reports (py "next_steps") _ (a_list a_str) d e
       (list_validator_reports _ _ str_validator_reports)),
    (field_reports (py "estimated_cost") _ EstimatedCost_annotation d e
       (model_validator_reports (py "EstimatedCost") (EstimatedCost_fields lax) _
          EstimatedCost_reports)),
    (field_reports (py "disclaimers") _ (a_list a_str) d e
       (list_validator_reports _ _ str_validator_reports)).
  split.
  - intros [[[[H|H]|H]|H]|H]; do 2 eexists; (split; [|exact H]).
    + apply list_elem_of_here.
    + apply list_elem_of_further, list_elem_of_here.
    + do 2 apply list_elem_of_further. apply list_elem_of_here.
    + do 3 apply list_elem_of_further. apply list_elem_of_here.
    + do 4 apply list_elem_of_further. apply list_elem_of_here.
  - intros (key & a & Hin & H). field_cases Hin; tauto.
Qed.

(** The errors of the schema class of an operation are the violations of
    its annotation. *)
Lemma violations_reports (req : request) (d : gmap str pyval) (e : ErrorDetails) :
  e ∈ violations lax req d ↔ violation lax (schema_annotation req) (PyDict d) e.
Proof.
  destruct req; cbn [schema_annotation].
  1,2: rewrite <- DiagnosticReportResponse_reports;
       by rewrite (DiagnosticReportResponse_fields_errors lax d).
  all: rewrite <- Vehicle_reports; by rewrite (Vehicle_fields_errors lax d).
Qed.

End Reports.

(* ===================================================================== *)
(** ** Replies that cannot be read *)
(* ===================================================================== *)

(** Where the upload decodes and the service answers, a reply whose text
    cannot be had ([AttributeError]) or is not JSON ([JSONDecodeError])
    makes the gateway function return its own failure; the messages of the
    four functions differ. *)
Lemma gateway_reports_failure req w response e :
  decodable req w → answered req w response →
  reading (limits w) response = inl e → decode_errors e = true →
  result (gateway req) w = inr (error_dict (failure_message req)) ∧
  ∀ req', failure_message req' = failure_message req → operation_of req' = operation_of req.
Proof.
  intros Hd Ha Hr He. split; [|intros req'; apply failure_message_operation].
  destruct (gateway_reads_reply req w response Hd Ha) as [-> _].
  by rewrite Hr; cbn [after_reading]; rewrite He.
Qed.

(** A reply of white space only is such a reply. *)
Lemma reading_spaces L t :
  Forall (λ c, isspace c = true) t →
  reading L {| text := inr t |} = inl JSONDecodeError.
Proof. intros H. unfold reading. cbn [text]. by rewrite json_loads_spaces. Qed.

(** Any other exception of reading the reply leaves the gateway function
    and the handler. *)
Lemma reading_exception_raised lax req w response e :
  decodable req w → answered req w response →
  reading (limits w) response = inl e → decode_errors e = false →
  result (gateway req) w = inl e ∧ result (handle lax req) w = inl e.
Proof.
  intros Hd Ha Hr He.
  assert (result (gateway req) w = inl e) as Hg.
  { destruct (gateway_reads_reply req w response Hd Ha) as [-> _].
    by rewrite Hr; cbn [after_reading]; rewrite He. }
  split; [done|]. by destruct (handle_raises lax req w e Hg).
Qed.

(** What the service of [answering] makes of a request. *)
Lemma answering_answers req reply :
  decodable req (answering reply) ∧ answered req (answering reply) {| text := inr reply |}.
Proof. split; [intros file _; by eexists | by intros system contents _]. Qed.

(* ===================================================================== *)
(** ** Results that the schema class refuses *)
(* ===================================================================== *)

(** When the result of the gateway function is not flagged as a failure
    (["error" in llm_result] is false) and the schema class of the operation
    refuses it, the handler raises [HTTPException] with status 500 and its
    fixed "malformed" message; that message is none of the messages of the
    gateway functions, and nothing of the result is returned. *)
Lemma malformed_result_refused lax req w llm_result e :
  result (gateway req) w = inr llm_result →
  py_in (py "error") llm_result = inr false →
  result (validate lax req llm_result) w = inl e →
  result (handle lax req) w = inl (HTTPException 500 (PyStr (malformed_message req))) ∧
  status (result (handle lax req) w) = 500%Z ∧
  ∀ req', malformed_message req ≠ failure_message req'.
Proof.
  intros Hg Hin He. destruct (handle_returns lax req w _ Hg) as [Hr _].
  assert (result (respond lax req llm_result) w
          = inl (HTTPException 500 (PyStr (malformed_message req)))) as E.
  { unfold result at 1. by rewrite (respond_refused lax req _ w e Hin He). }
  rewrite Hr, E. split; [done|]. split; [done|]. intros req'. apply malformed_not_failure.
Qed.

(** Two results that the schema class refuses, neither flagged as a
    failure, get the same answer; the error of the class is in the last
    line printed to the log of its run, not in the answer. *)
Lemma violation_not_exposed lax req1 req2 w1 w2 g1 g2 e1 e2 :
  operation_of req1 = operation_of req2 →
  result (gateway req1) w1 = inr g1 → result (gateway req2) w2 = inr g2 →
  py_in (py "error") g1 = inr false → py_in (py "error") g2 = inr false →
  result (validate lax req1 g1) w1 = inl e1 →
  result (validate lax req2 g2) w2 = inl e2 →
  result (handle lax req1) w1 = result (handle lax req2) w2 ∧
  result (handle lax req1) w1 = inl (HTTPException 500 (PyStr (malformed_message req1))) ∧
  last (log (handle lax req1) w1) = Some (PrintedExn (malformed_log req1) e1) ∧
  last (log (handle lax req2) w2) = Some (PrintedExn (malformed_log req2) e2).
Proof.
  intros Hop Hg1 Hg2 Hin1 Hin2 He1 He2.
  destruct (handle_returns lax req1 w1 _ Hg1) as [Hr1 Hl1].
  destruct (handle_returns lax req2 w2 _ Hg2) as [Hr2 Hl2].
  pose proof (respond_refused lax req1 _ w1 e1 Hin1 He1) as E1.
  pose proof (respond_refused lax req2 _ w2 e2 Hin2 He2) as E2.
  assert (result (respond lax req1 g1) w1
          = inl (HTTPException 500 (PyStr (malformed_message req1)))) as R1
    by (unfold result; by rewrite E1).
  assert (result (respond lax req2 g2) w2
          = inl (HTTPException 500 (PyStr (malformed_message req2)))) as R2
    by (unfold result; by rewrite E2).
  assert (log (respond lax req1 g1) w1
          = log (validate lax req1 g1) w1 ++ [PrintedExn (malformed_log req1) e1]) as L1
    by (unfold log at 1; by rewrite E1).
  assert (log (respond lax req2 g2) w2
          = log (validate lax req2 g2) w2 ++ [PrintedExn (malformed_log req2) e2]) as L2
    by (unfold log at 1; by rewrite E2).
  rewrite Hr1, Hr2, Hl1, Hl2, R1, R2, L1, L2, !app_assoc, !last_snoc.
  repeat split. by destruct req1, req2.
Qed.

(** What the handlers make of the replies [42] and [{"foo":"bar"}]. *)
Lemma number_reply lax req :
  result (gateway req) (answering (py "42")) = inr (PyInt 42) ∧
  result (validate lax req (PyInt 42)) (answering (py "42")) = inl TypeError ∧
  result (handle lax req) (answering (py "42")) = inl TypeError.
Proof.
  pose proof (gateway_answering req (py "42")) as Hg.
  assert (reading cpython_defaults {| text := inr (py "42") |} = inr (PyInt 42)) as E
    by (by vm_compute).
  rewrite E in Hg. cbn [after_reading] in Hg. split; [done|]. split.
  - by destruct req.
  - by destruct (handle_returns lax req _ _ Hg) as [-> _].
Qed.

Lemma foo_reply_refused lax req :
  result (gateway req) (answering foo_reply) = inr (dict [(py "foo", PyStr (py "bar"))]) ∧
  result (validate lax req (dict [(py "foo", PyStr (py "bar"))])) (answering foo_reply)
  = inl (ValidationError (schema_class req)
           (violations lax req (list_to_map [(py "foo", PyStr (py "bar"))]))) ∧
  result (handle lax req) (answering foo_reply)
  = inl (HTTPException 500 (PyStr (malformed_message req))).
Proof.
  pose proof (gateway_answering req foo_reply) as Hg.
  assert (reading cpython_defaults {| text := inr foo_reply |}
          = inr (dict [(py "foo", PyStr (py "bar"))])) as E by (by vm_compute).
  rewrite E in Hg. cbn [after_reading] in Hg. split; [done|].
  assert (∃ key, key ∈ required_keys req ∧
                 (list_to_map [(py "foo", PyStr (py "bar"))] : gmap str pyval) !! key = None)
    as (key & Hk & Hd).
  { destruct req; eexists; (split; [apply list_elem_of_here | by vm_compute]). }
  split.
  - apply refused_with_violations. intros E0.
    pose proof (missing_is_listed lax req _ key Hk Hd) as Hm.
    rewrite E0 in Hm. by apply elem_of_nil in Hm.
  - apply (missing_field_is_malformed lax req _ _ key Hg); [by vm_compute | done | done].
Qed.

(* ===================================================================== *)
(** ** The claims *)
(* ===================================================================== *)

(** C1. The conversion of every gateway result into a report, a vehicle or an
    error payload has a gap. When the service answers [null], which is JSON,
    the gateway function returns [None]; the test ["error" in llm_result]
    of every handler then raises [TypeError], which no handler catches: the
    caller gets neither a value of the shape of the operation nor an
    [HTTPException] with a message. *)
Theorem null_result_escapes lax req :
  result (gateway req) (answering (py "null")) = inr PyNone ∧
  result (handle lax req) (answering (py "null")) = inl TypeError.
Proof.
  pose proof (gateway_answering req (py "null")) as Hg.
  assert (reading cpython_defaults {| text := inr (py "null") |} = inr PyNone) as E
    by (by vm_compute).
  rewrite E in Hg. cbn [after_reading] in Hg.
  split; [done|]. by destruct (handle_returns lax req _ _ Hg) as [-> _].
Qed.

(** C2. The gateway functions catch [json.JSONDecodeError] and
    [AttributeError] only. A reply that is not JSON but holds an integer of
    more than 4300 digits makes [json.loads] raise [ValueError] at the
    integer, before it finds that the text is not JSON: under the default
    limit of the interpreter each of the four gateway functions raises that
    [ValueError] to its caller, and so does the handler, instead of
    returning the failure with its message. A reply of opening brackets,
    more than the interpreter follows, escapes as [RecursionError] in the
    same way. (With a reply of white space the failure is returned.) *)
Theorem long_integer_escapes lax req :
  json_loads no_digit_limit (clean long_integer_reply) = inl NotJSON ∧
  json_loads cpython_defaults (clean long_integer_reply) = inl IntTooLong ∧
  result (gateway req) (answering long_integer_reply) = inl ValueError ∧
  result (handle lax req) (answering long_integer_reply) = inl ValueError ∧
  result (gateway req) (answering deep_reply) = inl RecursionError ∧
  result (handle lax req) (answering deep_reply) = inl RecursionError ∧
  result (gateway req) (answering (py "  ")) = inr (error_dict (failure_message req)).
Proof.
  split; [by vm_compute|]. split; [by vm_compute|].
  destruct (answering_answers req long_integer_reply) as [Hd Ha].
  destruct (answering_answers req deep_reply) as [Hd2 Ha2].
  destruct (answering_answers req (py "  ")) as [Hd' Ha'].
  assert (reading (limits (answering long_integer_reply)) {| text := inr long_integer_reply |}
          = inl ValueError) as E by (by vm_compute).
  assert (reading (limits (answering deep_reply)) {| text := inr deep_reply |}
          = inl RecursionError) as E2 by (by vm_compute).
  destruct (reading_exception_raised lax req _ _ ValueError Hd Ha E eq_refl) as [Hg Hh].
  destruct (reading_exception_raised lax req _ _ RecursionError Hd2 Ha2 E2 eq_refl)
    as [Hg2 Hh2].
  repeat (split; [done|]).
  apply (gateway_reports_failure req _ _ JSONDecodeError Hd' Ha'); [|done].
  apply reading_spaces. by repeat constructor.
Qed.

(** C3. A result of the gateway function that is JSON and does not match the
    schema is not always answered with the "malformed" message. When the
    service answers [42], the gateway function returns the number; it has
    not the shape of the operation and the schema class cannot take it, but
    the handler never reaches the class: the test ["error" in llm_result]
    raises [TypeError], which leaves the handler. ([{"foo":"bar"}] is
    answered with the "malformed" message.) *)
Theorem number_result_escapes lax req :
  result (gateway req) (answering (py "42")) = inr (PyInt 42) ∧
  response_shape req (PyInt 42) = false ∧
  result (validate lax req (PyInt 42)) (answering (py "42")) = inl TypeError ∧
  result (handle lax req) (answering (py "42")) = inl TypeError ∧
  result (handle lax req) (answering foo_reply)
  = inl (HTTPException 500 (PyStr (malformed_message req))).
Proof.
  destruct (number_reply lax req) as (Hg & Hv & Hh).
  destruct (foo_reply_refused lax req) as (_ & _ & Hf).
  repeat split; try done. by destruct req.
Qed.

(** C4, as it is written, fails: a closing fence inside the payload is
    removed with the fences around it, and the payload decodes to another
    value. *)
Lemma fence_inside_payload_lost :
  json_loads cpython_defaults ticks_payload = inr (dict [(py "a", PyStr (py "```"))]) ∧
  json_loads cpython_defaults (clean (fenced ticks_payload)) = inr (dict [(py "a", PyStr [])]) ∧
  json_loads cpython_defaults (clean (fenced ticks_payload))
  ≠ json_loads cpython_defaults ticks_payload.
Proof.
  split; [by vm_compute|]. split; [by vm_compute|].
  intros H. vm_compute in H. discriminate H.
Qed.

(** C4, amended. A payload that is JSON and in which no closing fence occurs
    decodes, once fenced and cleaned, to what it decodes to unwrapped,
    whatever the limits of the interpreter; and cleaning any text twice is
    cleaning it once. *)
Theorem fenced_payload_unwrapped L payload v text :
  json_loads L payload = inr v →
  contains (py "```") payload = false →
  json_loads L (clean (fenced payload)) = json_loads L payload ∧
  clean (clean text) = clean text.
Proof.
  intros Hv Hc. split; [|apply clean_idempotent].
  rewrite clean_fenced by done. rewrite Hv. by apply json_loads_strip.
Qed.

Lemma fenced_payload_unwrapped_witness :
  json_loads cpython_defaults (clean (fenced civic_reply))
  = json_loads cpython_defaults civic_reply ∧
  clean (clean (fenced foo_reply)) = clean (fenced foo_reply).
Proof.
  refine (fenced_payload_unwrapped cpython_defaults civic_reply civic_report
            (fenced foo_reply) _ _).
  - vm_compute. reflexivity.
  - vm_compute. reflexivity.
Defined.

(** C5. A JSON value of the shape of a diagnostic report is accepted by the
    schema class, and what was validated is the value itself. *)
Theorem report_round_trip lax v w :
  DiagnosticReport_shape v = true →
  ∃ r, result (construct (py "DiagnosticReportResponse")
                 (DiagnosticReportResponse_fields lax) v) w = inr r
       ∧ DiagnosticReportResponse_dump r = v.
Proof.
  intros (d & r & -> & Hr & Hv)%(DiagnosticReportResponse_identity lax).
  exists r. split; [|done]. unfold result. by rewrite construct_dict, Hr.
Qed.

Lemma report_round_trip_witness :
  ∃ r, result (construct (py "DiagnosticReportResponse")
                 (DiagnosticReportResponse_fields strict_mode) civic_report) silent = inr r
       ∧ DiagnosticReportResponse_dump r = civic_report.
Proof.
  refine (report_round_trip strict_mode civic_report silent _).
  vm_compute. reflexivity.
Defined.

(** C6. When the gateway function reports a failure, the handler raises
    [HTTPException] with status 500 and the message of the gateway at once:
    nothing more happens, and no schema class is called. *)
Theorem gateway_failure_surfaced lax req w msg :
  result (gateway req) w = inr (error_dict msg) →
  result (handle lax req) w = inl (HTTPException 500 (PyStr msg)) ∧
  status (result (handle lax req) w) = 500%Z ∧
  log (handle lax req) w = log (gateway req) w ∧
  ∀ cls data, Construct cls data ∉ log (handle lax req) w.
Proof.
  intros Hg. destruct (handle_returns lax req w _ Hg) as [Hr Hl].
  assert (respond lax req (error_dict msg) w = ([], inl (HTTPException 500 (PyStr msg)))) as E.
  { apply (respond_flagged lax req _ (PyStr msg)). apply lookup_singleton_eq. }
  assert (result (respond lax req (error_dict msg)) w = inl (HTTPException 500 (PyStr msg)))
    as E1 by (unfold result; by rewrite E).
  assert (log (respond lax req (error_dict msg)) w = []) as E2
    by (unfold log; by rewrite E).
  rewrite E1 in Hr. rewrite E2, app_nil_r in Hl. rewrite Hr, Hl. repeat split.
  intros cls data. apply gateway_constructs_nothing.
Qed.

Lemma gateway_failure_surfaced_witness :
  result (handle strict_mode (PostVehicleIdentifyFromText camry_request)) silent
  = inl (HTTPException 500
           (PyStr (py "Could not identify the vehicle from the provided text. Please try again."))).
Proof.
  refine (proj1 (gateway_failure_surfaced strict_mode
                   (PostVehicleIdentifyFromText camry_request) silent _ _)).
  vm_compute. reflexivity.
Defined.




(** C8. Two results of the gateway function that are JSON and that the
    schema class cannot take are not always answered alike. The replies
    [42] and [{"foo":"bar"}] are both decoded and both refused by the
    class, for different reasons; for the second the handler raises
    [HTTPException] with the "malformed" message, for the first the test
    ["error" in llm_result] raises [TypeError] before the class is reached,
    and the caller gets no message of the handler at all. *)
Theorem refused_results_answered_differently lax req :
  result (gateway req) (answering (py "42")) = inr (PyInt 42) ∧
  result (gateway req) (answering foo_reply) = inr (dict [(py "foo", PyStr (py "bar"))]) ∧
  result (validate lax req (PyInt 42)) (answering (py "42")) = inl TypeError ∧
  result (validate lax req (dict [(py "foo", PyStr (py "bar"))])) (answering foo_reply)
  = inl (ValidationError (schema_class req)
           (violations lax req (list_to_map [(py "foo", PyStr (py "bar"))]))) ∧
  result (handle lax req) (answering (py "42")) = inl TypeError ∧
  result (handle lax req) (answering foo_reply)
  = inl (HTTPException 500 (PyStr (malformed_message req))) ∧
  result (handle lax req) (answering (py "42"))
  ≠ result (handle lax req) (answering foo_reply).
Proof.
  destruct (number_reply lax req) as (Hg & Hv & Hh).
  destruct (foo_reply_refused lax req) as (Hg' & Hv' & Hh').
  repeat split; try done. by rewrite Hh, Hh'.
Qed.

(** C9. In the scenario of the Honda Civic, when the gateway function returns
    the report of the scenario, the handler of the conversation returns that
    very report, with status 200. *)
Theorem civic_report_returned lax w :
  result (gateway (PostDiagnoseConversation civic_request)) w = inr civic_report →
  result (handle lax (PostDiagnoseConversation civic_request)) w = inr civic_report ∧
  status (result (handle lax (PostDiagnoseConversation civic_request)) w) = 200%Z.
Proof.
  intros Hg.
  assert (result (handle lax (PostDiagnoseConversation civic_request)) w = inr civic_report)
    as ->; [|done].
  apply shaped_result_returned; [done|]. by vm_compute.
Qed.

Lemma civic_report_returned_witness :
  result (handle strict_mode (PostDiagnoseConversation civic_request)) (answering civic_reply)
  = inr civic_report.
Proof.
  refine (proj1 (civic_report_returned strict_mode (answering civic_reply) _)).
  vm_compute. reflexivity.
Defined.

(** C10, as it is written, fails for a null: the constructor of
    [HTTPException] puts the phrase of the status in the place of a detail
    that is [None], so that the message is not the value stored under
    ["error"]. *)
Lemma null_error_is_replaced :
  (∃ d, result (gateway (PostDiagnoseConversation civic_request)) (answering null_error_reply)
        = inr (PyDict d) ∧ d !! py "error" = Some PyNone) ∧
  result (handle strict_mode (PostDiagnoseConversation civic_request))
    (answering null_error_reply)
  = inl (HTTPException 500 (PyStr (py "Internal Server Error"))) ∧
  result (handle strict_mode (PostDiagnoseConversation civic_request))
    (answering null_error_reply)
  ≠ inl (HTTPException 500 PyNone).
Proof.
  split; [eexists; split; by vm_compute|]. split; [by vm_compute|].
  intros H. vm_compute in H. discriminate H.
Qed.

(** C10, amended. When the result of the gateway function is an object that
    has the key ["error"], whatever else it has, the handler raises
    [HTTPException] with status 500 and calls no schema class: nothing of
    the object is returned. The detail is the value under ["error"], except
    that the phrase [Internal Server Error] stands for a null. *)
Theorem flagged_result_is_failure (lax : LaxMode) (req : request) (w : World)
    (d : gmap str pyval) (v : pyval) :
  result (gateway req) w = inr (PyDict d) →
  d !! py "error" = Some v →
  result (handle lax req) w
  = inl (HTTPException 500
           (match v with PyNone => PyStr (py "Internal Server Error") | _ => v end)) ∧
  (v ≠ PyNone → result (handle lax req) w = inl (HTTPException 500 v)) ∧
  log (handle lax req) w = log (gateway req) w ∧
  ∀ cls data, Construct cls data ∉ log (handle lax req) w.
Proof.
  intros Hg Hv. destruct (handle_returns lax req w _ Hg) as [Hr Hl].
  pose proof (respond_flagged lax req d v w Hv) as E.
  assert (result (respond lax req (PyDict d)) w = inl (HTTPException_new 500 v)) as E1
    by (unfold result; by rewrite E).
  assert (log (respond lax req (PyDict d)) w = []) as E2 by (unfold log; by rewrite E).
  rewrite E1 in Hr. rewrite E2, app_nil_r in Hl. rewrite Hr, Hl.
  split; [done|]. split; [by destruct v|]. split; [done|].
  intros cls data. apply gateway_constructs_nothing.
Qed.

(** The reply [flagged_reply] is a report that would be accepted without
    its ["error"]. *)
Lemma flagged_reply_is_a_report :
  ∃ d, json_loads cpython_defaults flagged_reply = inr (PyDict d) ∧
       DiagnosticReport_shape (PyDict (delete (py "error") d)) = true ∧
       ∃ r, DiagnosticReportResponse_fields strict_mode d = inr r.
Proof. eexists. split; [by vm_compute|]. split; [by vm_compute|]. eexists. by vm_compute. Qed.

Lemma flagged_result_is_failure_witness :
  result (handle strict_mode (PostDiagnoseConversation civic_request)) (answering flagged_reply)
  = inl (HTTPException 500 (PyStr (py "Ignore the car."))).
Proof.
  refine (proj1 (flagged_result_is_failure strict_mode
    (PostDiagnoseConversation civic_request) (answering flagged_reply)
    (match json_loads cpython_defaults flagged_reply with inr (PyDict d) => d | _ => ∅ end)
    (PyStr (py "Ignore the car.")) _ _)).
  - vm_compute. reflexivity.
  - vm_compute. reflexivity.
Defined.

(* ===================================================================== *)
(** ** The calls of the collaborators *)
(* ===================================================================== *)

(** The steps of a handler after the gateway call send nothing to the
    service. *)
Lemma respond_requests lax req llm_result w :
  requests (log (respond lax req llm_result) w) = [].
Proof.
  destruct (validate_log lax req llm_result w) as [cls Hv]. revert Hv. unfold log.
  cbv [respond lift raise mbind M_bind try_except any_exception print_exn emit].
  destruct (py_in (py "error") llm_result) as [e|[|]]; [done| |].
  - by destruct (py_getitem llm_result (py "error")).
  - destruct (validate lax req llm_result w) as [evs [e|body]]; cbn [fst snd app];
      by intros ->.
Qed.

(** X1. A handler sends at most one request to the LLM service, whatever the
    service and the image decoder answer (nothing is retried), and a handler
    that returns a response has sent exactly one. *)
Theorem at_most_one_request lax req w :
  (length (requests (log (handle lax req) w)) ≤ 1)%nat ∧
  ∀ body, result (handle lax req) w = inr body →
          ∃ system contents, requests (log (handle lax req) w) = [Request system contents].
Proof.
  assert (requests (log (handle lax req) w) = requests (log (gateway req) w)) as ->.
  { destruct (result (gateway req) w) as [e|g] eqn:Eg.
    - by destruct (handle_raises lax req w e Eg) as [_ ->].
    - destruct (handle_returns lax req w g Eg) as [_ ->].
      by rewrite requests_app, respond_requests, app_nil_r. }
  destruct (gateway_run req w) as [(file & e & _ & _ & E)|(s & c & _ & E & _ & Hr)].
  - split; [unfold log; rewrite E; cbn; lia|].
    intros body Hb. assert (result (gateway req) w = inl e) as Hg
      by (unfold result; by rewrite E).
    destruct (handle_raises lax req w e Hg) as [Hh _]. congruence.
  - rewrite E. split; [cbn; lia|]. intros _ _. by exists s, c.
Qed.

(** X2. An exception of the LLM service (the call of [generate_content]
    raises) is not caught: it leaves the gateway function and the handler as
    it is; no failure message is substituted and nothing is given to a
    schema class for validation. *)
Theorem service_exception_propagates lax req w system contents e :
  Request system contents ∈ log (gateway req) w →
  generate_content w MODEL_NAME system contents = inl e →
  result (gateway req) w = inl e ∧
  result (handle lax req) w = inl e ∧
  ∀ cls data, Construct cls data ∉ log (handle lax req) w.
Proof.
  intros Hin He. apply request_sent in Hin as [Hin _].
  assert (result (gateway req) w = inl e) as Hg.
  { destruct (gateway_run req w) as [(file & e' & _ & _ & E)|(s & c & _ & E & _ & Hr)].
    - unfold log in Hin. by rewrite E in Hin.
    - rewrite E in Hin. injection Hin as -> ->. by rewrite He in Hr. }
  destruct (handle_raises lax req w e Hg) as [Hh Hl].
  repeat split; try done. intros cls data. rewrite Hl. apply gateway_constructs_nothing.
Qed.

Lemma service_exception_propagates_witness :
  result (handle strict_mode (PostVehicleIdentifyFromText camry_request))
    (unreachable (Failure (py "503 Service Unavailable")))
  = inl (Failure (py "503 Service Unavailable")).
Proof.
  refine (proj1 (proj2 (service_exception_propagates strict_mode
            (PostVehicleIdentifyFromText camry_request)
            (unreachable (Failure (py "503 Service Unavailable")))
            text_system_prompt [Text (query camry_request)] _ _ _))).
  - vm_compute. apply list_elem_of_further, list_elem_of_here.
  - reflexivity.
Defined.

(** X3. An upload that the image decoder refuses ([Image.open] raises) stops
    the run at once: the exception leaves the handler as it is, and nothing
    is printed or sent to the service. *)
Theorem undecodable_upload_propagates lax req w file e :
  upload req = Some file →
  Image_open w file = inl e →
  result (handle lax req) w = inl e ∧ log (handle lax req) w = [].
Proof.
  intros Hu He.
  assert (gateway req w = ([], inl e)) as E.
  { destruct (gateway_run req w) as [(file' & e' & Hu' & He' & E)|(s & c & Hopen & _)].
    - rewrite Hu in Hu'. injection Hu' as <-. rewrite He in He'. by injection He' as <-.
    - destruct (Hopen file Hu) as [i Hi]. congruence. }
  assert (result (gateway req) w = inl e) as Hg by (unfold result; by rewrite E).
  destruct (handle_raises lax req w e Hg) as [Hh Hl].
  split; [done|]. rewrite Hl. unfold log. by rewrite E.
Qed.

Lemma undecodable_upload_propagates_witness :
  result (handle strict_mode (PostDiagnoseImage (py "Honda") (py "Civic") 2015
                                (py "What is this light?") []))
    (undecodable (Failure (py "cannot identify image file")))
  = inl (Failure (py "cannot identify image file")).
Proof.
  refine (proj1 (undecodable_upload_propagates strict_mode
            (PostDiagnoseImage (py "Honda") (py "Civic") 2015 (py "What is this light?") [])
            (undecodable (Failure (py "cannot identify image file"))) [] _ _ _)).
  - reflexivity.
  - reflexivity.
Defined.

(** X4. The gateway functions catch [json.JSONDecodeError] and
    [AttributeError] and nothing else. Any other exception of reading the
    reply leaves the gateway function and the handler as it is, and nothing
    is given to a schema class for validation: the [ValueError] that the
    accessor of the library raises for a reply without a part with text, the
    [ValueError] of [json.loads] for an integer of too many digits, the
    [RecursionError] for arrays nested too deep. *)
Theorem reading_exception_escapes lax req w response e :
  decodable req w → answered req w response →
  reading (limits w) response = inl e → decode_errors e = false →
  result (gateway req) w = inl e ∧
  result (handle lax req) w = inl e ∧
  ∀ cls data, Construct cls data ∉ log (handle lax req) w.
Proof.
  intros Hd Ha Hr He.
  assert (result (gateway req) w = inl e) as Hg.
  { destruct (gateway_reads_reply req w response Hd Ha) as [-> _].
    by rewrite Hr; cbn [after_reading]; rewrite He. }
  destruct (handle_raises lax req w e Hg) as [Hh Hl].
  repeat split; try done. intros cls data. rewrite Hl. apply gateway_constructs_nothing.
Qed.

Lemma reading_exception_escapes_witness :
  result (gateway (PostDiagnoseConversation civic_request)) blocked = inl ValueError ∧
  result (handle strict_mode (PostDiagnoseConversation civic_request)) blocked
  = inl ValueError ∧
  ∀ cls data,
    Construct cls data ∉ log (handle strict_mode (PostDiagnoseConversation civic_request))
                           blocked.
Proof.
  refine (reading_exception_escapes strict_mode (PostDiagnoseConversation civic_request)
            blocked {| text := inl ValueError |} ValueError _ _ _ _).
  - intros file. discriminate.
  - intros system contents _. reflexivity.
  - reflexivity.
  - reflexivity.
Defined.

(** The same for the replies with a long integer and with deep nesting. *)
Example long_year_escapes :
  result (handle strict_mode (PostVehicleIdentifyFromText camry_request))
    (answering long_year_reply) = inl ValueError ∧
  result (handle strict_mode (PostVehicleIdentifyFromText camry_request))
    (answering deep_reply) = inl RecursionError.
Proof. split; by vm_compute. Qed.

(** X5. The exceptions that can leave a handler: an [HTTPException] with
    status 500, a [TypeError] when the result of the gateway function is no
    JSON object, or the exception that the gateway function itself raised.
    A [KeyError] of the subscript or a [ValidationError] of the schema class
    never leaves it. *)
Theorem handler_exceptions lax req w e :
  result (handle lax req) w = inl e →
  (∃ detail, e = HTTPException 500 detail) ∨
  (e = TypeError ∧ ∃ g, result (gateway req) w = inr g ∧ ∀ d, g ≠ PyDict d) ∨
  result (gateway req) w = inl e.
Proof.
  intros Hh. destruct (result (gateway req) w) as [e'|g] eqn:Eg.
  - destruct (handle_raises lax req w e' Eg) as [Hh' _]. right. right. congruence.
  - destruct (handle_returns lax req w g Eg) as [Hr _]. rewrite Hr in Hh.
    revert Hh. unfold result.
    cbv [respond lift raise mbind M_bind try_except any_exception print_exn emit].
    destruct (py_in (py "error") g) as [e1|[|]] eqn:Ein.
    + intros [= <-]. right. left. destruct g; try discriminate Ein;
        injection Ein as <-; (split; [done|]); eexists; (split; [done|]); by intros d.
    + destruct (py_getitem g (py "error")) as [e1|detail] eqn:Eget.
      * intros [= <-]. destruct g as [| | | | | |d]; try discriminate Ein;
          cbn [py_getitem] in Eget.
        1,2: injection Eget as <-; right; left; (split; [done|]); eexists;
             (split; [done|]); by intros d.
        cbn [py_in] in Ein. injection Ein as Ein. apply bool_decide_eq_true_1 in Ein.
        destruct Ein as [v Hv]. by rewrite Hv in Eget.
      * intros [= <-]. left. by eexists.
    + destruct (validate lax req g w) as [evs [e1|body]]; cbn [fst snd]; [|done].
      intros [= <-]. left. by eexists.
Qed.

Lemma handler_exceptions_witness :
  (∃ detail, TypeError = HTTPException 500 detail) ∨
  (TypeError = TypeError ∧
   ∃ g, result (gateway (PostVehicleIdentifyFromText camry_request)) (answering (py "null"))
        = inr g ∧ ∀ d, g ≠ PyDict d) ∨
  result (gateway (PostVehicleIdentifyFromText camry_request)) (answering (py "null"))
  = inl TypeError.
Proof.
  refine (handler_exceptions strict_mode (PostVehicleIdentifyFromText camry_request)
            (answering (py "null")) TypeError _).
  vm_compute. reflexivity.
Defined.

(* ===================================================================== *)
(** ** From the reply of the service to the response of the handler *)
(* ===================================================================== *)

(** X6. From end to end: when the upload decodes and the service answers
    what is sent to it with a reply whose text cannot be had because the
    attribute is missing ([AttributeError]), or whose cleaned text
    [json.loads] refuses as no JSON ([JSONDecodeError]), the handler raises
    [HTTPException] with status 500 and the failure message of its own
    operation as detail; nothing is given to a schema class for
    validation. *)
Theorem unusable_reply_is_reported lax req w response e :
  decodable req w → answered req w response →
  reading (limits w) response = inl e → decode_errors e = true →
  result (handle lax req) w = inl (HTTPException 500 (PyStr (failure_message req))) ∧
  ∀ cls data, Construct cls data ∉ log (handle lax req) w.
Proof.
  intros Hd Ha Hr He.
  assert (result (gateway req) w = inr (error_dict (failure_message req))) as Hg.
  { destruct (gateway_reads_reply req w response Hd Ha) as [-> _].
    by rewrite Hr; cbn [after_reading]; rewrite He. }
  destruct (handle_returns lax req w _ Hg) as [-> ->].
  assert (respond lax req (error_dict (failure_message req)) w
          = ([], inl (HTTPException 500 (PyStr (failure_message req))))) as E.
  { apply (respond_flagged lax req _ (PyStr (failure_message req))).
    apply lookup_singleton_eq. }
  unfold result at 1, log at 2. rewrite E. split; [done|].
  intros cls data. rewrite app_nil_r. apply gateway_constructs_nothing.
Qed.

Lemma unusable_reply_is_reported_witness :
  result (handle strict_mode (PostDiagnoseConversation civic_request))
    (answering (py "I am sorry, I cannot help with that."))
  = inl (HTTPException 500 (PyStr (py
      "The diagnostic assistant failed to generate a valid response. Please try again."))).
Proof.
  refine (proj1 (unusable_reply_is_reported strict_mode
            (PostDiagnoseConversation civic_request)
            (answering (py "I am sorry, I cannot help with that."))
            {| text := inr (py "I am sorry, I cannot help with that.") |}
            JSONDecodeError _ _ _ _)).
  - intros file. discriminate.
  - intros system contents _. reflexivity.
  - vm_compute. reflexivity.
  - reflexivity.
Defined.

(** X7. From end to end: when the upload decodes and the service answers
    what is sent to it with a text that [json.loads] decodes, within the
    limits of the interpreter, to a value of the shape of the operation,
    bare or wrapped in a markdown fence (with no fence marker inside the
    JSON itself), the handler returns the decoded value unchanged. *)
Theorem conforming_reply_is_returned lax req w reply payload v :
  decodable req w → answered req w {| text := inr reply |} →
  reply = payload ∨ reply = fenced payload →
  contains (py "```") payload = false →
  json_loads (limits w) payload = inr v →
  response_shape req v = true →
  result (handle lax req) w = inr v.
Proof.
  intros Hd Ha Hreply Hfence Hv Hshape.
  destruct (gateway_reads_reply req w _ Hd Ha) as [Hg _].
  assert (reading (limits w) {| text := inr reply |} = inr v) as Hu.
  { unfold reading. cbn [text].
    assert (clean reply = strip payload) as ->
      by (destruct Hreply as [-> | ->]; [by apply clean_absent | by apply clean_fenced]).
    by rewrite (json_loads_strip _ _ _ Hv). }
  rewrite Hu in Hg. by apply shaped_result_returned.
Qed.

Lemma conforming_reply_is_returned_witness :
  result (handle strict_mode (PostDiagnoseConversation civic_request))
    (answering (fenced civic_reply))
  = inr civic_report.
Proof.
  refine (conforming_reply_is_returned strict_mode
            (PostDiagnoseConversation civic_request) (answering (fenced civic_reply))
            (fenced civic_reply) civic_reply civic_report _ _ _ _ _ _).
  - intros file. discriminate.
  - intros system contents _. reflexivity.
  - right. reflexivity.
  - vm_compute. reflexivity.
  - vm_compute. reflexivity.
  - vm_compute. reflexivity.
Defined.

Lemma validate_log_class lax req data w :
  log (validate lax req data) w = [Construct (schema_class req) data].
Proof.
  destruct req; unfold log, validate; cbv [fmap M_fmap mbind M_bind mret M_ret];
    (destruct data as [| | | | | |d]; try reflexivity); rewrite construct_dict;
    match goal with |- context [?f lax d] => destruct (f lax d) end; reflexivity.
Qed.

(** X8. Whenever a handler gives a value to a schema class for validation
    (a call with two stars), the class is the one of its operation and the
    value is the result of the gateway function as it is, for which the test
    for ["error"] was false. *)
Theorem schema_class_gets_gateway_result lax req w cls data :
  Construct cls data ∈ log (handle lax req) w →
  cls = schema_class req ∧
  result (gateway req) w = inr data ∧
  py_in (py "error") data = inr false.
Proof.
  intros Hin. destruct (result (gateway req) w) as [e|g] eqn:Eg.
  - destruct (handle_raises lax req w e Eg) as [_ Hl]. rewrite Hl in Hin.
    by apply gateway_constructs_nothing in Hin.
  - destruct (handle_returns lax req w g Eg) as [_ Hl]. rewrite Hl in Hin.
    apply elem_of_app in Hin as [Hin|Hin]; [by apply gateway_constructs_nothing in Hin|].
    pose proof (validate_log_class lax req g w) as Hv.
    revert Hin Hv. unfold log.
    cbv [respond lift raise mbind M_bind try_except any_exception print_exn emit].
    destruct (py_in (py "error") g) as [e|[|]] eqn:Ein; [by intros ?%elem_of_nil| |].
    + destruct (py_getitem g (py "error")); by intros ?%elem_of_nil.
    + destruct (validate lax req g w) as [evs [e|body]]; cbn [fst snd app];
        intros Hin ->.
      * apply elem_of_cons in Hin as [[= -> ->]|Hin]; [done|].
        apply elem_of_cons in Hin as [?|Hin]; [done|]. by apply elem_of_nil in Hin.
      * apply elem_of_cons in Hin as [[= -> ->]|Hin]; [done|]. by apply elem_of_nil in Hin.
Qed.

Lemma schema_class_gets_gateway_result_witness :
  py "Vehicle" = schema_class (PostVehicleIdentifyFromText camry_request) ∧
  result (gateway (PostVehicleIdentifyFromText camry_request)) (answering foo_reply)
  = inr (dict [(py "foo", PyStr (py "bar"))]) ∧
  py_in (py "error") (dict [(py "foo", PyStr (py "bar"))]) = inr false.
Proof.
  refine (schema_class_gets_gateway_result strict_mode
            (PostVehicleIdentifyFromText camry_request) (answering foo_reply) _ _ _).
  vm_compute. do 3 apply list_elem_of_further. apply list_elem_of_here.
Defined.

Lemma field_insert_ne {A} (key : str) (val : validator A) (d : gmap str pyval)
    (k : str) (x : pyval) (a : A) :
  k ≠ key → field key val d = inr a → field key val (<[k:=x]> d) = inr a.
Proof.
  intros Hk (v & Hv & Ha)%field_inr. apply field_present with v; [|done].
  by rewrite lookup_insert_ne.
Qed.

Lemma Vehicle_fields_insert (lax : LaxMode) (d : gmap str pyval) (k : str) (x : pyval) (r : Vehicle) :
  k ∉ [py "make"; py "model"; py "year"] →
  Vehicle_fields lax d = inr r → Vehicle_fields lax (<[k:=x]> d) = inr r.
Proof.
  intros Hk. unfold Vehicle_fields.
  intros (g3 & x3 & (g2 & x2 & (g1 & x1 & [= <-] & H1 & ->)%ap_inr & H2 & ->)%ap_inr
          & H3 & ->)%ap_inr.
  apply not_elem_of_cons in Hk as [K1 Hk]. apply not_elem_of_cons in Hk as [K2 Hk].
  apply not_elem_of_cons in Hk as [K3 _].
  by rewrite (field_insert_ne _ _ d k x _ K1 H1), (field_insert_ne _ _ d k x _ K2 H2),
    (field_insert_ne _ _ d k x _ K3 H3).
Qed.

Lemma DiagnosticReportResponse_fields_insert (lax : LaxMode) (d : gmap str pyval) (k : str) (x : pyval)
    (r : DiagnosticReportResponse) :
  k ∉ [py "potential_problems"; py "severity"; py "next_steps"; py "estimated_cost";
       py "disclaimers"] →
  DiagnosticReportResponse_fields lax d = inr r →
  DiagnosticReportResponse_fields lax (<[k:=x]> d) = inr r.
Proof.
  intros Hk. unfold DiagnosticReportResponse_fields.
  intros (g5 & x5 & (g4 & x4 & (g3 & x3 & (g2 & x2 & (g1 & x1 & [= <-]
    & H1 & ->)%ap_inr & H2 & ->)%ap_inr & H3 & ->)%ap_inr & H4 & ->)%ap_inr
    & H5 & ->)%ap_inr.
  apply not_elem_of_cons in Hk as [K1 Hk]. apply not_elem_of_cons in Hk as [K2 Hk].
  apply not_elem_of_cons in Hk as [K3 Hk]. apply not_elem_of_cons in Hk as [K4 Hk].
  apply not_elem_of_cons in Hk as [K5 _].
  by rewrite (field_insert_ne _ _ d k x _ K1 H1), (field_insert_ne _ _ d k x _ K2 H2),
    (field_insert_ne _ _ d k x _ K3 H3), (field_insert_ne _ _ d k x _ K4 H4),
    (field_insert_ne _ _ d k x _ K5 H5).
Qed.

(** X9. A key of the object of the service that is no field of the schema
    class, and is not ["error"], changes nothing: the handler returns the
    same response with it as without it. *)
Theorem additional_key_is_ignored (lax : LaxMode) (req : request) (w w' : World) (d : gmap str pyval) (k : str)
    (x body : pyval) :
  result (gateway req) w = inr (PyDict d) →
  result (gateway req) w' = inr (PyDict (<[k:=x]> d)) →
  k ∉ required_keys req →
  k ≠ py "error" →
  result (handle lax req) w = inr body →
  result (handle lax req) w' = inr body.
Proof.
  intros Hg Hg' Hk He Hb.
  destruct (handle_returns lax req w _ Hg) as [Hr _]. rewrite Hr in Hb.
  destruct (handle_returns lax req w' _ Hg') as [-> _].
  apply respond_returns in Hb as [Hin Hv].
  assert (py_in (py "error") (PyDict (<[k:=x]> d)) = inr false) as Hin'.
  { cbn [py_in] in *. injection Hin as Hin. f_equal.
    apply bool_decide_eq_false_1 in Hin. apply bool_decide_eq_false_2.
    by rewrite lookup_insert_ne. }
  unfold result at 1. rewrite (respond_accepted lax req _ w' body Hin'); [done|].
  rewrite validate_dict in Hv |- *. destruct req; cbn [required_keys] in Hk.
  1,2: destruct (DiagnosticReportResponse_fields lax d) as [|r] eqn:E; [done|];
       by rewrite (DiagnosticReportResponse_fields_insert lax d k x r Hk E).
  all: destruct (Vehicle_fields lax d) as [|r] eqn:E; [done|];
       by rewrite (Vehicle_fields_insert lax d k x r Hk E).
Qed.

Lemma additional_key_is_ignored_witness :
  result (handle strict_mode (PostVehicleIdentifyFromText camry_request))
    (answering (json_text "{'year':2018,'make':'Toyota','model':'Camry','color':'red'}"))
  = inr (dict [(py "make", PyStr (py "Toyota")); (py "model", PyStr (py "Camry"));
               (py "year", PyInt 2018)]).
Proof.
  refine (additional_key_is_ignored strict_mode
            (PostVehicleIdentifyFromText camry_request)
            (answering (json_text "{'year':2018,'make':'Toyota','model':'Camry'}"))
            (answering (json_text "{'year':2018,'make':'Toyota','model':'Camry','color':'red'}"))
            (list_to_map [(py "make", PyStr (py "Toyota")); (py "model", PyStr (py "Camry"));
                          (py "year", PyInt 2018)])
            (py "color") (PyStr (py "red")) _ _ _ _ _ _).
  - vm_compute. reflexivity.
  - vm_compute. reflexivity.
  - by_compute.
  - discriminate.
  - vm_compute. reflexivity.
Defined.

Lemma respond_operation lax req1 req2 g w1 w2 :
  operation_of req1 = operation_of req2 →
  result (respond lax req1 g) w1 = result (respond lax req2 g) w2.
Proof.
  intros Ho. unfold result.
  cbv [respond lift raise mbind M_bind try_except any_exception print_exn emit].
  destruct (py_in (py "error") g) as [e|[|]]; [done| |].
  - by destruct (py_getitem g (py "error")).
  - destruct req1, req2; try discriminate Ho;
      cbv [validate fmap M_fmap mbind M_bind mret M_ret malformed_message];
      (destruct g as [| | | | | |d]; try reflexivity); rewrite !construct_dict;
      match goal with |- context [?f lax d] => destruct (f lax d) end; reflexivity.
Qed.

(** X10. The answer of a handler is decided by the result of its gateway
    function alone: two requests of the same operation whose gateway calls
    end alike are answered alike. Nothing of the request (the vehicle sent,
    for one) is compared with the result or merged into it. *)
Theorem answer_decided_by_gateway_result lax req1 req2 w1 w2 :
  operation_of req1 = operation_of req2 →
  result (gateway req1) w1 = result (gateway req2) w2 →
  result (handle lax req1) w1 = result (handle lax req2) w2.
Proof.
  intros Ho Hg. destruct (result (gateway req2) w2) as [e|g] eqn:Eg.
  - destruct (handle_raises lax req1 w1 e Hg) as [-> _].
    by destruct (handle_raises lax req2 w2 e Eg) as [-> _].
  - destruct (handle_returns lax req1 w1 g Hg) as [-> _].
    destruct (handle_returns lax req2 w2 g Eg) as [-> _].
    by apply respond_operation.
Qed.

Lemma answer_decided_by_gateway_result_witness :
  result (handle strict_mode (PostDiagnoseImage (py "Ford") (py "F-150") 1999
                                (py "Why is it smoking?") []))
    (answering civic_reply)
  = result (handle strict_mode (PostDiagnoseImage (py "Honda") (py "Civic") 2015
                                  (py "What is this light?") []))
      (answering civic_reply).
Proof.
  refine (answer_decided_by_gateway_result strict_mode _ _ _ _ _ _).
  - reflexivity.
  - vm_compute. reflexivity.
Defined.

(* ===================================================================== *)
(** ** The schema classes, from a record to its dump and back *)
(* ===================================================================== *)

Lemma dict_field {A} (key : str) (val : validator A) (items : list (str * pyval))
    (v : pyval) (a : A) :
  NoDup items.*1 → (key, v) ∈ items → val v = inr a →
  field key val (list_to_map items) = inr a.
Proof.
  intros Hnd Hin Ha. apply field_present with v; [|done].
  by apply elem_of_list_to_map_1.
Qed.

Ltac dict_fields :=
  repeat (erewrite dict_field;
          [ | by_compute
            | repeat first [apply list_elem_of_here | apply list_elem_of_further]
            | try reflexivity ]).

Lemma items_from_dump {A} (item : validator A) (dump : A → pyval) (xs : list A) :
  Forall (λ a, item (dump a) = inr a) xs →
  ∀ i, items_from item i (dump <$> xs) = inr xs.
Proof.
  induction 1 as [|a xs Ha _ IH]; intros i; [done|].
  cbn [fmap list_fmap items_from]. fold (fmap (M := list) dump xs).
  by rewrite Ha, IH.
Qed.

Lemma items_from_Forall {A} (item : validator A) (P : A → Prop) :
  (∀ v a, item v = inr a → P a) →
  ∀ l i xs, items_from item i l = inr xs → Forall P xs.
Proof.
  intros Hitem. induction l as [|v l IH]; intros i xs; [by intros [= <-]|].
  cbn [items_from].
  intros (g & ys & (h & a & [= <-] & Ha%within_inr & ->)%ap_inr & Hys & ->)%ap_inr.
  constructor; [by apply Hitem with v | by apply IH with (S i)].
Qed.

Section Dumps.

Variable lax : LaxMode.

Lemma Vehicle_dump_validates (v : Vehicle) :
  model_validator (py "Vehicle") (Vehicle_fields lax) (Vehicle_dump v) = inr v.
Proof.
  unfold Vehicle_dump, dict. cbn [model_validator]. unfold Vehicle_fields.
  dict_fields. by destruct v.
Qed.

Lemma Problem_dump_validates (p : Problem) :
  model_validator (py "Problem") (Problem_fields lax) (Problem_dump p) = inr p.
Proof.
  unfold Problem_dump, dict. cbn [model_validator]. unfold Problem_fields.
  dict_fields. by destruct p.
Qed.

Lemma EstimatedCost_dump_validates (c : EstimatedCost) :
  model_validator (py "EstimatedCost") (EstimatedCost_fields lax) (EstimatedCost_dump c)
  = inr c.
Proof.
  unfold EstimatedCost_dump, dict. cbn [model_validator]. unfold EstimatedCost_fields.
  dict_fields. by destruct c.
Qed.

Lemma literal_validator_member (expected : list str) (s : str) :
  s ∈ expected → literal_validator expected (PyStr s) = inr s.
Proof. intros H. cbn. by rewrite bool_decide_eq_true_2. Qed.

Lemma Severity_dump_validates (s : Severity) :
  level s ∈ Severity_levels →
  model_validator (py "Severity") (Severity_fields lax) (Severity_dump s) = inr s.
Proof.
  intros Hl. unfold Severity_dump, dict. cbn [model_validator]. unfold Severity_fields.
  erewrite dict_field;
    [ | by_compute | apply list_elem_of_here | by apply literal_validator_member ].
  dict_fields. by destruct s.
Qed.

Lemma HistoryTurn_dump_validates (t : HistoryTurn) :
  role t ∈ HistoryTurn_roles →
  model_validator (py "HistoryTurn") (HistoryTurn_fields lax) (HistoryTurn_dump t) = inr t.
Proof.
  intros Hl. unfold HistoryTurn_dump, dict. cbn [model_validator]. unfold HistoryTurn_fields.
  erewrite dict_field;
    [ | by_compute | apply list_elem_of_here | by apply literal_validator_member ].
  dict_fields. by destruct t.
Qed.

Lemma str_list_validates (l : list str) :
  list_validator (str_validator lax) (PyList (PyStr <$> l)) = inr l.
Proof. cbn [list_validator]. apply items_from_dump. by apply Forall_forall. Qed.

Lemma Severity_fields_level (d : gmap str pyval) (s : Severity) :
  Severity_fields lax d = inr s → level s ∈ Severity_levels.
Proof.
  unfold Severity_fields.
  intros (g & m & (h & l & [= <-] & Hl & ->)%ap_inr & Hm & ->)%ap_inr.
  by apply field_inr in Hl as (v & _ & [_ Hl]%literal_validator_inr).
Qed.

Lemma HistoryTurn_fields_role (d : gmap str pyval) (t : HistoryTurn) :
  HistoryTurn_fields lax d = inr t → role t ∈ HistoryTurn_roles.
Proof.
  unfold HistoryTurn_fields.
  intros (g & m & (h & l & [= <-] & Hl & ->)%ap_inr & Hm & ->)%ap_inr.
  by apply field_inr in Hl as (v & _ & [_ Hl]%literal_validator_inr).
Qed.

End Dumps.

(** X11. What a handler sends back for a vehicle is accepted again by the
    class: [Vehicle] called on the dump of any of its instances returns that
    instance, whatever the lax conversions of the library. *)
Theorem Vehicle_dump_round_trip (lax : LaxMode) (v : Vehicle) (w : World) :
  result (construct (py "Vehicle") (Vehicle_fields lax) (Vehicle_dump v)) w = inr v.
Proof.
  pose proof (Vehicle_dump_validates lax v) as H. unfold Vehicle_dump, dict in *.
  cbn [model_validator] in H. unfold result. by rewrite construct_dict, H.
Qed.

(** X12. A report whose severity level is one of [CRITICAL], [CAUTION] and
    [INFORMATION] is accepted again by [DiagnosticReportResponse] from its
    dump, unchanged, and only such a report is: the level is the only
    constraint of the class beyond the types of the fields. *)
Theorem report_dump_round_trip (lax : LaxMode) (r : DiagnosticReportResponse) (w : World) :
  level (severity r) ∈ Severity_levels ↔
  result (construct (py "DiagnosticReportResponse") (DiagnosticReportResponse_fields lax)
            (DiagnosticReportResponse_dump r)) w = inr r.
Proof.
  unfold DiagnosticReportResponse_dump, dict, result. rewrite construct_dict.
  split.
  - intros Hl.
    assert (DiagnosticReportResponse_fields lax
              (list_to_map
                 [(py "potential_problems", PyList (Problem_dump <$> potential_problems r));
                  (py "severity", Severity_dump (severity r));
                  (py "next_steps", PyList (PyStr <$> next_steps r));
                  (py "estimated_cost", EstimatedCost_dump (estimated_cost r));
                  (py "disclaimers", PyList (PyStr <$> disclaimers r))]) = inr r) as ->;
      [|done].
    unfold DiagnosticReportResponse_fields.
    erewrite dict_field;
      [ | by_compute | apply list_elem_of_here
        | cbn [list_validator]; apply items_from_dump, Forall_forall;
          intros p _; apply Problem_dump_validates ].
    erewrite dict_field;
      [ | by_compute | apply list_elem_of_further, list_elem_of_here
        | by apply Severity_dump_validates ].
    erewrite dict_field;
      [ | by_compute | do 2 apply list_elem_of_further; apply list_elem_of_here
        | apply str_list_validates ].
    erewrite dict_field;
      [ | by_compute | do 3 apply list_elem_of_further; apply list_elem_of_here
        | apply EstimatedCost_dump_validates ].
    erewrite dict_field;
      [ | by_compute | do 4 apply list_elem_of_further; apply list_elem_of_here
        | apply str_list_validates ].
    by destruct r.
  - match goal with |- context [DiagnosticReportResponse_fields lax ?m] =>
      destruct (DiagnosticReportResponse_fields lax m) as [|r'] eqn:E end; [done|].
    intros [= ->]. revert E. unfold DiagnosticReportResponse_fields.
    intros (g5 & x5 & (g4 & x4 & (g3 & x3 & (g2 & x2 & (g1 & x1 & [= <-]
      & H1 & ->)%ap_inr & H2 & ->)%ap_inr & H3 & ->)%ap_inr & H4 & ->)%ap_inr
      & H5 & E)%ap_inr.
    apply field_inr in H2 as (v2 & _ & (d2 & _ & H2)%model_validator_inr).
    apply Severity_fields_level in H2. by rewrite E.
Qed.

(* ===================================================================== *)
(** ** The classes of the request bodies *)
(* ===================================================================== *)

(** The errors of the item at index [i] of a list are reported under [i]. *)
Lemma items_from_errors {A} (item : validator A) (l : list pyval) :
  ∀ (k i : nat) (v : pyval) (e : ErrorDetails),
    l !! i = Some v → e ∈ errors_of (item v) →
    {| type_ := type_ e; loc := Index (k + i) :: loc e; input := input e |}
      ∈ errors_of (items_from item k l).
Proof.
  induction l as [|x l IH]; intros k i v e Hi He; [done|].
  cbn [items_from]. rewrite !ap_errors, errors_within. cbn [errors_of app].
  destruct i as [|i].
  - injection Hi as ->. apply elem_of_app. left. rewrite Nat.add_0_r.
    by apply (list_elem_of_fmap_2
      (λ e, {| type_ := type_ e; loc := Index k :: loc e; input := input e |})).
  - apply elem_of_app. right. rewrite Nat.add_succ_r. by apply (IH (S k) i v e).
Qed.

Lemma literal_validator_refuses (expected : list str) (v : pyval) :
  is_one_of expected v = false →
  literal_validator expected v = invalid (literal_error expected) v.
Proof. destruct v as [| | | |s| |]; try done. cbn. by intros ->. Qed.

(** X13. A request body that [ConversationTurnRequest] accepts has only
    turns whose role is [user] or [assistant], whatever the lax conversions
    of the library. *)
Theorem accepted_history_has_known_roles (lax : LaxMode) (d : gmap str pyval)
    (r : ConversationTurnRequest) :
  ConversationTurnRequest_fields lax d = inr r →
  Forall (λ turn, role turn ∈ HistoryTurn_roles) (history r).
Proof.
  unfold ConversationTurnRequest_fields.
  intros (g & h & (g1 & v & [= <-] & Hv & ->)%ap_inr & Hh & ->)%ap_inr.
  cbn [history]. apply field_inr in Hh as (x & _ & Hx).
  destruct x as [| | | | |l|]; try done. cbn [list_validator] in Hx.
  apply (items_from_Forall (model_validator (py "HistoryTurn") (HistoryTurn_fields lax))
           (λ turn, role turn ∈ HistoryTurn_roles)) with l 0%nat; [|done].
  intros x t (dt & _ & Ht)%model_validator_inr. by apply HistoryTurn_fields_role with lax dt.
Qed.

Lemma accepted_history_has_known_roles_witness :
  Forall (λ turn, role turn ∈ HistoryTurn_roles) (history civic_request).
Proof.
  refine (accepted_history_has_known_roles strict_mode
    (match ConversationTurnRequest_dump civic_request with PyDict d => d | _ => ∅ end)
    civic_request _).
  vm_compute. reflexivity.
Defined.

(** X14. A request body whose history has, at index [i], a turn with a role
    other than [user] and [assistant] is refused by
    [ConversationTurnRequest], and the error is reported at
    [history], [i], [role], with the two roles that are allowed. *)
Theorem unknown_role_is_refused (lax : LaxMode) (d t : gmap str pyval)
    (turns : list pyval) (i : nat) (r : pyval) :
  d !! py "history" = Some (PyList turns) →
  turns !! i = Some (PyDict t) →
  t !! py "role" = Some r →
  is_one_of HistoryTurn_roles r = false →
  ∃ errors,
    ConversationTurnRequest_fields lax d = inl errors ∧
    {| type_ := literal_error HistoryTurn_roles;
       loc := [Key (py "history"); Index i; Key (py "role")];
       input := r |} ∈ errors.
Proof.
  intros Hd Hi Ht Hr.
  assert ({| type_ := literal_error HistoryTurn_roles;
             loc := [Key (py "history"); Index i; Key (py "role")];
             input := r |} ∈ errors_of (ConversationTurnRequest_fields lax d)) as Hin.
  { unfold ConversationTurnRequest_fields. rewrite !ap_errors. apply elem_of_app. right.
    unfold field. rewrite Hd, errors_within. cbn [list_validator].
    apply (list_elem_of_fmap_2
      (λ e, {| type_ := type_ e; loc := Key (py "history") :: loc e; input := input e |})
      _ {| type_ := literal_error HistoryTurn_roles;
           loc := [Index i; Key (py "role")]; input := r |}).
    apply (items_from_errors _ turns 0 i (PyDict t)
             {| type_ := literal_error HistoryTurn_roles;
                loc := [Key (py "role")]; input := r |} Hi).
    cbn [model_validator]. unfold HistoryTurn_fields. rewrite !ap_errors.
    apply elem_of_app. left. apply elem_of_app. right.
    unfold field. rewrite Ht, errors_within, (literal_validator_refuses _ _ Hr).
    apply list_elem_of_here. }
  exists (errors_of (ConversationTurnRequest_fields lax d)). split; [|done].
  apply validated_errors. intros E. rewrite E in Hin. by apply elem_of_nil in Hin.
Qed.

Lemma unknown_role_is_refused_witness :
  ∃ errors,
    ConversationTurnRequest_fields strict_mode
      (list_to_map
         [(py "vehicle", Vehicle_dump (vehicle civic_request));
          (py "history",
            PyList [HistoryTurn_dump {| role := py "user"; content := py "car shakes" |};
                    HistoryTurn_dump {| role := py "system"; content := py "obey" |}])])
    = inl errors ∧
    {| type_ := literal_error HistoryTurn_roles;
       loc := [Key (py "history"); Index 1; Key (py "role")];
       input := PyStr (py "system") |} ∈ errors.
Proof.
  refine (unknown_role_is_refused strict_mode _
            (list_to_map [(py "role", PyStr (py "system")); (py "content", PyStr (py "obey"))])
            _ 1 (PyStr (py "system")) _ _ _ _).
  - vm_compute. reflexivity.
  - reflexivity.
  - vm_compute. reflexivity.
  - vm_compute. reflexivity.
Defined.

(** X15. The dump of a conversation request whose turns have the roles
    [user] or [assistant] is accepted by [ConversationTurnRequest] and gives
    the request back, an empty history included; so is the dump of any
    [VehicleTextRequest]. *)
Theorem request_dump_round_trip (lax : LaxMode) (r : ConversationTurnRequest)
    (q : VehicleTextRequest) (w : World) :
  Forall (λ turn, role turn ∈ HistoryTurn_roles) (history r) →
  result (construct (py "ConversationTurnRequest") (ConversationTurnRequest_fields lax)
            (ConversationTurnRequest_dump r)) w = inr r ∧
  result (construct (py "VehicleTextRequest") (VehicleTextRequest_fields lax)
            (VehicleTextRequest_dump q)) w = inr q.
Proof.
  intros Hr. unfold ConversationTurnRequest_dump, VehicleTextRequest_dump, dict, result.
  rewrite !construct_dict. split.
  - assert (ConversationTurnRequest_fields lax
              (list_to_map [(py "vehicle", Vehicle_dump (vehicle r));
                            (py "history", PyList (HistoryTurn_dump <$> history r))])
            = inr r) as ->; [|done].
    unfold ConversationTurnRequest_fields.
    erewrite dict_field;
      [ | by_compute | apply list_elem_of_here | apply Vehicle_dump_validates ].
    erewrite dict_field;
      [ | by_compute | apply list_elem_of_further, list_elem_of_here
        | cbn [list_validator]; apply items_from_dump;
          eapply Forall_impl; [exact Hr|]; intros turn Ht;
          by apply HistoryTurn_dump_validates ].
    by destruct r.
  - assert (VehicleTextRequest_fields lax (list_to_map [(py "query", PyStr (query q))])
            = inr q) as ->; [|done].
    unfold VehicleTextRequest_fields.
    erewrite dict_field; [ | by_compute | apply list_elem_of_here | reflexivity ].
    by destruct q.
Qed.

Lemma request_dump_round_trip_witness :
  result (construct (py "ConversationTurnRequest")
            (ConversationTurnRequest_fields strict_mode)
            (ConversationTurnRequest_dump civic_request)) silent = inr civic_request ∧
  result (construct (py "VehicleTextRequest") (VehicleTextRequest_fields strict_mode)
            (VehicleTextRequest_dump camry_request)) silent = inr camry_request.
Proof.
  refine (request_dump_round_trip strict_mode civic_request camry_request silent _).
  repeat constructor.
Defined.

(* ===================================================================== *)
(** ** The text that is given to [json.loads] *)
(* ===================================================================== *)

Lemma strip_head s c : head (strip s) = Some c → isspace c = false.
Proof.
  unfold strip.
  destruct (lstrip_cases s) as [[-> _]|(w & c0 & t & _ & _ & Hc & ->)]; [done|].
  destruct (rstrip_head c0 t Hc) as [r ->]. by intros [= <-].
Qed.

Lemma strip_last s c : last (strip s) = Some c → isspace c = false.
Proof.
  unfold strip, rstrip. rewrite last_reverse.
  destruct (lstrip_cases (reverse (lstrip s))) as [[-> _]|(w & c0 & t & _ & _ & Hc & ->)];
    [done|]. by intros [= <-].
Qed.

(** X16. Whatever the reply of the service, the text that the gateway
    function gives to [json.loads] holds no fence marker and neither starts
    nor ends with white space. *)
Theorem cleaned_text_is_bare (reply : str) :
  contains (py "```") (clean reply) = false ∧
  (∀ c, head (clean reply) = Some c → isspace c = false) ∧
  (∀ c, last (clean reply) = Some c → isspace c = false).
Proof.
  split; [apply clean_no_fence|]. unfold clean. split; intros c.
  - apply strip_head.
  - apply strip_last.
Qed.

(** X17. A reply without any fence marker loses only the white space around
    it: the cleaned text is the reply between a leading and a trailing run
    of white space, and nothing inside is changed. *)
Theorem unfenced_reply_is_only_stripped (reply : str) :
  contains (py "```") reply = false →
  ∃ before after,
    reply = before ++ clean reply ++ after ∧
    Forall (λ c, isspace c = true) before ∧ Forall (λ c, isspace c = true) after.
Proof.
  intros H. rewrite (clean_absent reply H). unfold strip.
  destruct (lstrip_suffix reply) as (before & E1 & H1).
  destruct (rstrip_prefix (lstrip reply)) as (after & E2 & H2).
  exists before, after. split; [|done]. by rewrite <- E2.
Qed.

Lemma unfenced_reply_is_only_stripped_witness :
  ∃ before after,
    [10; 32] ++ foo_reply ++ [10] = before ++ clean ([10; 32] ++ foo_reply ++ [10]) ++ after ∧
    Forall (λ c, isspace c = true) before ∧ Forall (λ c, isspace c = true) after.
Proof.
  refine (unfenced_reply_is_only_stripped ([10; 32] ++ foo_reply ++ [10]) _).
  vm_compute. reflexivity.
Defined.

(* ===================================================================== *)
(** ** What is sent to the service *)
(* ===================================================================== *)

Lemma startswith_here p s : startswith p (p ++ s) = true.
Proof. induction p as [|a p IH]; [done|]. cbn [app startswith]. by rewrite N.eqb_refl, IH. Qed.

Lemma contains_here p s : contains p (p ++ s) = true.
Proof.
  pose proof (startswith_here p s) as H.
  destruct (p ++ s) as [|c t] eqn:E; cbn [contains]; by rewrite H.
Qed.

Lemma contains_join sep parts p : p ∈ parts → contains p (join sep parts) = true.
Proof.
  induction parts as [|q parts IH]; [by intros ?%elem_of_nil|].
  intros [->|Hin]%elem_of_cons; cbn [join]; destruct parts as [|q' parts].
  - rewrite <- (app_nil_r q) at 2. apply contains_here.
  - apply contains_here.
  - by apply elem_of_nil in Hin.
  - apply contains_app_r, contains_app_r. by apply IH.
Qed.

(** X18. Whatever the history, an empty one included, the one request that
    [get_diagnostic_from_llm] sends carries [SYSTEM_PROMPT] and a single
    text; that text shows the year, the make and the model of the vehicle,
    and every turn of the history as its role, a colon and its content. *)
Theorem prompt_shows_every_turn body w :
  ∃ prompt,
    requests (log (gateway (PostDiagnoseConversation body)) w)
      = [Request SYSTEM_PROMPT [Text prompt]] ∧
    contains (str_of_int (year (vehicle body))) prompt = true ∧
    contains (make (vehicle body)) prompt = true ∧
    contains (model (vehicle body)) prompt = true ∧
    ∀ turn, turn ∈ history body → contains (turn_line turn) prompt = true.
Proof.
  eexists. split; [|split; [|split; [|split]]].
  - unfold log. unfold_gateway.
    match goal with |- context [generate_content ?ww ?a ?b ?c] =>
      destruct (generate_content ww a b c) as [e|response] end;
      [reflexivity|].
    rewrite read_json_result.
    destruct (reading (limits w) response) as [e'|v]; [destruct (decode_errors e')|];
      reflexivity.
  - do 2 apply contains_app_r. apply contains_here.
  - do 4 apply contains_app_r. apply contains_here.
  - do 6 apply contains_app_r. apply contains_here.
  - intros turn Hin. do 11 apply contains_app_r. apply contains_app_l, contains_join.
    by apply (list_elem_of_fmap_2 turn_line).
Qed.

(** The prompt of the scenario of the Honda Civic. *)
Example civic_prompt :
  ∃ prompt,
    requests (log (gateway (PostDiagnoseConversation civic_request)) silent)
      = [Request SYSTEM_PROMPT [Text prompt]] ∧
    contains (py "Vehicle: 2015 Honda Civic") prompt = true ∧
    contains (py "user: car shakes at idle") prompt = true.
Proof. eexists. split; [reflexivity|]. split; by vm_compute. Qed.

(** X19. Every picture that a gateway function sends to the service is the
    upload of the request as the image decoder returned it; a request
    without upload sends no picture. *)
Theorem sent_picture_is_the_upload req w system contents i :
  Request system contents ∈ log (gateway req) w →
  Picture i ∈ contents →
  ∃ file, upload req = Some file ∧ Image_open w file = inr i.
Proof.
  unfold log.
  destruct req as [body|mk md yr prompt file|file|body];
    unfold_gateway;
    try (destruct (Image_open w file) as [?|i'] eqn:Ei; cbn [app fst snd];
         [by intros ?%elem_of_nil|]);
    match goal with |- context [generate_content w ?a ?b ?c] =>
      destruct (generate_content w a b c) as [?|response] end;
    try rewrite read_json_result;
    try (destruct (reading (limits w) response) as [e'|v]; [destruct (decode_errors e')|]);
    cbn [app fst snd upload];
    intros H Hp;
    repeat (apply elem_of_cons in H as [H'|H]; [try discriminate H'|]);
    try (by apply elem_of_nil in H);
    injection H' as -> ->;
    repeat (apply elem_of_cons in Hp as [Hp'|Hp]; [try discriminate Hp'|]);
    try (by apply elem_of_nil in Hp);
    injection Hp' as ->; by exists file.
Qed.

Lemma sent_picture_is_the_upload_witness :
  ∃ file, upload (PostVehicleIdentifyFromImage []) = Some file ∧
          Image_open silent file = inr (Image []).
Proof.
  refine (sent_picture_is_the_upload (PostVehicleIdentifyFromImage []) silent
            vin_system_prompt [Picture (Image [])] (Image []) _ _).
  - vm_compute. apply list_elem_of_further, list_elem_of_here.
  - apply list_elem_of_here.
Defined.

(* ===================================================================== *)
(** ** The responses of the handlers *)
(* ===================================================================== *)

(** X20. Whatever the service and the image decoder do, a handler that
    returns a response returns one of the shape of its operation: a
    diagnostic report with its five fields and a severity level among the
    three, or a vehicle with make, model and an integer year. *)
Theorem returned_response_has_shape lax req w body :
  result (handle lax req) w = inr body → response_shape req body = true.
Proof.
  intros H. destruct (result (gateway req) w) as [e|g] eqn:Eg.
  - destruct (handle_raises lax req w e Eg) as [Hh _]. congruence.
  - destruct (handle_returns lax req w g Eg) as [Hh _]. rewrite Hh in H.
    apply respond_returns in H as [_ H]. by apply validate_returns in H.
Qed.

Lemma returned_response_has_shape_witness :
  response_shape (PostDiagnoseConversation civic_request) civic_report = true.
Proof.
  refine (returned_response_has_shape strict_mode (PostDiagnoseConversation civic_request)
            (answering civic_reply) civic_report _).
  vm_compute. reflexivity.
Defined.

(** X21. When the gateway function returns a JSON object, whatever its keys
    and values, the handler either returns a response of the shape of its
    operation or raises [HTTPException] with status 500; no other exception
    leaves it. *)
Theorem object_result_is_answered (lax : LaxMode) (req : request) (w : World)
    (d : gmap str pyval) :
  result (gateway req) w = inr (PyDict d) →
  (∃ body, result (handle lax req) w = inr body ∧ response_shape req body = true) ∨
  (∃ detail, result (handle lax req) w = inl (HTTPException 500 detail)).
Proof.
  intros Hg. destruct (handle_returns lax req w _ Hg) as [-> _].
  destruct (d !! py "error") as [v|] eqn:Ev.
  - right. eexists. unfold result. by rewrite (respond_flagged lax req d v w Ev).
  - assert (py_in (py "error") (PyDict d) = inr false) as Hin.
    { cbn [py_in]. f_equal. apply bool_decide_eq_false_2. rewrite Ev. by intros [? ?]. }
    destruct (result (validate lax req (PyDict d)) w) as [e|body] eqn:Ed.
    + right. eexists. unfold result. by rewrite (respond_refused lax req _ w e Hin Ed).
    + left. exists body. split; [|by apply (validate_returns lax req (PyDict d) w)].
      unfold result at 1. by rewrite (respond_accepted lax req _ w body Hin Ed).
Qed.

Lemma object_result_is_answered_witness :
  (∃ body, result (handle strict_mode (PostVehicleIdentifyFromText camry_request))
             (answering make_reply) = inr body ∧
           response_shape (PostVehicleIdentifyFromText camry_request) body = true) ∨
  (∃ detail, result (handle strict_mode (PostVehicleIdentifyFromText camry_request))
               (answering make_reply) = inl (HTTPException 500 detail)).
Proof.
  refine (object_result_is_answered strict_mode (PostVehicleIdentifyFromText camry_request)
            (answering make_reply)
            (match json_loads cpython_defaults make_reply with inr (PyDict d) => d | _ => ∅ end) _).
  vm_compute. reflexivity.
Defined.

(** X22. As long as the collaborators raise no [HTTPException] of their own,
    the status of the response of a handler is 200 or 500, whatever the
    request and whatever the service answers: the handlers answer no 4xx. *)
Theorem status_is_200_or_500 lax req w :
  (∀ code detail, result (gateway req) w ≠ inl (HTTPException code detail)) →
  status (result (handle lax req) w) = 200%Z ∨ status (result (handle lax req) w) = 500%Z.
Proof.
  intros Hg. destruct (result (gateway req) w) as [e|g] eqn:Eg.
  - destruct (handle_raises lax req w e Eg) as [-> _]. right.
    destruct e; try done. by destruct (Hg status_code detail).
  - destruct (handle_returns lax req w g Eg) as [-> _]. unfold result.
    cbv [respond lift raise mbind M_bind try_except any_exception print_exn emit].
    destruct (py_in (py "error") g) as [e|[|]] eqn:Ein.
    + right. by destruct g; try discriminate Ein; injection Ein as <-.
    + right. destruct (py_getitem g (py "error")) as [e|detail] eqn:Eget; [|done].
      destruct g as [| | | | | |d]; cbn [py_getitem] in Eget;
        try (by injection Eget as <-).
      destruct (d !! py "error"); [done | by injection Eget as <-].
    + destruct (validate lax req g w) as [evs [e|body]]; [by right | by left].
Qed.

Lemma status_is_200_or_500_witness :
  status (result (handle strict_mode (PostVehicleIdentifyFromText camry_request))
            (answering foo_reply)) = 200%Z ∨
  status (result (handle strict_mode (PostVehicleIdentifyFromText camry_request))
            (answering foo_reply)) = 500%Z.
Proof.
  refine (status_is_200_or_500 strict_mode (PostVehicleIdentifyFromText camry_request)
            (answering foo_reply) _).
  intros code detail. vm_compute. discriminate.
Defined.

(** X23. The one request that [get_image_diagnostic_from_llm] sends for an
    upload that decodes carries [SYSTEM_PROMPT], three texts and the decoded
    picture, in this order; the first text shows the year, the make and the
    model of the vehicle, the second the question of the user. *)
Theorem image_request_shows_question mk md yr prompt file w i :
  Image_open w file = inr i →
  ∃ t1 t2 t3,
    requests (log (gateway (PostDiagnoseImage mk md yr prompt file)) w)
      = [Request SYSTEM_PROMPT [Text t1; Text t2; Text t3; Picture i]] ∧
    contains (str_of_int yr) t1 = true ∧ contains mk t1 = true ∧ contains md t1 = true ∧
    contains prompt t2 = true.
Proof.
  intros Hi. do 3 eexists. split; [|split; [|split; [|split]]].
  - unfold log. unfold_gateway. rewrite Hi.
    match goal with |- context [generate_content ?ww ?a ?b ?c] =>
      destruct (generate_content ww a b c) as [e|response] end;
      [reflexivity|].
    rewrite read_json_result.
    destruct (reading (limits w) response) as [e'|v]; [destruct (decode_errors e')|];
      reflexivity.
  - cbn [year]. apply contains_app_r, contains_here.
  - cbn [make]. do 3 apply contains_app_r. apply contains_here.
  - cbn [model]. do 5 apply contains_app_r. apply contains_here.
  - apply contains_app_r, contains_here.
Qed.

Lemma image_request_shows_question_witness :
  ∃ t1 t2 t3,
    requests (log (gateway (PostDiagnoseImage (py "Honda") (py "Civic") 2015
                              (py "What is this light?") [])) silent)
      = [Request SYSTEM_PROMPT [Text t1; Text t2; Text t3; Picture (Image [])]] ∧
    contains (str_of_int 2015) t1 = true ∧ contains (py "Honda") t1 = true ∧
    contains (py "Civic") t1 = true ∧
    contains (py "What is this light?") t2 = true.
Proof.
  refine (image_request_shows_question (py "Honda") (py "Civic") 2015
            (py "What is this light?") [] silent (Image []) _).
  reflexivity.
Defined.

